(** * SageMaker example notebooks: a shallow embedding of the notebook code

    Two notebooks are embedded here:

    - [basic_sagemaker_processing.ipynb]: the cells that stage the census
      data set, the [preprocessing.py] script written by the [%%writefile]
      cell, the [sklearn_processor.run] call, the job-name extraction and
      the S3 verification loop;
    - [tensorflow_BYOM_iris.ipynb]: the [iris_mlp] model definition and
      the local cleanup cell.

    Python values are modelled by Rocq data, Python exceptions by a
    [result] type, and the statements of a cell by a small state and
    exception monad over a [World] (file system, standard output, random
    generator, S3 buckets, and a log of the system calls attempted).

    The notebooks call into the standard library, pandas, scikit-learn,
    boto3 and the SageMaker SDK.  Those calls are modelled by what the
    libraries document: which exception each call raises and when, what
    it leaves in the file system, and what it returns.  The random
    generator is a list of draws in the world, so that a statement about
    every world is a statement about every outcome of the shuffles. *)

From Stdlib Require Import ZArith QArith Ascii String DecimalString DecimalNat Permutation
  Floats Uint63.
From stdpp Require Import gmap strings list.

Set Warnings "-clear-no-such-hyp".

(** ** Python strings and lists *)

(** The line feed character, written ["\n"] in the notebooks. *)
Definition LF : ascii := "010"%char.
Definition SPACE : ascii := " "%char.

(** [str.split(sep)] for a one-character separator.  Python returns a
    non-empty list: [''.split(sep) == ['']]. *)
Fixpoint py_split (sep : ascii) (s : string) : list string :=
  match s with
  | EmptyString => [EmptyString]
  | String c s' =>
      if Ascii.eqb c sep then EmptyString :: py_split sep s'
      else match py_split sep s' with
           | [] => [String c EmptyString]
           | t :: ts => String c t :: ts
           end
  end.

(** [sep in s] for a one-character [sep]. *)
Fixpoint contains (sep : ascii) (s : string) : bool :=
  match s with
  | EmptyString => false
  | String c s' => Ascii.eqb c sep || contains sep s'
  end.

(** [str(n)] for a non-negative integer. *)
Definition str_nat (n : nat) : string := NilZero.string_of_uint (Nat.to_uint n).

(** ** Python exceptions *)

(** The [OSError] subclasses the file operations raise. *)
Inductive OSErrorKind :=
  | FileNotFoundError
  | FileExistsError
  | PermissionError
  | IsADirectoryError
  | NotADirectoryError
  | OtherOSError (errno : nat).

Inductive ExcKind :=
  | OSError (k : OSErrorKind)
  | IndexError
  | KeyError
  | ValueError
  | EmptyDataError
  | ParserError
  | ClientError
  | KeyboardInterrupt.

Record Exc := mkExc { exc_kind : ExcKind; exc_msg : string }.

(** [isinstance(e, Exception)]: every class above derives from
    [Exception] except [KeyboardInterrupt], which derives from
    [BaseException] only. *)
Definition isinstance_Exception (e : Exc) : bool :=
  match exc_kind e with
  | KeyboardInterrupt => false
  | _ => true
  end.

Inductive result (A : Type) :=
  | Ok (a : A)
  | Raise (e : Exc).
Arguments Ok {A} a.
Arguments Raise {A} e.

Definition index_error : Exc := mkExc IndexError "list index out of range".

(** [l[i]] on a Python list, with negative indices counted from the end. *)
Definition py_index {A} (l : list A) (i : Z) : result A :=
  let n := Z.of_nat (length l) in
  let j := if (i <? 0)%Z then (i + n)%Z else i in
  if (j <? 0)%Z then Raise index_error
  else match l !! Z.to_nat j with
       | Some a => Ok a
       | None => Raise index_error
       end.

(** ** Job-name extraction (basic_sagemaker_processing.ipynb)

    [job_name = str(output).split("\n")[1].split(" ")[-1]]; the argument
    is [str(output)], the captured text. *)
Definition job_name (output : string) : result string :=
  match py_index (py_split LF output) 1 with
  | Raise e => Raise e
  | Ok line => py_index (py_split SPACE line) (-1)
  end.

(** ** Files and directories

    A CSV file is kept as its table of cells: a list of lines, each a
    list of cells.  Cell text is not interpreted (no dtype inference). *)
Abbreviation csv := (list (list string)).

Inductive node :=
  | File (content : csv)
  | Dir.

(** The file system seen by one process.  [nodes] maps a path, as its
    list of components, to what is stored there.  [faults] lists paths on
    which the operating system refuses the operations, with the error it
    reports (read-only mount, permissions, no space left...). *)
Record FileSystem := mkFS {
  nodes : gmap (list string) node;
  faults : gmap (list string) OSErrorKind
}.

Definition path_of (p : string) : list string :=
  filter (λ c, c ≠ EmptyString) (py_split "/"%char p).

Definition is_abs (p : string) : bool :=
  match p with String "/"%char _ => true | _ => false end.

Fixpoint join_path (k : list string) : string :=
  match k with
  | [] => ""
  | [c] => c
  | c :: k' => c +:+ "/" +:+ join_path k'
  end.

Definition render (abs : bool) (k : list string) : string :=
  (if abs then "/" else "") +:+ join_path k.

(** The root (or the working directory, for a relative path) always
    exists and is a directory. *)
Definition lookup_node (fs : FileSystem) (k : list string) : option node :=
  match k with
  | [] => Some Dir
  | _ => nodes fs !! k
  end.

Definition set_nodes (fs : FileSystem) (m : gmap (list string) node) : FileSystem :=
  mkFS m (faults fs).

Definition errno_of (k : OSErrorKind) : nat :=
  match k with
  | FileNotFoundError => 2
  | FileExistsError => 17
  | PermissionError => 13
  | IsADirectoryError => 21
  | NotADirectoryError => 20
  | OtherOSError n => n
  end.

Definition strerror (k : OSErrorKind) : string :=
  match k with
  | FileNotFoundError => "No such file or directory"
  | FileExistsError => "File exists"
  | PermissionError => "Permission denied"
  | IsADirectoryError => "Is a directory"
  | NotADirectoryError => "Not a directory"
  | OtherOSError n =>
      if decide (n = 28) then "No space left on device"
      else if decide (n = 122) then "Disk quota exceeded"
      else "Unknown error " +:+ str_nat n
  end.

(** [OSError(errno, strerror, filename)]; [exc_msg] is what [str(e)] gives. *)
Definition os_error (k : OSErrorKind) (p : string) : Exc :=
  mkExc (OSError k)
        ("[Errno " +:+ str_nat (errno_of k) +:+ "] " +:+ strerror k +:+ ": '" +:+ p +:+ "'").

(** [OSError(errno, strerror)], with no file name: what a failed [write]
    on an open file raises. *)
Definition os_error_nofile (k : OSErrorKind) : Exc :=
  mkExc (OSError k) ("[Errno " +:+ str_nat (errno_of k) +:+ "] " +:+ strerror k).

(** The errors the system reports when data is written, not when the
    file is opened: [ENOSPC] (28, no space left on the device) and
    [EDQUOT] (122, quota exceeded). *)
Definition at_write (err : OSErrorKind) : bool :=
  match err with
  | OtherOSError n => bool_decide (n = 28 ∨ n = 122)
  | _ => false
  end.

Abbreviation fsop A := (FileSystem → result A * FileSystem).

(** [os.mkdir] on the path with components [k]. *)
Definition mkdir_at (abs : bool) (k : list string) : fsop unit := λ fs,
  match faults fs !! k with
  | Some err => (Raise (os_error err (render abs k)), fs)
  | None =>
      match lookup_node fs k with
      | Some _ => (Raise (os_error FileExistsError (render abs k)), fs)
      | None =>
          match lookup_node fs (removelast k) with
          | None => (Raise (os_error FileNotFoundError (render abs k)), fs)
          | Some (File _) => (Raise (os_error NotADirectoryError (render abs k)), fs)
          | Some Dir => (Ok tt, set_nodes fs (<[k := Dir]> (nodes fs)))
          end
      end
  end.

(** [os.makedirs(name)] with [exist_ok=False], by recursion on the
    reversed component list: when the parent [head] does not exist it is
    made first, a [FileExistsError] from that recursive call is passed
    over, and the leaf is made with [os.mkdir]. *)
Fixpoint makedirs_rev (abs : bool) (rk : list string) : fsop unit := λ fs,
  match rk with
  | [] => mkdir_at abs [] fs
  | _ :: rhead =>
      let parent_done :=
        if lookup_node fs (rev rhead) is Some _ then (Ok tt, fs)
        else match makedirs_rev abs rhead fs with
             | (Raise e, fs') =>
                 match exc_kind e with
                 | OSError FileExistsError => (Ok tt, fs')
                 | _ => (Raise e, fs')
                 end
             | r => r
             end in
      match parent_done with
      | (Raise e, fs') => (Raise e, fs')
      | (Ok _, fs') => mkdir_at abs (rev rk) fs'
      end
  end.

Definition fs_makedirs (p : string) : fsop unit :=
  makedirs_rev (is_abs p) (rev (path_of p)).

(** [open(p, "w")] followed by writing [c] and closing.  [open] creates
    the file, or empties the one that is there, before anything is
    written: when the fault on the path is one the system reports at
    [write] time, the call raises with the file left empty, and the
    error carries no file name. *)
Definition fs_write (p : string) (c : csv) : fsop unit := λ fs,
  let k := path_of p in
  let refused :=
    match faults fs !! k with
    | Some err => if at_write err then None else Some err
    | None => None
    end in
  let write_data : result unit * FileSystem :=
    match faults fs !! k with
    | Some err => (Raise (os_error_nofile err), set_nodes fs (<[k := File []]> (nodes fs)))
    | None => (Ok tt, set_nodes fs (<[k := File c]> (nodes fs)))
    end in
  match refused with
  | Some err => (Raise (os_error err p), fs)
  | None =>
      match lookup_node fs k with
      | Some Dir => (Raise (os_error IsADirectoryError p), fs)
      | Some (File _) => write_data
      | None =>
          match lookup_node fs (removelast k) with
          | None => (Raise (os_error FileNotFoundError p), fs)
          | Some (File _) => (Raise (os_error NotADirectoryError p), fs)
          | Some Dir => write_data
          end
      end
  end.

(** [open(p).read()] *)
Definition fs_read (p : string) : fsop csv := λ fs,
  let k := path_of p in
  match faults fs !! k with
  | Some err => (Raise (os_error err p), fs)
  | None =>
      match lookup_node fs k with
      | None => (Raise (os_error FileNotFoundError p), fs)
      | Some Dir => (Raise (os_error IsADirectoryError p), fs)
      | Some (File c) => (Ok c, fs)
      end
  end.

(** [os.remove(p)] *)
Definition fs_remove (p : string) : fsop unit := λ fs,
  let k := path_of p in
  match faults fs !! k with
  | Some err => (Raise (os_error err p), fs)
  | None =>
      match lookup_node fs k with
      | None => (Raise (os_error FileNotFoundError p), fs)
      | Some Dir => (Raise (os_error IsADirectoryError p), fs)
      | Some (File _) => (Ok tt, set_nodes fs (delete k (nodes fs)))
      end
  end.

(** [k] lies in the tree rooted at [root]. *)
Definition under (root k : list string) : bool := bool_decide (root `prefix_of` k).

(** [shutil.rmtree(p)]: the directory and everything below it. *)
Definition fs_rmtree (p : string) : fsop unit := λ fs,
  let k := path_of p in
  match faults fs !! k with
  | Some err => (Raise (os_error err p), fs)
  | None =>
      match lookup_node fs k with
      | None => (Raise (os_error FileNotFoundError p), fs)
      | Some (File _) => (Raise (os_error NotADirectoryError p), fs)
      | Some Dir =>
          (Ok tt, set_nodes fs (filter (λ kv, under k kv.1 = false) (nodes fs)))
      end
  end.

(** ** The world a cell runs in, and the monad of cell statements *)

Inductive Event :=
  | EvRead (p : string)
  | EvMakedirs (p : string)
  | EvWrite (p : string)
  | EvRemove (p : string)
  | EvRmtree (p : string)
  | EvDownload (bucket key : string)
  | EvListObjects (bucket prefix : string).

(** An S3 bucket is the list of its objects, key and content, in
    listing order. *)
Record World := mkWorld {
  w_fs : FileSystem;
  w_stdout : list string;
  w_rng : list nat;
  w_s3 : gmap string (list (string * csv));
  w_trace : list Event
}.

Definition M (A : Type) : Type := World → result A * World.

Definition ret {A} (a : A) : M A := λ w, (Ok a, w).

Definition bind {A B} (c : M A) (k : A → M B) : M B := λ w,
  match c w with
  | (Ok a, w') => k a w'
  | (Raise e, w') => (Raise e, w')
  end.

Definition raise {A} (e : Exc) : M A := λ w, (Raise e, w).

Declare Scope py_scope.
Delimit Scope py_scope with py.
Notation "'let*' x := c 'in' k" := (bind c (λ x, k))
  (at level 10, x binder, c at level 100, k at level 200) : py_scope.
Notation "'let*' ' p := c 'in' k" := (bind c (λ x, match x with p => k end))
  (at level 10, p pattern, c at level 100, k at level 200) : py_scope.
Notation "c ;; k" := (bind c (λ _, k))
  (at level 100, right associativity) : py_scope.
Open Scope py_scope.

(** [try: body / except Exception as e: handler e] *)
Definition try_except (body : M unit) (handler : Exc → M unit) : M unit := λ w,
  match body w with
  | (Ok a, w') => (Ok a, w')
  | (Raise e, w') =>
      if isinstance_Exception e then handler e w' else (Raise e, w')
  end.

(** [for x in l: body x] *)
Fixpoint for_each {A} (l : list A) (body : A → M unit) : M unit :=
  match l with
  | [] => ret tt
  | x :: l' => body x ;; for_each l' body
  end.

Definition print (line : string) : M unit := λ w,
  (Ok tt, mkWorld (w_fs w) (w_stdout w ++ [line]) (w_rng w) (w_s3 w) (w_trace w)).

Definition log (ev : Event) : M unit := λ w,
  (Ok tt, mkWorld (w_fs w) (w_stdout w) (w_rng w) (w_s3 w) (w_trace w ++ [ev])).

(** A file operation run as a statement: the call is logged, then made. *)
Definition syscall {A} (ev : Event) (op : fsop A) : M A := λ w,
  let w1 := mkWorld (w_fs w) (w_stdout w) (w_rng w) (w_s3 w) (w_trace w ++ [ev]) in
  let '(r, fs') := op (w_fs w) in
  (r, mkWorld fs' (w_stdout w1) (w_rng w1) (w_s3 w1) (w_trace w1)).

Definition os_makedirs (p : string) : M unit := syscall (EvMakedirs p) (fs_makedirs p).
Definition os_remove (p : string) : M unit := syscall (EvRemove p) (fs_remove p).
Definition shutil_rmtree (p : string) : M unit := syscall (EvRmtree p) (fs_rmtree p).

(** [os.path.join(a, b)] *)
Definition ends_with_slash (a : string) : bool :=
  match rev (list_ascii_of_string a) with
  | c :: _ => Ascii.eqb c "/"%char
  | [] => true
  end.

Definition os_path_join (a b : string) : string :=
  if is_abs b then b
  else if ends_with_slash a then a +:+ b
  else a +:+ "/" +:+ b.

(** ** pandas *)

(** A data frame: column labels, and rows carrying their index label. *)
Record DataFrame := mkDF {
  columns : list string;
  rows : list (nat * list string)
}.

(** [df.shape] *)
Definition shape (df : DataFrame) : nat * nat :=
  (length (rows df), length (columns df)).

(** [str] of a pair of integers. *)
Definition str_shape (sh : nat * nat) : string :=
  "(" +:+ str_nat sh.1 +:+ ", " +:+ str_nat sh.2 +:+ ")".

(** A name that was seen before gets a suffix: the loop of
    [read_csv] over the header, [counts] holding how often each name was
    given out.
    [[
        cur_count = counts[col]
        while cur_count > 0:
            counts[col] = cur_count + 1
            col = f"{col}.{cur_count}"
            cur_count = counts[col]
        counts[col] = cur_count + 1
    ]]
    Each turn of the loop meets a longer name that is in [counts], so
    [size counts] turns and one are enough. *)
Fixpoint dedup_name (fuel : nat) (counts : gmap string nat) (col : string)
  : string * gmap string nat :=
  match default 0 (counts !! col), fuel with
  | S n, S fuel' =>
      dedup_name fuel' (<[col := S (S n)]> counts) (col +:+ "." +:+ str_nat (S n))
  | _, _ => (col, <[col := 1]> counts)
  end.

Definition dedup_names (names : list string) : list string :=
  (foldl (λ acc col,
            let '(col', counts) := dedup_name (S (size acc.2)) acc.2 col in
            (acc.1 ++ [col'], counts))
         ([], ∅) names).1.

(** Header cells left empty are named [Unnamed: i] by [read_csv], and
    names that occur twice are told apart ([a], [a.1], ...). *)
Definition name_columns (header : list string) : list string :=
  dedup_names (imap (λ i c, if decide (c = "") then "Unnamed: " +:+ str_nat i else c) header).

(** A line without text; [read_csv] skips such lines. *)
Definition blank (line : list string) : bool :=
  bool_decide (line = [] ∨ line = [""]).

(** A line with fewer cells than the table is wide is filled up with
    missing values, which [to_csv] writes as empty cells. *)
Definition pad (width : nat) (line : list string) : list string :=
  line ++ replicate (width - length line) "".

(** The number, counted from 1, that the [j]-th line with text has in
    the file. *)
Definition line_number (t : csv) (j : nat) : nat :=
  S (default 0 (fst <$> filter (λ il, blank il.2 = false) (imap (λ i l, (i, l)) t) !! j)).

Definition tokenizing_error (width line saw : nat) : Exc :=
  mkExc ParserError
        ("Error tokenizing data. C error: Expected " +:+ str_nat width +:+
         " fields in line " +:+ str_nat line +:+ ", saw " +:+ str_nat saw).

(** [pd.read_csv] on the text of a file, default arguments.  Lines
    without text are skipped; the first line left is the header; the
    table is as wide as the longer of the header and the first data line;
    a later line with more cells is a [ParserError], one with fewer is
    filled up; the rows get the index 0, 1, 2, ...

    A data frame holds each cell as the text [to_csv] writes for it.
    What [read_csv] makes of the text of a cell (an integer loses its
    leading zeros, a marker of a missing value becomes the empty cell,
    ...) is not modelled, nor is the index [read_csv] takes from a first
    data line longer than the header: the statements below that start
    from a file ask for a table whose lines are as long as its header, and
    say nothing of the text of the cells read. *)
Definition parse_csv (t : csv) : result DataFrame :=
  match filter (λ l, blank l = false) t with
  | [] => Raise (mkExc EmptyDataError "No columns to parse from file")
  | header :: body =>
      let width := max (length header) (length (hd [] body)) in
      match list_find (λ l, width < length l) body with
      | Some (j, l) => Raise (tokenizing_error width (line_number t (S j)) (length l))
      | None => Ok (mkDF (name_columns header) (imap (λ i r, (i, pad width r)) body))
      end
  end.

(** [df.to_csv] text, default arguments ([index=True], no index label):
    a first column holds the index, under an empty header cell. *)
Definition format_csv (df : DataFrame) : csv :=
  ("" :: columns df) :: map (λ r, str_nat r.1 :: r.2) (rows df).

Definition read_csv (p : string) : M DataFrame :=
  let* t := syscall (EvRead p) (fs_read p) in
  match parse_csv t with
  | Ok df => ret df
  | Raise e => raise e
  end.

Definition to_csv (df : DataFrame) (p : string) : M unit :=
  syscall (EvWrite p) (fs_write p (format_csv df)).

(** ** numpy and scikit-learn *)

Definition insert_at {A} (j : nat) (x : A) (l : list A) : list A :=
  take j l ++ x :: drop j l.

(** [rng.permutation(n)]: a shuffle of 0..n-1 driven by the draws of the
    generator, one per element.  Every permutation is the shuffle of some
    draws ([shuffle_surjective] below). *)
Fixpoint shuffle (n : nat) (draws : list nat) : list nat :=
  match n with
  | O => []
  | S m => insert_at (hd 0 draws mod S m) m (shuffle m (tl draws))
  end.

Definition rng_permutation (n : nat) : M (list nat) := λ w,
  (Ok (shuffle n (w_rng w)),
   mkWorld (w_fs w) (w_stdout w) (drop n (w_rng w)) (w_s3 w) (w_trace w)).

(** [ceil(0.2 * n)], on integers: the ceiling of n / 5.  scikit-learn
    computes it in double precision, which is [ceil_fifth_double] below;
    the two agree ([ceil_fifth_as_double]). *)
Definition ceil_fifth (n : nat) : nat := (n + 4) / 5.

(** The double nearest to 0.2: the value of the literal in
    [test_size=0.2]. *)
Definition double_0_2 : float := 0x1.999999999999ap-3%float.

(** [math.ceil] of a finite double. *)
Definition float_ceil (f : float) : Z :=
  match Prim2SF f with
  | S754_finite s m e =>
      let num := if s then Z.neg m else Z.pos m in
      if (0 <=? e)%Z then (num * 2 ^ e)%Z
      else (- ((- num) / 2 ^ (- e)))%Z
  | _ => 0%Z
  end.

(** [ceil(test_size * n_samples)] as scikit-learn computes it, in double
    precision. *)
Definition ceil_fifth_double (n : nat) : Z :=
  float_ceil (PrimFloat.mul double_0_2 (PrimFloat.of_uint63 (Uint63.of_Z (Z.of_nat n)))).

(** [df.iloc[idx]] *)
Definition iloc (df : DataFrame) (idx : list nat) : result DataFrame :=
  match mapM (λ i, rows df !! i) idx with
  | Some rs => Ok (mkDF (columns df) rs)
  | None => Raise (mkExc IndexError "positional indexers are out-of-bounds")
  end.

(** [train_test_split(df, test_size=0.2)]: [n_test = ceil(0.2 * n)],
    [n_train = n - n_test], an empty train set is refused, and the rows
    are taken from one random permutation, the test rows first. *)
Definition train_test_split (df : DataFrame) : M (DataFrame * DataFrame) :=
  let n := length (rows df) in
  let n_test := ceil_fifth n in
  let n_train := n - n_test in
  if decide (n_train = 0) then
    raise (mkExc ValueError
      ("With n_samples=" +:+ str_nat n +:+ ", test_size=0.2 and train_size=None, " +:+
       "the resulting train set will be empty. Adjust any of the aforementioned parameters."))
  else
    let* permutation := rng_permutation n in
    let ind_test := take n_test permutation in
    let ind_train := take n_train (drop n_test permutation) in
    match iloc df ind_train, iloc df ind_test with
    | Ok train, Ok test => ret (train, test)
    | Raise e, _ => raise e
    | _, Raise e => raise e
    end.

(** ** preprocessing.py (basic_sagemaker_processing.ipynb) *)

Definition input_data_path : string :=
  os_path_join "/opt/ml/processing/input" "dataset.csv".

Definition TRAIN_DIR := "/opt/ml/processing/output/train".
Definition VALIDATION_DIR := "/opt/ml/processing/output/validation".
Definition TEST_DIR := "/opt/ml/processing/output/test".
Definition TRAIN_CSV := "/opt/ml/processing/output/train/train.csv".
Definition VALIDATION_CSV := "/opt/ml/processing/output/validation/validation.csv".
Definition TEST_CSV := "/opt/ml/processing/output/test/test.csv".
Definition COMPLETED := "Completed running the processing job".

(** The two splits; returns [(train, validation, test)]. *)
Definition split3 (df : DataFrame) : M (DataFrame * DataFrame * DataFrame) :=
  let* '(train, test) := train_test_split df in
  let* '(train, validation) := train_test_split train in
  ret (train, validation, test).

Definition make_directories : M unit :=
  try_except
    (os_makedirs TRAIN_DIR ;;
     os_makedirs VALIDATION_DIR ;;
     os_makedirs TEST_DIR ;;
     print "Successfully created directories")
    (λ e, print (exc_msg e) ;; print "Could not make directories").

Definition write_files (train validation test : DataFrame) : M unit :=
  try_except
    (to_csv train TRAIN_CSV ;;
     to_csv validation VALIDATION_CSV ;;
     to_csv test TEST_CSV ;;
     print "Wrote files successfully")
    (λ e, print "Failed to write the files" ;; print (exc_msg e)).

Definition preprocessing_py : M unit :=
  let* df := read_csv input_data_path in
  print ("Shape of data is: " +:+ str_shape (shape df)) ;;
  let* '(train, validation, test) := split3 df in
  make_directories ;;
  write_files train validation test ;;
  print COMPLETED.

(** ** The notebook cells of basic_sagemaker_processing.ipynb *)

Definition lift {A} (r : result A) : M A := λ w, (r, w).

(** [botocore.exceptions.ClientError]: the error code, the operation and
    the message of the service's answer. *)
Definition client_error (code op msg : string) : Exc :=
  mkExc ClientError
        ("An error occurred (" +:+ code +:+ ") when calling the " +:+ op +:+
         " operation: " +:+ msg).

Definition find_object (key : string) (objs : list (string * csv)) : option csv :=
  snd <$> List.find (λ o, String.eqb o.1 key) objs.

(** [s3.download_file(Bucket, Key, Filename)]: the object is looked up
    first ([HeadObject], whose answer to a missing bucket or key is a bare
    404), then written to the file.  The world holds the buckets and
    their objects only: a refusal by the service for another reason
    (credentials, permissions) is outside it. *)
Definition s3_download_file (Bucket Key Filename : string) : M unit := λ w,
  match w_s3 w !! Bucket with
  | None =>
      (log (EvDownload Bucket Key) ;; raise (client_error "404" "HeadObject" "Not Found")) w
  | Some objs =>
      match find_object Key objs with
      | None =>
          (log (EvDownload Bucket Key) ;; raise (client_error "404" "HeadObject" "Not Found")) w
      | Some c =>
          (log (EvDownload Bucket Key) ;;
           syscall (EvWrite Filename) (fs_write Filename c)) w
      end
  end.

(** [df.head()]: the first five rows. *)
Definition df_head (df : DataFrame) : DataFrame := mkDF (columns df) (take 5 (rows df)).

(** The "Download data" cell; its value is what [df.head()] displays. *)
Definition download_cell (region : string) : M DataFrame :=
  s3_download_file ("sagemaker-sample-data-" +:+ region)
                   "processing/census/census-income.csv"
                   "census-income.csv" ;;
  let* df := read_csv "census-income.csv" in
  to_csv df "dataset.csv" ;;
  ret (df_head df).

(** [ProcessingInput] and [ProcessingOutput] of the SageMaker SDK, with
    the fields the notebook sets or leaves at [None]. *)
Record ProcessingInput := mkInput {
  in_source : string;
  in_destination : string
}.

Record ProcessingOutput := mkOutput {
  source : string;
  destination : option string;
  output_name : option string
}.

Definition processing_output (src : string) : ProcessingOutput := mkOutput src None None.

(** The arguments of [sklearn_processor.run(...)] in the notebook. *)
Definition run_code : string := "preprocessing.py".

Definition run_inputs : list ProcessingInput :=
  [mkInput "dataset.csv" "/opt/ml/processing/input"].

Definition run_outputs : list ProcessingOutput :=
  [processing_output "/opt/ml/processing/output/train";
   processing_output "/opt/ml/processing/output/validation";
   processing_output "/opt/ml/processing/output/test"].

(** What the SageMaker SDK does with the outputs of a job before it
    submits them (its convention, not code of the notebook):
    an output without a name is named [output-<count>], counting from 1 in
    list order, and an output without a destination is sent to
    [s3://<default bucket>/<job name>/output/<output name>]. *)
Definition normalize_outputs (bucket job : string) (outputs : list ProcessingOutput)
  : list ProcessingOutput :=
  imap (λ i o,
          let name := default ("output-" +:+ str_nat (S i)) (output_name o) in
          mkOutput (source o)
                   (Some (default ("s3://" +:+ bucket +:+ "/" +:+ job +:+ "/output/" +:+ name)
                                  (destination o)))
                   (Some name))
       outputs.

(** [range(a, b)] *)
Definition py_range (a b : nat) : list nat := seq a (b - a).

(** The response of [list_objects]: the [Contents] entry is absent when
    no key matches. *)
Record S3Object := mkObj { Key : string }.
Record ListObjectsResponse := mkResp { Contents : option (list S3Object) }.

Definition matching (Prefix : string) (objs : list (string * csv)) : list string :=
  filter (λ k, String.prefix Prefix k = true) (map fst objs).

Definition s3_list_objects (Bucket Prefix : string) : M ListObjectsResponse :=
  log (EvListObjects Bucket Prefix) ;;
  λ w,
    match w_s3 w !! Bucket with
    | None =>
        (Raise (client_error "NoSuchBucket" "ListObjects" "The specified bucket does not exist"),
         w)
    | Some objs =>
        match matching Prefix objs with
        | [] => (Ok (mkResp None), w)
        | ks => (Ok (mkResp (Some (map mkObj (take 1000 ks)))), w)
        end
    end.

(** [response["Contents"]] *)
Definition getitem_Contents (r : ListObjectsResponse) : result (list S3Object) :=
  match Contents r with
  | Some l => Ok l
  | None => Raise (mkExc KeyError "'Contents'")
  end.

Definition output_prefix (job : string) (i : nat) : string :=
  job +:+ "/output/output-" +:+ str_nat i +:+ "/".

(** The body of the verification loop for index [i]. *)
Definition verify_one (default_bucket job : string) (i : nat) : M unit :=
  let* response := s3_list_objects default_bucket (output_prefix job i) in
  let* contents := lift (getitem_Contents response) in
  let* first := lift (py_index contents 0) in
  let prefix := Key first in
  print ("s3://" +:+ default_bucket +:+ "/" +:+ prefix).

(** The verification cell: [for i in range(1, 4): ...] *)
Definition verification_cell (default_bucket job : string) : M unit :=
  for_each (py_range 1 4) (verify_one default_bucket job).

(** ** tensorflow_BYOM_iris.ipynb *)



(** What Keras and TensorFlow keep for the whole process: how many
    layers were given a made-up name, by prefix, and the generator the
    initial weights are drawn from (a list of draws, as in the world of
    the script). *)
Record Keras := mkKeras {
  k_uids : gmap string nat;
  k_rng : list nat
}.

Definition K (A : Type) : Type := Keras → A * Keras.

(** [backend.unique_object_name(prefix, zero_based=True)], the name of a
    layer made without one: [prefix] the first time, then [prefix_1],
    [prefix_2], ... *)
Definition unique_object_name (prefix : string) : K string := λ s,
  let number := default 0 (k_uids s !! prefix) in
  (match number with
   | 0 => prefix
   | S _ => prefix +:+ "_" +:+ str_nat number
   end,
   mkKeras (<[prefix := S number]> (k_uids s)) (k_rng s)).









(** The local cleanup cell. *)
Definition cleanup_cell : M unit :=
  os_remove "model.tar.gz" ;;
  os_remove "iris_test.csv" ;;
  os_remove "iris_train.csv" ;;
  os_remove "iris.data" ;;
  shutil_rmtree "export".

(** ** The extraction as the specification words it

    "Take the second line of output, split on spaces, and take the last
    token", written without [py_split]: the text between the first and
    the second line feed, and in it the text after the last space. *)
Fixpoint before_first (c : ascii) (s : string) : string :=
  match s with
  | EmptyString => EmptyString
  | String a s' => if Ascii.eqb a c then EmptyString else String a (before_first c s')
  end.

Fixpoint after_first (c : ascii) (s : string) : string :=
  match s with
  | EmptyString => EmptyString
  | String a s' => if Ascii.eqb a c then s' else after_first c s'
  end.

Fixpoint after_last (c : ascii) (s : string) : string :=
  match s with
  | EmptyString => EmptyString
  | String a s' =>
      if contains c s' then after_last c s'
      else if Ascii.eqb a c then s' else s
  end.

Definition second_line (output : string) : string :=
  before_first LF (after_first LF output).

(** [e] is an explicit "malformed output" error: its message says so. *)
Definition malformed_output_error (e : Exc) : Prop :=
  is_Some (String.index 0 "malformed output" (exc_msg e)).

(** ** Predicates on exceptions and worlds *)

(** The exception is an [OSError] made by a file operation. *)
Definition is_os_error (e : Exc) : Prop := ∃ k p, e = os_error k p.

Definition fs_raises_os {A} (op : fsop A) : Prop :=
  ∀ fs e fs', op fs = (Raise e, fs') → is_os_error e.

Definition raises_os {A} (c : M A) : Prop :=
  ∀ w e w', c w = (Raise e, w') → is_os_error e.

(** The exception is an instance of [OSError], with or without a file
    name in its message. *)
Definition isinstance_OSError (e : Exc) : Prop := ∃ k, exc_kind e = OSError k.

Definition fs_raises_OSError {A} (op : fsop A) : Prop :=
  ∀ fs e fs', op fs = (Raise e, fs') → isinstance_OSError e.

Definition raises_OSError {A} (c : M A) : Prop :=
  ∀ w e w', c w = (Raise e, w') → isinstance_OSError e.

(** What a world keeps when only the generator advances. *)
Definition same_but_rng (w w' : World) : Prop :=
  w_fs w' = w_fs w ∧ w_stdout w' = w_stdout w ∧ w_s3 w' = w_s3 w ∧ w_trace w' = w_trace w.

(** The row index of a data frame, in row order. *)
Definition index_of (df : DataFrame) : list nat := map fst (rows df).

(** ** Notions used in the statements *)

(** The script ends normally and the completion marker is the last line
    of its output. *)
Definition reaches_marker (w : World) : Prop :=
  ∃ w', preprocessing_py w = (Ok tt, w') ∧ last (w_stdout w') = Some COMPLETED.

(** A list of calls made one after the other up to the first that
    raises: the calls attempted, the file system they leave, and the
    exception that stopped them, if any. *)
Fixpoint attempts (calls : list (Event * fsop unit)) (fs : FileSystem)
  : list Event * FileSystem * option Exc :=
  match calls with
  | [] => ([], fs, None)
  | (ev, op) :: rest =>
      match op fs with
      | (Ok _, fs') => let '(evs, fs'', r) := attempts rest fs' in (ev :: evs, fs'', r)
      | (Raise e, fs') => ([ev], fs', Some e)
      end
  end.

(** What is stored at the path [p]. *)
Definition stat (w : World) (p : string) : option node :=
  lookup_node (w_fs w) (path_of p).

Definition is_file (w : World) (p : string) : bool :=
  match stat w p with Some (File _) => true | _ => false end.

(** The keys listed under the prefix of output [i] of the job. *)
Definition listing (s3 : gmap string (list (string * csv))) (bucket job : string) (i : nat)
  : list string :=
  match s3 !! bucket with
  | Some objs => matching (output_prefix job i) objs
  | None => []
  end.

(** The line the verification loop prints for output [i], if any. *)
Definition uri_line (s3 : gmap string (list (string * csv))) (bucket job : string) (i : nat)
  : option string :=
  (λ key, "s3://" +:+ bucket +:+ "/" +:+ key) <$> head (listing s3 bucket job i).

(** The URIs of the objects of the bucket that are stored under the
    destination of an output of the job, in listing order. *)
Definition stored_under (s3 : gmap string (list (string * csv))) (bucket : string)
    (o : ProcessingOutput) : list string :=
  match destination o, s3 !! bucket with
  | Some d, Some objs =>
      filter (λ uri, String.prefix (d +:+ "/") uri = true)
             (map (λ kv, "s3://" +:+ bucket +:+ "/" +:+ kv.1) objs)
  | _, _ => []
  end.

(** The targets of the cleanup cell, in the order of its statements, and
    the call each statement makes. *)
Definition cleanup_targets : list string :=
  ["model.tar.gz"; "iris_test.csv"; "iris_train.csv"; "iris.data"; "export"].

Definition cleanup_event (n : nat) (p : string) : Event :=
  if n <? 4 then EvRemove p else EvRmtree p.

(** The world after a call is logged, and after the stored nodes change. *)
Definition logged (ev : Event) (w : World) : World :=
  mkWorld (w_fs w) (w_stdout w) (w_rng w) (w_s3 w) (w_trace w ++ [ev]).

Definition with_nodes (m : gmap (list string) node) (w : World) : World :=
  mkWorld (set_nodes (w_fs w) m) (w_stdout w) (w_rng w) (w_s3 w) (w_trace w).

(** The paths of the script as lists of components. *)
Definition PROCESSING_DIR : string := "/opt/ml/processing".
Definition OUTPUT_DIR : string := "/opt/ml/processing/output".

Definition PROCESSING_K : list string := ["opt"; "ml"; "processing"].
Definition OUTPUT_K : list string := ["opt"; "ml"; "processing"; "output"].
Definition TRAIN_K : list string := ["opt"; "ml"; "processing"; "output"; "train"].
Definition VALIDATION_K : list string := ["opt"; "ml"; "processing"; "output"; "validation"].
Definition TEST_K : list string := ["opt"; "ml"; "processing"; "output"; "test"].
Definition TRAIN_CSV_K : list string := TRAIN_K ++ ["train.csv"].
Definition VALIDATION_CSV_K : list string := VALIDATION_K ++ ["validation.csv"].
Definition TEST_CSV_K : list string := TEST_K ++ ["test.csv"].

(** The paths the script writes to. *)
Definition written_paths : list (list string) :=
  [TRAIN_CSV_K; VALIDATION_CSV_K; TEST_CSV_K].

(** The line [print("Shape of data is:", df.shape)] writes. *)
Definition shape_line (df : DataFrame) : string :=
  "Shape of data is: " +:+ str_shape (shape df).

(** [fs'] holds everything [fs] holds, but for the paths [ks]. *)
Definition only_adds (ks : list (list string)) (fs fs' : FileSystem) : Prop :=
  faults fs' = faults fs ∧
  ∀ k x, k ∉ ks → nodes fs !! k = Some x → nodes fs' !! k = Some x.

Definition fs_keeps {A} (ks : list (list string)) (op : fsop A) : Prop :=
  ∀ fs r fs', op fs = (r, fs') → only_adds ks fs fs'.

Definition keeps {A} (ks : list (list string)) (c : M A) : Prop :=
  ∀ w r w', c w = (r, w') → only_adds ks (w_fs w) (w_fs w') ∧ w_s3 w' = w_s3 w.

(** [fs'] holds nothing that [fs] did not hold, and differs from it
    only on the paths in [P]. *)
Definition only_removes (P : list string → Prop) (fs fs' : FileSystem) : Prop :=
  faults fs' = faults fs ∧
  (∀ k x, nodes fs' !! k = Some x → nodes fs !! k = Some x) ∧
  (∀ k, ¬ P k → nodes fs' !! k = nodes fs !! k).

Definition removes {A} (P : list string → Prop) (c : M A) : Prop :=
  ∀ w r w', c w = (r, w') →
    only_removes P (w_fs w) (w_fs w') ∧
    w_stdout w' = w_stdout w ∧ w_s3 w' = w_s3 w ∧ w_rng w' = w_rng w ∧
    match r with Ok _ => True | Raise e => is_os_error e end.

(** The paths the cleanup cell names: the four files, and [export] with
    everything below it. *)
Definition cleanup_scope (k : list string) : Prop :=
  k ∈ map path_of (take 4 cleanup_targets) ∨ ["export"] `prefix_of` k.

(** ** Sample worlds *)

(** [dataset.csv] as the download cell leaves it, for a table of two
    columns and ten rows. *)
Definition sample_dataset : csv :=
  [[""; "age"; "income"];
   ["0"; "39"; "low"]; ["1"; "50"; "low"]; ["2"; "38"; "high"]; ["3"; "53"; "low"];
   ["4"; "28"; "high"]; ["5"; "37"; "low"]; ["6"; "49"; "low"]; ["7"; "52"; "high"];
   ["8"; "31"; "high"]; ["9"; "42"; "low"]].

Definition container_nodes : gmap (list string) node :=
  <[ ["opt"; "ml"; "processing"; "input"; "dataset.csv"] := File sample_dataset ]>
  (<[ ["opt"; "ml"; "processing"; "input"] := Dir ]>
  (<[ ["opt"; "ml"; "processing"] := Dir ]>
  (<[ ["opt"; "ml"] := Dir ]>
  (<[ ["opt"] := Dir ]> ∅)))).

Definition sample_draws : list nat :=
  [3; 1; 4; 1; 5; 9; 2; 6; 5; 3; 5; 8; 9; 7; 9; 3; 2; 3; 8; 4].

(** The data frame [pd.read_csv] makes of it. *)
Definition sample_frame : DataFrame :=
  match parse_csv sample_dataset with
  | Ok df => df
  | Raise _ => mkDF [] []
  end.

(** The container with its input mounted and nothing else. *)
Definition w_container : World :=
  mkWorld (mkFS container_nodes ∅) [] sample_draws ∅ [].

(** The same, with the output directory refused by the system. *)
Definition w_readonly : World :=
  mkWorld (mkFS container_nodes
                {[ ["opt"; "ml"; "processing"; "output"] := PermissionError ]})
          [] sample_draws ∅ [].

(** The same, with no space left when [validation.csv] is written. *)
Definition w_partial : World :=
  mkWorld (mkFS container_nodes
                {[ ["opt"; "ml"; "processing"; "output"; "validation"; "validation.csv"]
                   := OtherOSError 28 ]})
          [] sample_draws ∅ [].

(** A container without the input file. *)
Definition w_missing : World :=
  mkWorld (mkFS ∅ ∅) [] sample_draws ∅ [].

(** The notebook after a job whose second output never reached S3. *)
Definition BUCKET : string := "sagemaker-us-east-1-123456789012".
Definition JOB : string := "sagemaker-scikit-learn-2021-03-04-05-06-07-890".

Definition w_notebook : World :=
  mkWorld (mkFS ∅ ∅) [] []
          {[ BUCKET := [(JOB +:+ "/output/output-1/train.csv", [["0"]]);
                        (JOB +:+ "/output/output-3/test.csv", [["0"]])] ]}
          [].

(** The working directory of the iris notebook before the cleanup cell:
    [iris.data] was never downloaded. *)
Definition workdir_nodes : gmap (list string) node :=
  <[ ["model.tar.gz"] := File [["archive"]] ]>
  (<[ ["iris_test.csv"] := File [["5.9"; "3.0"; "4.2"; "1.5"; "1"]] ]>
  (<[ ["iris_train.csv"] := File [["6.4"; "2.8"; "5.6"; "2.2"; "2"]] ]>
  (<[ ["export"] := Dir ]>
  (<[ ["export"; "Servo"] := Dir ]>
  (<[ ["export"; "Servo"; "1"] := Dir ]>
  (<[ ["export"; "Servo"; "1"; "saved_model.pb"] := File [["graph"]] ]>
  (<[ ["tensorflow_BYOM_iris.ipynb"] := File [["cells"]] ]> ∅))))))).

Definition w_workdir : World := mkWorld (mkFS workdir_nodes ∅) [] [] ∅ [].

(** The same with an [iris.data] file left by an earlier variant. *)
Definition w_workdir_full : World :=
  mkWorld (mkFS (<[ ["iris.data"] := File [["5.1"; "3.5"; "1.4"; "0.2"; "Iris-setosa"]] ]>
                 workdir_nodes) ∅) [] [] ∅ [].

(** The census table in the public bucket, and the notebook before the
    download cell runs. *)
Definition sample_census : csv :=
  [["age"; "income"];
   ["39"; "low"]; ["50"; "low"]; ["38"; "high"]; ["53"; "low"];
   ["28"; "high"]; ["37"; "low"]; ["49"; "low"]; ["52"; "high"];
   ["31"; "high"]; ["42"; "low"]].

Definition w_census : World :=
  mkWorld (mkFS ∅ ∅) [] []
          {[ "sagemaker-sample-data-us-east-1" :=
               [("processing/census/census-income.csv", sample_census)] ]}
          [].

(** The container when the output directories were made before the
    script starts. *)
Definition w_prepared : World :=
  mkWorld (mkFS (<[ ["opt"; "ml"; "processing"; "output"; "test"] := Dir ]>
                (<[ ["opt"; "ml"; "processing"; "output"; "validation"] := Dir ]>
                (<[ ["opt"; "ml"; "processing"; "output"; "train"] := Dir ]>
                (<[ ["opt"; "ml"; "processing"; "output"] := Dir ]> container_nodes)))) ∅)
          [] sample_draws ∅ [].

(** The container with the train directory alone left by an earlier run. *)
Definition w_train_only : World :=
  mkWorld (mkFS (<[ ["opt"; "ml"; "processing"; "output"; "train"] := Dir ]>
                (<[ ["opt"; "ml"; "processing"; "output"] := Dir ]> container_nodes)) ∅)
          [] sample_draws ∅ [].

(** A container whose data set has two rows. *)
Definition w_tiny : World :=
  mkWorld (mkFS (<[ ["opt"; "ml"; "processing"; "input"; "dataset.csv"] :=
                      File [[""; "age"; "income"]; ["0"; "39"; "low"]; ["1"; "50"; "low"]] ]>
                 container_nodes) ∅)
          [] sample_draws ∅ [].

(** The notebook after a job whose three outputs reached S3. *)
Definition w_uploaded : World :=
  mkWorld (mkFS ∅ ∅) [] []
          {[ BUCKET := [(JOB +:+ "/output/output-1/train.csv", [["0"]]);
                        (JOB +:+ "/output/output-2/validation.csv", [["0"]]);
                        (JOB +:+ "/output/output-3/test.csv", [["0"]])] ]}
          [].

(** The train partition the script holds in the sample runs: the index
    column that the notebook saved is one of its columns, and the rows
    keep the index they had in the data set. *)
Definition sample_partition : DataFrame :=
  mkDF ["Unnamed: 0"; "age"; "income"]
       [(3, ["3"; "53"; "low"]); (7, ["7"; "52"; "high"]); (1, ["1"; "50"; "low"]);
        (5, ["5"; "37"; "low"]); (9, ["9"; "42"; "low"]); (6, ["6"; "49"; "low"])].


(** ** Theorems *)

(** *** Sample runs *)

Example job_name_example :
  job_name ("line one" +:+ String LF "INFO Job name: my-job-123") = Ok "my-job-123".
Proof. reflexivity. Qed.

Example preprocessing_py_container :
  (preprocessing_py w_container).1 = Ok tt ∧
  w_stdout (preprocessing_py w_container).2 =
    ["Shape of data is: (10, 3)"; "Successfully created directories";
     "Wrote files successfully"; "Completed running the processing job"].
Proof. split; vm_compute; reflexivity. Qed.

Example preprocessing_py_readonly :
  (preprocessing_py w_readonly).1 = Ok tt ∧
  w_stdout (preprocessing_py w_readonly).2 =
    ["Shape of data is: (10, 3)";
     "[Errno 13] Permission denied: '/opt/ml/processing/output'";
     "Could not make directories"; "Failed to write the files";
     "[Errno 2] No such file or directory: '/opt/ml/processing/output/train/train.csv'";
     "Completed running the processing job"].
Proof. split; vm_compute; reflexivity. Qed.

Example preprocessing_py_partial :
  w_trace (preprocessing_py w_partial).2 =
    [EvRead "/opt/ml/processing/input/dataset.csv";
     EvMakedirs TRAIN_DIR; EvMakedirs VALIDATION_DIR; EvMakedirs TEST_DIR;
     EvWrite TRAIN_CSV; EvWrite VALIDATION_CSV] ∧
  w_stdout (preprocessing_py w_partial).2 =
    ["Shape of data is: (10, 3)"; "Successfully created directories";
     "Failed to write the files"; "[Errno 28] No space left on device";
     "Completed running the processing job"] ∧
  stat (preprocessing_py w_partial).2 VALIDATION_CSV = Some (File []).
Proof. repeat split; vm_compute; reflexivity. Qed.

Example parse_csv_ragged :
  parse_csv [["a"; "b"]; ["1"; "2"]; ["3"; "4"; "5"]] =
    Raise (mkExc ParserError
                 "Error tokenizing data. C error: Expected 2 fields in line 3, saw 3") ∧
  parse_csv [["a"; "a"; ""]; ["1"]; [""]; ["3"; "4"; "5"]] =
    Ok (mkDF ["a"; "a.1"; "Unnamed: 2"] [(0, ["1"; ""; ""]); (1, ["3"; "4"; "5"])]).
Proof. split; vm_compute; reflexivity. Qed.

Example split3_sample :
  (split3 sample_frame w_container).1 =
    Ok (mkDF ["Unnamed: 0"; "age"; "income"]
             [(3, ["3"; "53"; "low"]); (7, ["7"; "52"; "high"]); (1, ["1"; "50"; "low"]);
              (5, ["5"; "37"; "low"]); (9, ["9"; "42"; "low"]); (6, ["6"; "49"; "low"])],
        mkDF ["Unnamed: 0"; "age"; "income"]
             [(0, ["0"; "39"; "low"]); (4, ["4"; "28"; "high"])],
        mkDF ["Unnamed: 0"; "age"; "income"]
             [(2, ["2"; "38"; "high"]); (8, ["8"; "31"; "high"])]).
Proof. vm_compute. reflexivity. Qed.

Example verification_cell_sample :
  (verification_cell BUCKET JOB w_notebook).1 = Raise (mkExc KeyError "'Contents'") ∧
  w_stdout (verification_cell BUCKET JOB w_notebook).2 =
    ["s3://" +:+ BUCKET +:+ "/" +:+ JOB +:+ "/output/output-1/train.csv"].
Proof. split; vm_compute; reflexivity. Qed.

Example cleanup_cell_sample :
  (cleanup_cell w_workdir).1 = Raise (os_error FileNotFoundError "iris.data") ∧
  w_trace (cleanup_cell w_workdir).2 =
    [EvRemove "model.tar.gz"; EvRemove "iris_test.csv"; EvRemove "iris_train.csv";
     EvRemove "iris.data"].
Proof. split; vm_compute; reflexivity. Qed.

(** *** Python strings *)

Lemma py_split_nonempty c s : py_split c s ≠ [].
Proof.
  destruct s as [|a s']; simpl; [done|].
  destruct (Ascii.eqb a c); [done|].
  by destruct (py_split c s').
Qed.

Lemma py_split_no_sep c s : contains c s = false → py_split c s = [s].
Proof.
  induction s as [|a s' IH]; simpl; [done|].
  destruct (Ascii.eqb a c); simpl; [done|].
  intros H. by rewrite IH.
Qed.

Lemma py_split_cons c s :
  py_split c s =
  before_first c s :: (if contains c s then py_split c (after_first c s) else []).
Proof.
  induction s as [|a s' IH]; simpl; [done|].
  destruct (Ascii.eqb a c); simpl; [done|].
  rewrite IH. done.
Qed.

Lemma py_split_tail_nonempty c s :
  contains c s = true → ∃ t u ts, py_split c s = t :: u :: ts.
Proof.
  intros H. rewrite py_split_cons, H.
  destruct (py_split c (after_first c s)) as [|u ts] eqn:E.
  - by apply py_split_nonempty in E.
  - eauto.
Qed.

Lemma py_split_last c s : last (py_split c s) = Some (after_last c s).
Proof.
  induction s as [|a s' IH]; simpl; [done|].
  destruct (contains c s') eqn:Hc.
  - destruct (py_split_tail_nonempty c s' Hc) as (t & u & ts & E).
    rewrite E in IH |- *.
    destruct (Ascii.eqb a c); simpl in *; done.
  - rewrite (py_split_no_sep _ _ Hc). by destruct (Ascii.eqb a c).
Qed.

Lemma py_split_length (c : ascii) (s : string) :
  2 ≤ length (py_split c s) ↔ contains c s = true.
Proof.
  rewrite py_split_cons. destruct (contains c s) eqn:Hc; simpl.
  - split; [done|]. intros _.
    destruct (py_split c (after_first c s)) eqn:E; simpl; [|lia].
    by apply py_split_nonempty in E.
  - split; [lia|done].
Qed.

Lemma py_index_last {A} (l : list A) :
  py_index l (-1) = match last l with Some a => Ok a | None => Raise index_error end.
Proof.
  unfold py_index. simpl.
  destruct l as [|x l'] using rev_ind; [done|].
  rewrite last_snoc, length_app. simpl.
  replace (-1 + Z.of_nat (length l' + 1))%Z with (Z.of_nat (length l')) by lia.
  destruct (Z.ltb_spec (Z.of_nat (length l')) 0); [lia|].
  rewrite Nat2Z.id.
  by rewrite lookup_app_r, Nat.sub_diag by lia.
Qed.

Lemma py_index_second {A} (l : list A) :
  py_index l 1 = match l !! 1%nat with Some a => Ok a | None => Raise index_error end.
Proof. done. Qed.

(** The extraction, in the words of the specification. *)
Lemma job_name_eq output :
  job_name output =
  if contains LF output then Ok (after_last SPACE (second_line output))
  else Raise index_error.
Proof.
  unfold job_name. rewrite py_index_second, py_split_cons.
  destruct (contains LF output) eqn:Hc; simpl; [|done].
  rewrite py_split_cons. simpl.
  by rewrite py_index_last, py_split_last.
Qed.

(** *** The random split *)

(** The integer ceiling is what the double-precision product gives, for
    every data set of up to 2000 rows. *)
Lemma ceil_fifth_as_double :
  forallb (λ n, (ceil_fifth_double n =? Z.of_nat (ceil_fifth n))%Z) (seq 0 2001) = true.
Proof. vm_compute. reflexivity. Qed.

Lemma ceil_fifth_bounds n : n ≤ 5 * ceil_fifth n < n + 5.
Proof. unfold ceil_fifth. pose proof (Nat.div_mod_eq (n + 4) 5). pose proof (Nat.mod_upper_bound (n + 4) 5). lia. Qed.

Lemma insert_at_perm {A} j (x : A) l : insert_at j x l ≡ₚ x :: l.
Proof.
  unfold insert_at. rewrite <- Permutation_middle. by rewrite take_drop.
Qed.

Lemma shuffle_perm n draws : shuffle n draws ≡ₚ seq 0 n.
Proof.
  revert draws. induction n as [|m IH]; intros draws; simpl shuffle; [done|].
  rewrite insert_at_perm, IH, seq_S. simpl.
  by rewrite Permutation_app_comm.
Qed.

(** Every permutation of the positions is the shuffle of some draws. *)
Lemma shuffle_surjective n p :
  p ≡ₚ seq 0 n → ∃ draws, shuffle n draws = p.
Proof.
  revert p. induction n as [|m IH]; intros p Hp.
  - apply Permutation_nil_r in Hp as ->. by exists [].
  - assert (Hin : m ∈ p).
    { rewrite Hp, seq_S. apply elem_of_app. right. by apply list_elem_of_singleton. }
    apply list_elem_of_split in Hin as (l1 & l2 & ->).
    rewrite seq_S, <- Permutation_middle, (Permutation_app_comm (seq 0 m)) in Hp.
    apply (Permutation_cons_inv (a := m)) in Hp.
    destruct (IH _ Hp) as [draws Hd].
    exists (length l1 :: draws). cbn [shuffle hd tl]. rewrite Hd.
    apply Permutation_length in Hp. rewrite length_app, length_seq in Hp.
    rewrite Nat.mod_small by lia.
    unfold insert_at. by rewrite take_app_length, drop_app_length.
Qed.

Lemma Forall2_perm_l {A B} (P : A → B → Prop) l1 l2 k2 :
  l1 ≡ₚ l2 → Forall2 P l2 k2 → ∃ k1, Forall2 P l1 k1 ∧ k1 ≡ₚ k2.
Proof.
  intros Hp. revert k2. induction Hp as [|x l l' _ IH|x y l|l l' l'' _ IH1 _ IH2]; intros k2 HF.
  - inversion HF. by exists [].
  - inversion HF as [|? b ? k Hx Hl]; subst.
    destruct (IH _ Hl) as (k1 & ? & ?). exists (b :: k1). split; [by constructor|by constructor].
  - inversion HF as [|? b ? k Hx Hl]; subst.
    inversion Hl as [|? c ? k' Hy Hl']; subst.
    exists (c :: b :: k'). split; [by repeat constructor|constructor].
  - destruct (IH2 _ HF) as (k' & HF' & Hk').
    destruct (IH1 _ HF') as (k1 & ? & ?). exists k1. split; [done|by etrans].
Qed.

Lemma Forall2_lookup_seq {A} (l : list A) :
  Forall2 (λ i x, l !! i = Some x) (seq 0 (length l)) l.
Proof.
  apply Forall2_same_length_lookup_2; [by rewrite length_seq|].
  intros i j x Hj Hx. apply lookup_seq in Hj as [-> _]. done.
Qed.

(** Indexing by a permutation of the positions gives the rows back, in
    another order. *)
Lemma mapM_lookup_perm {A} (l : list A) idx :
  idx ≡ₚ seq 0 (length l) →
  ∃ k, mapM (λ i, l !! i) idx = Some k ∧ k ≡ₚ l.
Proof.
  intros Hp.
  destruct (Forall2_perm_l _ _ _ _ Hp (Forall2_lookup_seq l)) as (k & HF & Hk).
  exists k. split; [by apply mapM_Some|done].
Qed.

Lemma mapM_take {A B} (f : A → option B) l k n :
  mapM f l = Some k → mapM f (take n l) = Some (take n k).
Proof. rewrite !mapM_Some. apply Forall2_take. Qed.

Lemma mapM_drop {A B} (f : A → option B) l k n :
  mapM f l = Some k → mapM f (drop n l) = Some (drop n k).
Proof. rewrite !mapM_Some. apply Forall2_drop. Qed.

Lemma same_but_rng_trans w1 w2 w3 :
  same_but_rng w1 w2 → same_but_rng w2 w3 → same_but_rng w1 w3.
Proof. unfold same_but_rng. intros (-> & -> & -> & ->) (-> & -> & -> & ->). done. Qed.

Lemma train_test_split_ok df w :
  length (rows df) - ceil_fifth (length (rows df)) ≠ 0 →
  ∃ rs w',
    train_test_split df w =
      (Ok (mkDF (columns df) (drop (ceil_fifth (length (rows df))) rs),
           mkDF (columns df) (take (ceil_fifth (length (rows df))) rs)), w') ∧
    rs ≡ₚ rows df ∧ same_but_rng w w'.
Proof.
  intros Hn. unfold train_test_split.
  set (n := length (rows df)) in *. set (nt := ceil_fifth n) in *.
  destruct (decide (n - nt = 0)) as [|_]; [done|].
  destruct (mapM_lookup_perm (rows df) (shuffle n (w_rng w)) (shuffle_perm n _))
    as (rs & Hrs & Hperm).
  exists rs. eexists. unfold bind, rng_permutation, iloc.
  rewrite (mapM_take _ _ _ nt Hrs).
  rewrite (mapM_take _ _ _ (n - nt) (mapM_drop _ _ _ nt Hrs)).
  rewrite (take_ge (drop nt rs)).
  2:{ rewrite length_drop, (Permutation_length Hperm). fold n. lia. }
  unfold ret. split; [reflexivity|]. split; [done|]. by repeat split.
Qed.

(** The three partitions of a data frame with at least three rows. *)
Lemma split3_ok df w :
  3 ≤ length (rows df) →
  ∃ train validation test w',
    split3 df w = (Ok (train, validation, test), w') ∧
    rows train ++ rows validation ++ rows test ≡ₚ rows df ∧
    length (rows test) = ceil_fifth (length (rows df)) ∧
    length (rows validation) =
      ceil_fifth (length (rows df) - ceil_fifth (length (rows df))) ∧
    same_but_rng w w'.
Proof.
  intros HN. set (N := length (rows df)) in *.
  pose proof (ceil_fifth_bounds N) as HbN.
  destruct (train_test_split_ok df w) as (rs & w1 & E1 & Hp1 & Hw1); [fold N; lia|].
  fold N in E1.
  set (pool := mkDF (columns df) (drop (ceil_fifth N) rs)) in *.
  assert (Hpool : length (rows pool) = N - ceil_fifth N).
  { simpl. rewrite length_drop, (Permutation_length Hp1). done. }
  pose proof (ceil_fifth_bounds (N - ceil_fifth N)) as Hbp.
  destruct (train_test_split_ok pool w1) as (rs2 & w2 & E2 & Hp2 & Hw2);
    [rewrite Hpool; lia|].
  rewrite Hpool in E2.
  eexists _, _, _, w2. unfold split3, bind. rewrite E1, E2. unfold ret.
  split; [reflexivity|]. simpl. split; [|split; [|split]].
  - rewrite app_assoc, (Permutation_app_comm (drop _ rs2)), take_drop, Hp2.
    simpl. by rewrite Permutation_app_comm, take_drop.
  - rewrite length_take, (Permutation_length Hp1). fold N. lia.
  - rewrite length_take, (Permutation_length Hp2). simpl.
    rewrite length_drop, (Permutation_length Hp1). fold N. lia.
  - by eapply same_but_rng_trans.
Qed.

(** With fewer than three rows one of the two splits has no train row
    left and raises. *)
Lemma train_test_split_empty df w :
  length (rows df) - ceil_fifth (length (rows df)) = 0 →
  ∃ e, train_test_split df w = (Raise e, w) ∧ exc_kind e = ValueError.
Proof.
  intros Hn. unfold train_test_split. rewrite decide_True by done. by eexists.
Qed.

Lemma split3_too_small df w :
  length (rows df) < 3 →
  ∃ e w', split3 df w = (Raise e, w') ∧ exc_kind e = ValueError ∧ same_but_rng w w'.
Proof.
  intros HN. unfold split3, bind at 1.
  destruct (decide (length (rows df) - ceil_fifth (length (rows df)) = 0)) as [H0|H0].
  - destruct (train_test_split_empty df w H0) as (e & -> & Hk).
    exists e, w. by repeat split.
  - destruct (train_test_split_ok df w H0) as (rs & w1 & -> & Hp & Hw1).
    assert (Hlen : length (rows df) = 2).
    { destruct (length (rows df)) as [|[|[|n]]]; [done|done|done|lia]. }
    rewrite Hlen in *. change (ceil_fifth 2) with 1 in *.
    unfold bind at 1.
    destruct (train_test_split_empty (mkDF (columns df) (drop 1 rs)) w1) as (e & -> & Hk).
    { simpl. rewrite length_drop, (Permutation_length Hp), Hlen. done. }
    exists e, w1. done.
Qed.

(** *** Which exceptions the file operations raise *)

Lemma os_error_is_Exception e : is_os_error e → isinstance_Exception e = true.
Proof. by intros (k & p & ->). Qed.

Ltac os_cases :=
  repeat match goal with
         | |- context [match ?x with _ => _ end] => destruct x eqn:?
         end;
  intros ?; simplify_eq; by eexists _, _.

Lemma mkdir_at_raises abs k : fs_raises_os (mkdir_at abs k).
Proof. intros fs e fs'. unfold mkdir_at. os_cases. Qed.

Lemma makedirs_rev_raises abs rk : fs_raises_os (makedirs_rev abs rk).
Proof.
  induction rk as [|c rhead IH]; intros fs e fs'; simpl.
  - apply mkdir_at_raises.
  - destruct (lookup_node fs (rev rhead)).
    + apply mkdir_at_raises.
    + destruct (makedirs_rev abs rhead fs) as [[[]|e1] fs1] eqn:E.
      * apply mkdir_at_raises.
      * destruct (exc_kind e1) as [[]| | | | | | |] eqn:Ek;
          try (intros [= <- <-]; by eapply IH).
        apply mkdir_at_raises.
Qed.

Lemma fs_makedirs_raises p : fs_raises_os (fs_makedirs p).
Proof. apply makedirs_rev_raises. Qed.

Lemma is_os_error_instance e : is_os_error e → isinstance_OSError e.
Proof. intros (k & p & ->). by exists k. Qed.

Lemma OSError_is_Exception e : isinstance_OSError e → isinstance_Exception e = true.
Proof. intros [k Hk]. unfold isinstance_Exception. by rewrite Hk. Qed.

Lemma fs_raises_os_weaken {A} (op : fsop A) : fs_raises_os op → fs_raises_OSError op.
Proof. intros Hop fs e fs' Hrun. by eapply is_os_error_instance, Hop. Qed.

(** A failed write raises an [OSError]: the one of [open], which names
    the file, or the one of [write], which does not. *)
Lemma fs_write_raises p c : fs_raises_OSError (fs_write p c).
Proof.
  intros fs e fs'. unfold fs_write. cbv zeta.
  repeat match goal with
         | |- context [match ?x with _ => _ end] => destruct x eqn:?
         end;
  intros ?; simplify_eq; by eexists.
Qed.

Lemma fs_read_raises p : fs_raises_os (fs_read p).
Proof. intros fs e fs'. unfold fs_read. os_cases. Qed.

Lemma fs_remove_raises p : fs_raises_os (fs_remove p).
Proof. intros fs e fs'. unfold fs_remove. os_cases. Qed.

Lemma fs_rmtree_raises p : fs_raises_os (fs_rmtree p).
Proof. intros fs e fs'. unfold fs_rmtree. os_cases. Qed.

Lemma raises_os_syscall {A} ev (op : fsop A) : fs_raises_os op → raises_os (syscall ev op).
Proof.
  intros Hop w e w'. unfold syscall.
  destruct (op (w_fs w)) as [r fs'] eqn:E. intros [= -> <-]. by eapply Hop.
Qed.

Lemma raises_OSError_syscall {A} ev (op : fsop A) :
  fs_raises_OSError op → raises_OSError (syscall ev op).
Proof.
  intros Hop w e w'. unfold syscall.
  destruct (op (w_fs w)) as [r fs'] eqn:E. intros [= -> <-]. by eapply Hop.
Qed.

Lemma raises_OSError_print line : raises_OSError (print line).
Proof. by intros w e w'. Qed.

Lemma raises_OSError_bind {A B} (c : M A) (k : A → M B) :
  raises_OSError c → (∀ a, raises_OSError (k a)) → raises_OSError (bind c k).
Proof.
  intros Hc Hk w e w'. unfold bind.
  destruct (c w) as [[a|e1] w1] eqn:E.
  - apply Hk.
  - intros [= <- <-]. by eapply Hc.
Qed.

Create HintDb pyexc.
#[local] Hint Resolve raises_OSError_bind raises_OSError_print raises_OSError_syscall
  fs_raises_os_weaken
  fs_makedirs_raises fs_write_raises fs_read_raises fs_remove_raises fs_rmtree_raises : pyexc.

(** A [try] block whose body raises only [OSError]s and whose handler
    only prints always completes. *)
Lemma try_except_completes body handler w :
  raises_OSError body →
  (∀ e w1, ∃ w2, handler e w1 = (Ok tt, w2)) →
  ∃ w', try_except body handler w = (Ok tt, w').
Proof.
  intros Hb Hh. unfold try_except.
  destruct (body w) as [[[]|e] w1] eqn:E; [by eexists|].
  rewrite (OSError_is_Exception e) by (by eapply Hb). apply Hh.
Qed.

Lemma make_directories_completes w : ∃ w', make_directories w = (Ok tt, w').
Proof.
  apply try_except_completes.
  - unfold os_makedirs. auto 10 with pyexc.
  - intros e w1. by eexists.
Qed.

Lemma write_files_completes train validation test w :
  ∃ w', write_files train validation test w = (Ok tt, w').
Proof.
  apply try_except_completes.
  - unfold to_csv. auto 10 with pyexc.
  - intros e w1. by eexists.
Qed.

(** Once the input is read and split, the script runs to its last
    statement whatever the two [try] blocks meet. *)
Lemma preprocessing_py_completes w df :
  (read_csv input_data_path w).1 = Ok df →
  3 ≤ length (rows df) →
  ∃ w', preprocessing_py w = (Ok tt, w') ∧ last (w_stdout w') = Some COMPLETED.
Proof.
  intros Hread HN. unfold preprocessing_py, bind at 1.
  destruct (read_csv input_data_path w) as [r w1]. simpl in Hread. subst r.
  unfold bind at 1.
  destruct (print ("Shape of data is: " +:+ str_shape (shape df)) w1) as [r w2] eqn:E2.
  injection E2 as <- <-.
  unfold bind at 1.
  destruct (split3_ok df (mkWorld (w_fs w1) (w_stdout w1 ++ ["Shape of data is: " +:+ str_shape (shape df)])
                                  (w_rng w1) (w_s3 w1) (w_trace w1)) HN)
    as (tr & va & te & w3 & -> & _).
  unfold bind at 1. destruct (make_directories_completes w3) as [w4 ->].
  unfold bind at 1. destruct (write_files_completes tr va te w4) as [w5 ->].
  eexists. split; [reflexivity|]. simpl. apply last_snoc.
Qed.

(** *** The completion marker *)

Lemma read_csv_missing w :
  faults (w_fs w) !! path_of input_data_path = None →
  stat w input_data_path = None →
  read_csv input_data_path w =
    (Raise (os_error FileNotFoundError input_data_path),
     mkWorld (w_fs w) (w_stdout w) (w_rng w) (w_s3 w)
             (w_trace w ++ [EvRead input_data_path])).
Proof.
  unfold stat. intros Hf Hn. unfold read_csv, bind, syscall, fs_read.
  by rewrite Hf, Hn.
Qed.

(** C1, as stated, fails: with the input file missing, [pd.read_csv]
    raises outside every [try] block and the script stops there. *)
Lemma preprocessing_missing_input_no_marker : ¬ reaches_marker w_missing.
Proof.
  intros (w' & Hrun & _). vm_compute in Hrun. discriminate Hrun.
Qed.

(** C1 (amended).  When the input file is read and holds at least three
    data rows, the script ends normally with the completion marker as the
    last line of its output, whatever the directory creations and the
    file writes meet.  When the input file does not exist, the
    [FileNotFoundError] of [pd.read_csv] leaves the script uncaught and
    nothing is printed, neither a diagnostic nor the marker.  When the
    input holds fewer than three data rows, the [ValueError] of
    [train_test_split] leaves the script uncaught as well. *)
Theorem preprocessing_completion_marker (w : World) :
  (∀ df,
     (read_csv input_data_path w).1 = Ok df →
     3 ≤ length (rows df) →
     reaches_marker w) ∧
  (∀ df,
     (read_csv input_data_path w).1 = Ok df →
     length (rows df) < 3 →
     ∃ e w', preprocessing_py w = (Raise e, w') ∧ exc_kind e = ValueError) ∧
  (faults (w_fs w) !! path_of input_data_path = None →
   stat w input_data_path = None →
   ∃ w', preprocessing_py w = (Raise (os_error FileNotFoundError input_data_path), w') ∧
         w_stdout w' = w_stdout w ∧ ¬ reaches_marker w).
Proof.
  split; [|split].
  - intros df Hread HN. by eapply preprocessing_py_completes.
  - intros df Hread HN. unfold preprocessing_py, bind at 1.
    destruct (read_csv input_data_path w) as [r w1]. simpl in Hread. subst r.
    unfold bind at 1, print at 1. unfold bind at 1.
    destruct (split3_too_small df
                (mkWorld (w_fs w1)
                         (w_stdout w1 ++ ["Shape of data is: " +:+ str_shape (shape df)])
                         (w_rng w1) (w_s3 w1) (w_trace w1)) HN)
      as (e & w' & -> & Hk & _).
    by exists e, w'.
  - intros Hf Hn. pose proof (read_csv_missing w Hf Hn) as Hread.
    assert (Hrun : preprocessing_py w =
                   (Raise (os_error FileNotFoundError input_data_path),
                    mkWorld (w_fs w) (w_stdout w) (w_rng w) (w_s3 w)
                            (w_trace w ++ [EvRead input_data_path]))).
    { unfold preprocessing_py, bind at 1. by rewrite Hread. }
    eexists. split; [exact Hrun|]. split; [done|].
    intros (w' & Hrun' & _). congruence.
Qed.

Lemma preprocessing_completion_marker_witness :
  reaches_marker w_readonly ∧
  (stat w_missing input_data_path = None ∧ ¬ reaches_marker w_missing).
Proof.
  split.
  - apply (proj1 (preprocessing_completion_marker w_readonly) sample_frame).
    + vm_compute. reflexivity.
    + vm_compute. lia.
  - split; [vm_compute; reflexivity|].
    destruct (proj2 (proj2 (preprocessing_completion_marker w_missing)))
      as (w' & _ & _ & H).
    + vm_compute. reflexivity.
    + vm_compute. reflexivity.
    + exact H.
Defined.

(** *** The two [try] blocks *)

Lemma path_of_TRAIN_CSV :
  path_of TRAIN_CSV = ["opt"; "ml"; "processing"; "output"; "train"; "train.csv"].
Proof. vm_compute. reflexivity. Qed.

(** A write changes nothing but the file it writes to. *)
Lemma fs_write_frame p c fs r fs' :
  fs_write p c fs = (r, fs') →
  faults fs' = faults fs ∧ ∀ k, k ≠ path_of p → nodes fs' !! k = nodes fs !! k.
Proof.
  unfold fs_write. cbv zeta.
  repeat match goal with
         | |- context [match ?x with _ => _ end] => destruct x
         end; intros [= <- <-]; (split; [done|]); intros k Hk; try done;
    cbn [set_nodes nodes]; by rewrite lookup_insert_ne.
Qed.

Lemma fs_write_ok p c fs fs' :
  fs_write p c fs = (Ok tt, fs') →
  fs' = set_nodes fs (<[path_of p := File c]> (nodes fs)).
Proof.
  unfold fs_write. cbv zeta.
  repeat match goal with
         | |- context [match ?x with _ => _ end] => destruct x
         end; intros ?; by simplify_eq.
Qed.

(** A failed write leaves the file system as it was when [open] failed,
    and the file empty when [write] did. *)
Lemma fs_write_fail p c fs e fs' :
  fs_write p c fs = (Raise e, fs') →
  fs' = fs ∨ fs' = set_nodes fs (<[path_of p := File []]> (nodes fs)).
Proof.
  unfold fs_write. cbv zeta.
  repeat match goal with
         | |- context [match ?x with _ => _ end] => destruct x
         end; intros ?; simplify_eq; auto.
Qed.

Lemma stat_frame w w' p k :
  path_of p ≠ k →
  (∀ k', k' ≠ k → nodes (w_fs w') !! k' = nodes (w_fs w) !! k') →
  stat w' p = stat w p.
Proof.
  unfold stat. intros Hne Hk. destruct (path_of p) as [|c l]; [done|].
  cbn [lookup_node]. by apply Hk.
Qed.

(** A [try] block of three calls and a message: the calls are made in
    order up to the first that raises; then the message is printed, or
    the handler runs. *)
Lemma try_three_calls ev1 ev2 ev3 (op1 op2 op3 : fsop unit) line handler w :
  fs_raises_OSError op1 → fs_raises_OSError op2 → fs_raises_OSError op3 →
  try_except (syscall ev1 op1 ;; syscall ev2 op2 ;; syscall ev3 op3 ;; print line) handler w =
    match attempts [(ev1, op1); (ev2, op2); (ev3, op3)] (w_fs w) with
    | (evs, fs', None) =>
        (Ok tt, mkWorld fs' (w_stdout w ++ [line]) (w_rng w) (w_s3 w) (w_trace w ++ evs))
    | (evs, fs', Some e) =>
        handler e (mkWorld fs' (w_stdout w) (w_rng w) (w_s3 w) (w_trace w ++ evs))
    end.
Proof.
  intros H1 H2 H3. unfold try_except, bind, syscall, print. cbn [attempts w_fs w_stdout w_rng w_s3 w_trace].
  destruct (op1 (w_fs w)) as [[[]|e] fs1] eqn:E1;
    cbn [w_fs w_stdout w_rng w_s3 w_trace].
  2:{ by rewrite (OSError_is_Exception e (H1 _ _ _ E1)). }
  destruct (op2 fs1) as [[[]|e] fs2] eqn:E2;
    cbn [w_fs w_stdout w_rng w_s3 w_trace].
  2:{ rewrite (OSError_is_Exception e (H2 _ _ _ E2)). by rewrite <- app_assoc. }
  destruct (op3 fs2) as [[[]|e] fs3] eqn:E3;
    cbn [w_fs w_stdout w_rng w_s3 w_trace].
  2:{ rewrite (OSError_is_Exception e (H3 _ _ _ E3)). by rewrite <- !app_assoc. }
  by rewrite <- !app_assoc.
Qed.

Lemma make_directories_attempts w :
  make_directories w =
    let '(evs, fs', r) :=
      attempts [(EvMakedirs TRAIN_DIR, fs_makedirs TRAIN_DIR);
                (EvMakedirs VALIDATION_DIR, fs_makedirs VALIDATION_DIR);
                (EvMakedirs TEST_DIR, fs_makedirs TEST_DIR)] (w_fs w) in
    (Ok tt,
     mkWorld fs'
       (w_stdout w ++
          match r with
          | None => ["Successfully created directories"]
          | Some e => [exc_msg e; "Could not make directories"]
          end)
       (w_rng w) (w_s3 w) (w_trace w ++ evs)).
Proof.
  unfold make_directories, os_makedirs.
  rewrite try_three_calls by (apply fs_raises_os_weaken, fs_makedirs_raises).
  destruct (attempts _ _) as [[evs fs'] [e|]]; [|done].
  unfold bind, print. cbn [w_fs w_stdout w_rng w_s3 w_trace]. by rewrite <- app_assoc.
Qed.

Lemma write_files_attempts train validation test w :
  write_files train validation test w =
    let '(evs, fs', r) :=
      attempts [(EvWrite TRAIN_CSV, fs_write TRAIN_CSV (format_csv train));
                (EvWrite VALIDATION_CSV, fs_write VALIDATION_CSV (format_csv validation));
                (EvWrite TEST_CSV, fs_write TEST_CSV (format_csv test))] (w_fs w) in
    (Ok tt,
     mkWorld fs'
       (w_stdout w ++
          match r with
          | None => ["Wrote files successfully"]
          | Some e => ["Failed to write the files"; exc_msg e]
          end)
       (w_rng w) (w_s3 w) (w_trace w ++ evs)).
Proof.
  unfold write_files, to_csv.
  rewrite try_three_calls by apply fs_write_raises.
  destruct (attempts _ _) as [[evs fs'] [e|]]; [|done].
  unfold bind, print. cbn [w_fs w_stdout w_rng w_s3 w_trace]. by rewrite <- app_assoc.
Qed.

Lemma make_directories_train_fails w e fs' :
  fs_makedirs TRAIN_DIR (w_fs w) = (Raise e, fs') →
  make_directories w =
    (Ok tt, mkWorld fs' (w_stdout w ++ [exc_msg e; "Could not make directories"])
                    (w_rng w) (w_s3 w) (w_trace w ++ [EvMakedirs TRAIN_DIR])).
Proof. intros H. rewrite make_directories_attempts. cbn [attempts]. by rewrite H. Qed.

Lemma write_files_train_fails w train validation test e fs' :
  fs_write TRAIN_CSV (format_csv train) (w_fs w) = (Raise e, fs') →
  write_files train validation test w =
    (Ok tt, mkWorld fs' (w_stdout w ++ ["Failed to write the files"; exc_msg e])
                    (w_rng w) (w_s3 w) (w_trace w ++ [EvWrite TRAIN_CSV])).
Proof. intros H. rewrite write_files_attempts. cbn [attempts]. by rewrite H. Qed.

Lemma write_files_validation_fails w train validation test fs1 e fs2 :
  fs_write TRAIN_CSV (format_csv train) (w_fs w) = (Ok tt, fs1) →
  fs_write VALIDATION_CSV (format_csv validation) fs1 = (Raise e, fs2) →
  write_files train validation test w =
    (Ok tt, mkWorld fs2 (w_stdout w ++ ["Failed to write the files"; exc_msg e])
                    (w_rng w) (w_s3 w)
                    (w_trace w ++ [EvWrite TRAIN_CSV; EvWrite VALIDATION_CSV])).
Proof.
  intros H1 H2. rewrite write_files_attempts. cbn [attempts]. by rewrite H1, H2.
Qed.

Lemma path_of_written :
  path_of TRAIN_CSV = ["opt"; "ml"; "processing"; "output"; "train"; "train.csv"] ∧
  path_of VALIDATION_CSV =
    ["opt"; "ml"; "processing"; "output"; "validation"; "validation.csv"] ∧
  path_of TEST_CSV = ["opt"; "ml"; "processing"; "output"; "test"; "test.csv"].
Proof. repeat split; vm_compute; reflexivity. Qed.

(** C9.  Each [try] block makes its three calls in the order train,
    validation, test and stops at the first that raises: the calls
    attempted are those up to that one, the handler prints its two lines
    and the block ends normally.  So when [os.makedirs] fails on the train
    directory, the validation and test directories are not attempted; and
    when the write of [train.csv] fails, [validation.csv] and [test.csv]
    are not attempted and stay as they were.  A write that fails after
    the file was opened leaves that file behind, empty.  The script as a
    whole still ends normally with its completion marker: in the sample
    run, where no space is left for [validation.csv], [train.csv] is
    written, [validation.csv] is left empty and [test.csv] is absent. *)
Theorem try_blocks_stop_at_first_failure :
  (∀ w,
     make_directories w =
       let '(evs, fs', r) :=
         attempts [(EvMakedirs TRAIN_DIR, fs_makedirs TRAIN_DIR);
                   (EvMakedirs VALIDATION_DIR, fs_makedirs VALIDATION_DIR);
                   (EvMakedirs TEST_DIR, fs_makedirs TEST_DIR)] (w_fs w) in
       (Ok tt,
        mkWorld fs'
          (w_stdout w ++
             match r with
             | None => ["Successfully created directories"]
             | Some e => [exc_msg e; "Could not make directories"]
             end)
          (w_rng w) (w_s3 w) (w_trace w ++ evs))) ∧
  (∀ w train validation test,
     write_files train validation test w =
       let '(evs, fs', r) :=
         attempts [(EvWrite TRAIN_CSV, fs_write TRAIN_CSV (format_csv train));
                   (EvWrite VALIDATION_CSV, fs_write VALIDATION_CSV (format_csv validation));
                   (EvWrite TEST_CSV, fs_write TEST_CSV (format_csv test))] (w_fs w) in
       (Ok tt,
        mkWorld fs'
          (w_stdout w ++
             match r with
             | None => ["Wrote files successfully"]
             | Some e => ["Failed to write the files"; exc_msg e]
             end)
          (w_rng w) (w_s3 w) (w_trace w ++ evs))) ∧
  (∀ w e fs',
     fs_makedirs TRAIN_DIR (w_fs w) = (Raise e, fs') →
     w_trace (make_directories w).2 = w_trace w ++ [EvMakedirs TRAIN_DIR]) ∧
  (∀ w train validation test e fs',
     fs_write TRAIN_CSV (format_csv train) (w_fs w) = (Raise e, fs') →
     w_trace (write_files train validation test w).2 = w_trace w ++ [EvWrite TRAIN_CSV] ∧
     stat (write_files train validation test w).2 VALIDATION_CSV = stat w VALIDATION_CSV ∧
     stat (write_files train validation test w).2 TEST_CSV = stat w TEST_CSV) ∧
  (∀ w df,
     (read_csv input_data_path w).1 = Ok df →
     3 ≤ length (rows df) →
     reaches_marker w) ∧
  ((preprocessing_py w_partial).1 = Ok tt ∧
   last (w_stdout (preprocessing_py w_partial).2) = Some COMPLETED ∧
   stat (preprocessing_py w_partial).2 TRAIN_CSV =
     Some (File (format_csv
       (mkDF ["Unnamed: 0"; "age"; "income"]
             [(3, ["3"; "53"; "low"]); (7, ["7"; "52"; "high"]); (1, ["1"; "50"; "low"]);
              (5, ["5"; "37"; "low"]); (9, ["9"; "42"; "low"]); (6, ["6"; "49"; "low"])]))) ∧
   stat (preprocessing_py w_partial).2 VALIDATION_CSV = Some (File []) ∧
   stat (preprocessing_py w_partial).2 TEST_CSV = None).
Proof.
  split; [exact make_directories_attempts|].
  split; [intros w tr va te; apply write_files_attempts|].
  split; [|split; [|split]].
  - intros w e fs' H. by rewrite (make_directories_train_fails _ _ _ H).
  - intros w tr va te e fs' H.
    rewrite (write_files_train_fails _ _ _ _ _ _ H). cbn [snd w_trace].
    destruct (fs_write_frame _ _ _ _ _ H) as [_ Hframe].
    destruct path_of_written as (Ht & Hv & Hte).
    split; [done|]. split.
    + apply (stat_frame _ _ _ (path_of TRAIN_CSV)); [by rewrite Ht, Hv|done].
    + apply (stat_frame _ _ _ (path_of TRAIN_CSV)); [by rewrite Ht, Hte|done].
  - intros w df Hread HN. by eapply preprocessing_py_completes.
  - split; [|split; [|split; [|split]]]; vm_compute; reflexivity.
Qed.

Lemma try_blocks_stop_at_first_failure_witness :
  w_trace (make_directories w_readonly).2 = [EvMakedirs TRAIN_DIR] ∧
  w_trace (write_files (mkDF [] []) (mkDF [] []) (mkDF [] []) w_container).2
    = [EvWrite TRAIN_CSV] ∧
  reaches_marker w_partial.
Proof.
  destruct try_blocks_stop_at_first_failure as (_ & _ & Hdirs & Hwrite & Hrun & _).
  split; [|split].
  - erewrite (Hdirs w_readonly); [reflexivity|]. vm_compute. reflexivity.
  - rewrite (proj1 (Hwrite w_container (mkDF [] []) (mkDF [] []) (mkDF [] [])
                       (os_error FileNotFoundError TRAIN_CSV) (w_fs w_container)
                       ltac:(vm_compute; reflexivity))).
    reflexivity.
  - apply (Hrun w_partial sample_frame); [vm_compute; reflexivity|vm_compute; lia].
Defined.

(** *** The three partitions *)

Lemma imap_index_fst {A} (l : list A) k :
  map fst (imap (λ i r, (k + i, r)) l) = seq k (length l).
Proof.
  revert k. induction l as [|x l IH]; intros k; [done|].
  rewrite imap_cons. simpl. rewrite Nat.add_0_r. f_equal.
  rewrite <- IH. f_equal. apply imap_ext. intros i y _. simpl. f_equal. lia.
Qed.

(** What [parse_csv] returns when it returns a frame. *)
Lemma parse_csv_Ok t df :
  parse_csv t = Ok df →
  ∃ header body width,
    columns df = name_columns header ∧
    rows df = imap (λ i r, (i, r)) (map (pad width) body).
Proof.
  unfold parse_csv.
  destruct (filter _ _) as [|header body]; [done|]. cbv zeta.
  destruct (list_find _ body) as [[? ?]|]; [done|]. intros [= <-].
  exists header, body, (length header `max` length (hd [] body)).
  split; [done|]. cbn [rows]. by rewrite imap_fmap.
Qed.

Lemma parse_csv_index t df :
  parse_csv t = Ok df → map fst (rows df) = seq 0 (length (rows df)).
Proof.
  intros (header & body & width & _ & ->)%parse_csv_Ok.
  rewrite length_imap. apply (imap_index_fst _ 0).
Qed.

(** C4.  For a data set of N ≥ 10 rows read by [pd.read_csv], the two
    splits succeed and give three partitions whose row indices are
    pairwise disjoint and together are exactly 0..N-1.  Their sizes are
    ceil(N/5) for test, ceil((N - test)/5) for validation and the rest
    for train: test is within one row of 0.2 N, validation within one row
    of 0.16 N, and train within two rows of 0.64 N. *)
Theorem split_partitions (t : csv) (df : DataFrame) (w : World) :
  parse_csv t = Ok df →
  10 ≤ length (rows df) →
  ∃ train validation test w',
    let N := length (rows df) in
    split3 df w = (Ok (train, validation, test), w') ∧
    index_of train ++ index_of validation ++ index_of test ≡ₚ seq 0 N ∧
    (∀ i, i ∈ index_of train → i ∉ index_of validation) ∧
    (∀ i, i ∈ index_of train → i ∉ index_of test) ∧
    (∀ i, i ∈ index_of validation → i ∉ index_of test) ∧
    length (rows train) + length (rows validation) + length (rows test) = N ∧
    (N ≤ 5 * length (rows test) < N + 5) ∧
    (4 * N < 25 * length (rows validation) + 5 ∧
     25 * length (rows validation) < 4 * N + 25) ∧
    (16 * N < 25 * length (rows train) + 50 ∧
     25 * length (rows train) < 16 * N + 5).
Proof.
  intros Hparse HN.
  destruct (split3_ok df w) as (tr & va & te & w' & Hrun & Hperm & Hte & Hva & _); [lia|].
  exists tr, va, te, w'. cbv zeta.
  set (N := length (rows df)) in *.
  assert (Hidx : index_of tr ++ index_of va ++ index_of te ≡ₚ seq 0 N).
  { unfold index_of. rewrite <- !map_app, Hperm. by rewrite (parse_csv_index t df). }
  assert (Hnd : NoDup (index_of tr ++ index_of va ++ index_of te)).
  { rewrite Hidx. apply NoDup_seq. }
  apply NoDup_app in Hnd as (_ & Htr & Hnd).
  apply NoDup_app in Hnd as (_ & Hva_te & _).
  assert (Hlen : length (rows tr) + length (rows va) + length (rows te) = N).
  { apply Permutation_length in Hperm. rewrite !length_app in Hperm. unfold N. lia. }
  pose proof (ceil_fifth_bounds N).
  pose proof (ceil_fifth_bounds (N - ceil_fifth N)).
  split; [done|]. split; [done|].
  split; [intros i Hi Hi'; apply (Htr i Hi), elem_of_app; by left|].
  split; [intros i Hi Hi'; apply (Htr i Hi), elem_of_app; by right|].
  split; [done|]. split; [done|].
  lia.
Qed.

Lemma split_partitions_witness :
  10 ≤ length (rows sample_frame) ∧
  ∃ train validation test w',
    split3 sample_frame w_container = (Ok (train, validation, test), w') ∧
    index_of train ++ index_of validation ++ index_of test ≡ₚ seq 0 10 ∧
    length (rows test) = 2.
Proof.
  split; [vm_compute; lia|].
  assert (Hparse : parse_csv sample_dataset = Ok sample_frame) by (vm_compute; reflexivity).
  assert (HN : 10 ≤ length (rows sample_frame)) by (vm_compute; lia).
  destruct (split_partitions sample_dataset sample_frame w_container Hparse HN)
    as (tr & va & te & w' & Hrun & Hperm & _ & _ & _ & _ & Hte & _).
  exists tr, va, te, w'. split; [exact Hrun|]. split; [exact Hperm|].
  change (length (rows sample_frame)) with 10 in Hte. lia.
Defined.

(** *** Job-name extraction *)

(** The captured text has fewer than two lines exactly when it holds no
    line feed. *)
Lemma one_line_no_LF (output : string) :
  length (py_split LF output) < 2 ↔ contains LF output = false.
Proof.
  pose proof (py_split_length LF output) as H.
  destruct (contains LF output).
  - split; [|done]. intros Hlt.
    assert (2 ≤ length (py_split LF output)) by (by apply H). lia.
  - split; [done|]. intros _.
    destruct (decide (2 ≤ length (py_split LF output))) as [Hge|]; [|lia].
    by apply H in Hge.
Qed.

Lemma second_line_lookup (output : string) :
  contains LF output = true → py_split LF output !! 1 = Some (second_line output).
Proof.
  intros Hc. rewrite py_split_cons, Hc. simpl. by rewrite py_split_cons.
Qed.

Lemma after_last_no_sep c s : contains c s = false → after_last c s = s.
Proof.
  destruct s as [|a s']; simpl; [done|].
  destruct (Ascii.eqb a c); simpl; [done|]. by intros ->.
Qed.

Lemma after_last_clean c s : contains c (after_last c s) = false.
Proof.
  induction s as [|a s' IH]; simpl; [done|].
  destruct (contains c s') eqn:Hc; [done|].
  destruct (Ascii.eqb a c) eqn:Ha; simpl; [done|]. by rewrite Ha, Hc.
Qed.

(** C3, as stated, fails: on a captured text of one line the extraction
    raises Python's [IndexError], whose message is "list index out of
    range"; no "malformed output" error is made. *)
Lemma job_name_one_line_not_malformed :
  ¬ ∃ e, job_name "INFO Job name: my-job-123" = Raise e ∧ malformed_output_error e.
Proof.
  intros (e & He & Hm). vm_compute in He. injection He as <-.
  unfold malformed_output_error in Hm. vm_compute in Hm. by destruct Hm.
Qed.

(** C3 (amended).  The extraction returns the text after the last space
    of the second line of the captured text; when that line is
    ["INFO Job name: my-job-123"] it returns ["my-job-123"]; when the
    captured text has fewer than two lines it raises [IndexError] ("list
    index out of range") and returns no value. *)
Theorem job_name_extraction (output : string) :
  (2 ≤ length (py_split LF output) →
   py_split LF output !! 1 = Some (second_line output) ∧
   job_name output = Ok (after_last SPACE (second_line output))) ∧
  (py_split LF output !! 1 = Some "INFO Job name: my-job-123" →
   job_name output = Ok "my-job-123") ∧
  (length (py_split LF output) < 2 →
   job_name output = Raise (mkExc IndexError "list index out of range")).
Proof.
  rewrite job_name_eq. split; [|split].
  - intros H%py_split_length. rewrite H. split; [by apply second_line_lookup|done].
  - intros H.
    destruct (contains LF output) eqn:Hc.
    + rewrite (second_line_lookup _ Hc) in H. injection H as ->. reflexivity.
    + apply one_line_no_LF in Hc. apply lookup_lt_Some in H. lia.
  - intros H%one_line_no_LF. by rewrite H.
Qed.

Lemma job_name_extraction_witness :
  job_name ("INFO Creating processing-job" +:+ String LF "INFO Job name: my-job-123")
    = Ok "my-job-123" ∧
  job_name "INFO Job name: my-job-123" = Raise index_error.
Proof.
  split.
  - apply (proj1 (proj2 (job_name_extraction _))). vm_compute. reflexivity.
  - apply (proj2 (proj2 (job_name_extraction _))). vm_compute. lia.
Defined.

(** C10.  On a captured text of at least two lines the extraction always
    returns a string: a token without a space, taken from the second
    line.  When the second line holds no space the whole line is
    returned, and when it is empty the empty string is returned; nothing
    checks that the token looks like a job name. *)
Theorem job_name_total_on_two_lines (output : string) :
  2 ≤ length (py_split LF output) →
  ∃ line token,
    py_split LF output !! 1 = Some line ∧
    job_name output = Ok token ∧
    contains SPACE token = false ∧
    (contains SPACE line = false → token = line) ∧
    (line = "" → token = "").
Proof.
  intros H%py_split_length.
  exists (second_line output), (after_last SPACE (second_line output)).
  split; [by apply second_line_lookup|].
  split; [by rewrite job_name_eq, H|].
  split; [apply after_last_clean|].
  split; [apply after_last_no_sep|]. by intros ->.
Qed.

Lemma job_name_total_on_two_lines_witness :
  job_name ("first" +:+ String LF "no-space-here" +:+ String LF "third") = Ok "no-space-here" ∧
  job_name (String LF "") = Ok "".
Proof.
  split.
  - destruct (job_name_total_on_two_lines
                ("first" +:+ String LF "no-space-here" +:+ String LF "third"))
      as (line & token & Hline & -> & _ & Hwhole & _); [vm_compute; lia|].
    vm_compute in Hline. injection Hline as <-. rewrite Hwhole; reflexivity.
  - destruct (job_name_total_on_two_lines (String LF ""))
      as (line & token & Hline & -> & _ & _ & Hempty); [vm_compute; lia|].
    vm_compute in Hline. injection Hline as <-. rewrite Hempty; reflexivity.
Defined.

(** *** The verification loop *)

Lemma verify_one_spec bucket job i w :
  ∃ w1, w_s3 w1 = w_s3 w ∧
    match w_s3 w !! bucket, uri_line (w_s3 w) bucket job i with
    | None, _ =>
        verify_one bucket job i w =
          (Raise (client_error "NoSuchBucket" "ListObjects"
                               "The specified bucket does not exist"), w1) ∧
        w_stdout w1 = w_stdout w
    | Some _, None =>
        verify_one bucket job i w = (Raise (mkExc KeyError "'Contents'"), w1) ∧
        w_stdout w1 = w_stdout w
    | Some _, Some line =>
        verify_one bucket job i w = (Ok tt, w1) ∧
        w_stdout w1 = w_stdout w ++ [line]
    end.
Proof.
  unfold verify_one, uri_line, listing, s3_list_objects, bind, log, lift, print.
  cbn [w_s3]. destruct (w_s3 w !! bucket) as [objs|].
  - destruct (matching (output_prefix job i) objs) as [|key keys].
    + eexists; (split; [|split; [reflexivity|]]); reflexivity.
    + change 1000 with (S 999).
      eexists; (split; [|split; [reflexivity|]]); reflexivity.
  - eexists; (split; [|split; [reflexivity|]]); reflexivity.
Qed.

Lemma uri_line_empty s3 bucket job i :
  listing s3 bucket job i = [] → uri_line s3 bucket job i = None.
Proof. unfold uri_line. by intros ->. Qed.

(** The loop over any list of indices that holds an index with an empty
    listing: it raises, having printed the lines of a prefix of the
    list that stops before that index. *)
Lemma verify_loop_raises bucket job i l w :
  i ∈ l →
  listing (w_s3 w) bucket job i = [] →
  ∃ e w' visited lines,
    for_each l (verify_one bucket job) w = (Raise e, w') ∧
    exc_kind e = (if w_s3 w !! bucket is Some _ then KeyError else ClientError) ∧
    (visited `prefix_of` l) ∧ (i ∉ visited) ∧
    Forall2 (λ j line, uri_line (w_s3 w) bucket job j = Some line) visited lines ∧
    w_stdout w' = w_stdout w ++ lines.
Proof.
  intros Hin Hempty. revert w Hin Hempty.
  induction l as [|j l IH]; intros w Hin Hempty; [by apply elem_of_nil in Hin|].
  destruct (verify_one_spec bucket job j w) as (w1 & Hs3 & Hstep).
  cbn [for_each]. unfold bind.
  destruct (w_s3 w !! bucket) as [objs|] eqn:Hb.
  - destruct (uri_line (w_s3 w) bucket job j) as [line|] eqn:Hj.
    + destruct Hstep as [-> Hout].
      assert (Hij : i ≠ j).
      { intros ->. by rewrite uri_line_empty in Hj. }
      apply elem_of_cons in Hin as [|Hin]; [done|].
      destruct (IH w1 Hin) as (e & w' & visited & lines & Hrun & Hk & Hpre & Hni & HF & Hout');
        [by rewrite Hs3|].
      rewrite Hs3, Hb in Hk. rewrite Hs3 in HF.
      exists e, w', (j :: visited), (line :: lines).
      split; [done|]. split; [done|].
      split; [by apply prefix_cons|].
      split; [by apply not_elem_of_cons|].
      split; [by constructor|].
      by rewrite Hout', Hout, <- app_assoc.
    + destruct Hstep as [-> Hout].
      eexists _, w1, [], []. split; [done|]. split; [done|].
      split; [apply prefix_nil|]. split; [apply not_elem_of_nil|].
      split; [constructor|]. by rewrite Hout, app_nil_r.
  - destruct Hstep as [-> Hout].
    eexists _, w1, [], []. split; [done|]. split; [done|].
    split; [apply prefix_nil|]. split; [apply not_elem_of_nil|].
    split; [constructor|]. by rewrite Hout, app_nil_r.
Qed.

(** C5.  When the listing under the prefix of an output index [i] in
    1..3 is empty, the verification cell raises ([KeyError] on the absent
    ["Contents"] entry, or the client's error when the bucket itself is
    missing) instead of going on.  What it has printed by then are the
    URIs of indices visited before [i], each with a non-empty listing:
    no line is printed for [i]. *)
Theorem verification_empty_listing (w : World) (bucket job : string) (i : nat) :
  i ∈ py_range 1 4 →
  listing (w_s3 w) bucket job i = [] →
  ∃ e w' visited lines,
    verification_cell bucket job w = (Raise e, w') ∧
    exc_kind e = (if w_s3 w !! bucket is Some _ then KeyError else ClientError) ∧
    (visited `prefix_of` py_range 1 4) ∧ (i ∉ visited) ∧
    Forall2 (λ j line, uri_line (w_s3 w) bucket job j = Some line) visited lines ∧
    w_stdout w' = w_stdout w ++ lines.
Proof. apply verify_loop_raises. Qed.

Lemma verification_empty_listing_witness :
  listing (w_s3 w_notebook) BUCKET JOB 2 = [] ∧
  ∃ e w', verification_cell BUCKET JOB w_notebook = (Raise e, w') ∧ exc_kind e = KeyError.
Proof.
  assert (Hin : 2 ∈ py_range 1 4) by (apply (bool_decide_unpack _); vm_compute; reflexivity).
  assert (Hempty : listing (w_s3 w_notebook) BUCKET JOB 2 = []) by (vm_compute; reflexivity).
  split; [exact Hempty|].
  destruct (verification_empty_listing w_notebook BUCKET JOB 2 Hin Hempty)
    as (e & w' & _ & _ & Hrun & Hkind & _).
  exists e, w'. split; [exact Hrun|]. rewrite Hkind. vm_compute. reflexivity.
Defined.

(** *** The cleanup cell *)

Lemma os_remove_step p w :
  faults (w_fs w) !! path_of p = None →
  os_remove p w =
    match lookup_node (w_fs w) (path_of p) with
    | Some (File _) =>
        (Ok tt, logged (EvRemove p) (with_nodes (delete (path_of p) (nodes (w_fs w))) w))
    | Some Dir => (Raise (os_error IsADirectoryError p), logged (EvRemove p) w)
    | None => (Raise (os_error FileNotFoundError p), logged (EvRemove p) w)
    end.
Proof.
  intros Hf. unfold os_remove, syscall, fs_remove. rewrite Hf.
  destruct (lookup_node (w_fs w) (path_of p)) as [[]|]; try done.
  all: unfold logged; by destruct w as [[]].
Qed.

Lemma shutil_rmtree_step p w :
  faults (w_fs w) !! path_of p = None →
  shutil_rmtree p w =
    match lookup_node (w_fs w) (path_of p) with
    | Some Dir =>
        (Ok tt, logged (EvRmtree p)
                  (with_nodes (filter (λ kv, under (path_of p) kv.1 = false) (nodes (w_fs w))) w))
    | Some (File _) => (Raise (os_error NotADirectoryError p), logged (EvRmtree p) w)
    | None => (Raise (os_error FileNotFoundError p), logged (EvRmtree p) w)
    end.
Proof.
  intros Hf. unfold shutil_rmtree, syscall, fs_rmtree. rewrite Hf.
  destruct (lookup_node (w_fs w) (path_of p)) as [[]|]; try done.
  all: unfold logged; by destruct w as [[]].
Qed.

Lemma path_of_model : path_of "model.tar.gz" = ["model.tar.gz"].
Proof. vm_compute. reflexivity. Qed.
Lemma path_of_iris_test : path_of "iris_test.csv" = ["iris_test.csv"].
Proof. vm_compute. reflexivity. Qed.
Lemma path_of_iris_train : path_of "iris_train.csv" = ["iris_train.csv"].
Proof. vm_compute. reflexivity. Qed.
Lemma path_of_iris_data : path_of "iris.data" = ["iris.data"].
Proof. vm_compute. reflexivity. Qed.
Lemma path_of_export : path_of "export" = ["export"].
Proof. vm_compute. reflexivity. Qed.

Lemma is_file_node w p : is_file w p = true → ∃ c, stat w p = Some (File c).
Proof. unfold is_file. destruct (stat w p) as [[c|]|]; try done. by exists c. Qed.

Ltac cleanup_paths :=
  rewrite ?path_of_model, ?path_of_iris_test, ?path_of_iris_train,
          ?path_of_iris_data, ?path_of_export in *.

Ltac cleanup_step Hf :=
  first [rewrite os_remove_step | rewrite shutil_rmtree_step];
  [|cbn [logged with_nodes w_fs set_nodes faults]; rewrite Hf; apply lookup_empty];
  cleanup_paths;
  cbn [logged with_nodes w_fs set_nodes nodes lookup_node];
  rewrite ?lookup_delete_ne by done.

Lemma filter_not_under (m : gmap (list string) node) root k :
  filter (λ kv, under root kv.1 = false) m !! k =
  if decide (root `prefix_of` k) then None else m !! k.
Proof.
  case_decide as Hp.
  - apply map_lookup_filter_None. right. intros x _. simpl. unfold under.
    by rewrite bool_decide_eq_true_2.
  - destruct (m !! k) as [x|] eqn:Hk.
    + apply map_lookup_filter_Some. split; [done|]. simpl. unfold under.
      by rewrite bool_decide_eq_false_2.
    + apply map_lookup_filter_None. by left.
Qed.

Lemma lookup_deleted (m : gmap (list string) node) ks k :
  foldr delete m ks !! k = if decide (k ∈ ks) then None else m !! k.
Proof.
  induction ks as [|k0 ks IH]; cbn [foldr].
  - rewrite decide_False; [done|apply not_elem_of_nil].
  - rewrite lookup_delete, IH.
    destruct (decide (k0 = k)) as [->|Hne].
    + rewrite decide_True; [done|apply elem_of_cons; by left].
    + destruct (decide (k ∈ ks)) as [Hin|Hnin].
      * rewrite decide_True; [done|apply elem_of_cons; by right].
      * rewrite decide_False; [done|]. intros [->|?]%elem_of_cons; done.
Qed.

Lemma if_decide_iff {A} (P Q : Prop) `{Decision P, Decision Q} (a b : A) :
  (P ↔ Q) → (if decide P then a else b) = (if decide Q then a else b).
Proof. intros HPQ. repeat case_decide; tauto. Qed.

Ltac cleanup_start :=
  unfold stat in *; cleanup_paths; cbn [lookup_node] in *;
  unfold cleanup_cell, bind.

Ltac cleanup_nodes :=
  cbn [logged with_nodes w_fs set_nodes nodes take map cleanup_targets]; cleanup_paths.

Ltac cleanup_aborted m ks :=
  eexists; split; [reflexivity|]; split;
  [ intros k; cleanup_nodes;
    try (change (delete _ _) with (foldr delete m ks));
    try (change m with (foldr delete m ks) at 1);
    rewrite lookup_deleted; apply if_decide_iff; set_solver
  | cbn [logged with_nodes w_trace]; by rewrite <- ?app_assoc ].

Section CleanupCell.

Variable w : World.
Hypothesis no_faults : faults (w_fs w) = ∅.

(** C6.  On a working directory without injected faults: when the four
    files are there and [export] is a directory, the cleanup cell ends
    normally, having removed exactly those four files and every path
    under [export], and nothing else.  When the first [n] targets are
    there and the next one is absent, the cell stops with the uncaught
    [FileNotFoundError] of that target: the targets before it are gone,
    everything else is as it was, and no later deletion is attempted. *)
Theorem cleanup_cell_spec :
  ((∀ p, p ∈ take 4 cleanup_targets → is_file w p = true) →
   stat w "export" = Some Dir →
   ∃ w', cleanup_cell w = (Ok tt, w') ∧
         (∀ k, nodes (w_fs w') !! k =
               if decide (k ∈ map path_of (take 4 cleanup_targets) ∨ ["export"] `prefix_of` k)
               then None else nodes (w_fs w) !! k) ∧
         w_trace w' = w_trace w ++ imap cleanup_event cleanup_targets) ∧
  (∀ n p,
     cleanup_targets !! n = Some p →
     (∀ q, q ∈ take n cleanup_targets → is_file w q = true) →
     stat w p = None →
     ∃ w', cleanup_cell w = (Raise (os_error FileNotFoundError p), w') ∧
           (∀ k, nodes (w_fs w') !! k =
                 if decide (k ∈ map path_of (take n cleanup_targets))
                 then None else nodes (w_fs w) !! k) ∧
           w_trace w' = w_trace w ++ imap cleanup_event (take (S n) cleanup_targets)).
Proof.
  pose proof no_faults as Hf. split.
  - intros Hfiles Hexport.
    destruct (is_file_node w "model.tar.gz") as [c0 H0]; [apply Hfiles; set_solver|].
    destruct (is_file_node w "iris_test.csv") as [c1 H1]; [apply Hfiles; set_solver|].
    destruct (is_file_node w "iris_train.csv") as [c2 H2]; [apply Hfiles; set_solver|].
    destruct (is_file_node w "iris.data") as [c3 H3]; [apply Hfiles; set_solver|].
    cleanup_start.
    cleanup_step Hf. rewrite H0.
    cleanup_step Hf. rewrite H1.
    cleanup_step Hf. rewrite H2.
    cleanup_step Hf. rewrite H3.
    cleanup_step Hf. rewrite Hexport.
    eexists. split; [reflexivity|]. split.
    + intros k. cleanup_nodes. rewrite filter_not_under.
      change (delete ["iris.data"] _)
        with (foldr delete (nodes (w_fs w))
                [["iris.data"]; ["iris_train.csv"]; ["iris_test.csv"]; ["model.tar.gz"]]).
      rewrite lookup_deleted.
      repeat case_decide; try done; exfalso; set_solver.
    + cbn [logged with_nodes w_trace]. by rewrite <- !app_assoc.
  - intros n p Hp Hfiles Habsent.
    destruct n as [|[|[|[|[|n]]]]]; [injection Hp as <- ..|done].
    + cleanup_start.
      cleanup_step Hf. rewrite Habsent.
      cleanup_aborted (nodes (w_fs w)) (@nil (list string)).
    + destruct (is_file_node w "model.tar.gz") as [c0 H0]; [apply Hfiles; set_solver|].
      cleanup_start.
      cleanup_step Hf. rewrite H0.
      cleanup_step Hf. rewrite Habsent.
      cleanup_aborted (nodes (w_fs w)) [["model.tar.gz"]].
    + destruct (is_file_node w "model.tar.gz") as [c0 H0]; [apply Hfiles; set_solver|].
      destruct (is_file_node w "iris_test.csv") as [c1 H1]; [apply Hfiles; set_solver|].
      cleanup_start.
      cleanup_step Hf. rewrite H0.
      cleanup_step Hf. rewrite H1.
      cleanup_step Hf. rewrite Habsent.
      cleanup_aborted (nodes (w_fs w)) [["iris_test.csv"]; ["model.tar.gz"]].
    + destruct (is_file_node w "model.tar.gz") as [c0 H0]; [apply Hfiles; set_solver|].
      destruct (is_file_node w "iris_test.csv") as [c1 H1]; [apply Hfiles; set_solver|].
      destruct (is_file_node w "iris_train.csv") as [c2 H2]; [apply Hfiles; set_solver|].
      cleanup_start.
      cleanup_step Hf. rewrite H0.
      cleanup_step Hf. rewrite H1.
      cleanup_step Hf. rewrite H2.
      cleanup_step Hf. rewrite Habsent.
      cleanup_aborted (nodes (w_fs w))
        [["iris_train.csv"]; ["iris_test.csv"]; ["model.tar.gz"]].
    + destruct (is_file_node w "model.tar.gz") as [c0 H0]; [apply Hfiles; set_solver|].
      destruct (is_file_node w "iris_test.csv") as [c1 H1]; [apply Hfiles; set_solver|].
      destruct (is_file_node w "iris_train.csv") as [c2 H2]; [apply Hfiles; set_solver|].
      destruct (is_file_node w "iris.data") as [c3 H3]; [apply Hfiles; set_solver|].
      cleanup_start.
      cleanup_step Hf. rewrite H0.
      cleanup_step Hf. rewrite H1.
      cleanup_step Hf. rewrite H2.
      cleanup_step Hf. rewrite H3.
      cleanup_step Hf. rewrite Habsent.
      cleanup_aborted (nodes (w_fs w))
        [["iris.data"]; ["iris_train.csv"]; ["iris_test.csv"]; ["model.tar.gz"]].
Qed.

End CleanupCell.

Lemma cleanup_cell_spec_witness :
  (∃ w', cleanup_cell w_workdir_full = (Ok tt, w') ∧
         nodes (w_fs w') !! ["export"; "Servo"; "1"; "saved_model.pb"] = None ∧
         nodes (w_fs w') !! ["tensorflow_BYOM_iris.ipynb"] = Some (File [["cells"]])) ∧
  (stat w_workdir "iris.data" = None ∧
   ∃ w', cleanup_cell w_workdir = (Raise (os_error FileNotFoundError "iris.data"), w') ∧
         nodes (w_fs w') !! ["iris_train.csv"] = None ∧
         nodes (w_fs w') !! ["export"] = Some Dir).
Proof.
  split.
  - destruct (proj1 (cleanup_cell_spec w_workdir_full eq_refl)) as (w' & Hrun & Hnodes & _).
    + intros p Hp.
      repeat (apply elem_of_cons in Hp as [->|Hp]; [vm_compute; reflexivity|]).
      by apply elem_of_nil in Hp.
    + vm_compute. reflexivity.
    + exists w'. split; [exact Hrun|]. rewrite !Hnodes. split; vm_compute; reflexivity.
  - split; [vm_compute; reflexivity|].
    destruct (proj2 (cleanup_cell_spec w_workdir eq_refl) 3 "iris.data" eq_refl)
      as (w' & Hrun & Hnodes & _).
    + intros p Hp.
      repeat (apply elem_of_cons in Hp as [->|Hp]; [vm_compute; reflexivity|]).
      by apply elem_of_nil in Hp.
    + vm_compute. reflexivity.
    + exists w'. split; [exact Hrun|]. rewrite !Hnodes. split; vm_compute; reflexivity.
Defined.

(** *** The download cell *)

(** C2, as stated, fails: [df.to_csv] writes the index as a first
    column, so [dataset.csv] is not a copy of [census-income.csv]. *)
Lemma download_cell_adds_index_column :
  stat (download_cell "us-east-1" w_census).2 "dataset.csv" ≠
  stat (download_cell "us-east-1" w_census).2 "census-income.csv".
Proof. intros H. vm_compute in H. discriminate H. Qed.

Lemma dedup_names_length names : length (dedup_names names) = length names.
Proof.
  unfold dedup_names.
  assert (∀ acc : list string * gmap string nat,
            length (foldl (λ acc col,
                             let '(col', counts) :=
                               dedup_name (S (size acc.2)) acc.2 col in
                             (acc.1 ++ [col'], counts)) acc names).1
            = length acc.1 + length names) as H.
  { induction names as [|x l IH]; intros acc; cbn [foldl length]; [lia|].
    rewrite IH. destruct (dedup_name _ _ x) as [col' counts]. cbn [fst].
    rewrite length_app. cbn [length]. lia. }
  by rewrite H.
Qed.

Lemma name_columns_length header : length (name_columns header) = length header.
Proof. unfold name_columns. by rewrite dedup_names_length, length_imap. Qed.

Lemma pad_full width line : length line = width → pad width line = line.
Proof. intros <-. unfold pad. by rewrite Nat.sub_diag, app_nil_r. Qed.

Lemma filter_all {A} (P : A → Prop) `{∀ x, Decision (P x)} (l : list A) :
  Forall P l → filter P l = l.
Proof.
  induction 1 as [|x l Hx Hl IH]; [done|].
  rewrite filter_cons_True by done. by f_equal.
Qed.

(** On a table whose lines are as long as its header, of at least two
    cells, [pd.read_csv] meets neither a line without text nor a line
    too long or too short. *)
Lemma parse_csv_rectangular header body :
  2 ≤ length header →
  Forall (λ line, length line = length header) body →
  parse_csv (header :: body) =
    Ok (mkDF (name_columns header) (imap (λ i r, (i, r)) body)).
Proof.
  intros Hw Hbody. unfold parse_csv.
  rewrite filter_all.
  2:{ constructor.
      - unfold blank. apply bool_decide_eq_false_2. intros [->| ->]; cbn in Hw; lia.
      - eapply Forall_impl; [exact Hbody|]. intros l Hl.
        unfold blank. apply bool_decide_eq_false_2. intros [->| ->]; cbn in Hl; lia. }
  cbv zeta.
  assert (length header `max` length (hd [] body) = length header) as ->.
  { destruct Hbody as [|l body Hl _]; cbn [hd length]; lia. }
  destruct (list_find _ body) as [[j l]|] eqn:Hfind.
  { apply list_find_Some in Hfind as (Hj & Hl & _).
    apply list_elem_of_lookup_2 in Hj.
    rewrite Forall_forall in Hbody. specialize (Hbody _ Hj). lia. }
  f_equal. f_equal. apply imap_ext. intros i l Hi. f_equal.
  apply pad_full. rewrite Forall_forall in Hbody.
  apply Hbody. by eapply list_elem_of_lookup_2.
Qed.

Lemma path_of_census : path_of "census-income.csv" = ["census-income.csv"].
Proof. vm_compute. reflexivity. Qed.
Lemma path_of_dataset : path_of "dataset.csv" = ["dataset.csv"].
Proof. vm_compute. reflexivity. Qed.

Lemma fs_write_top p k c fs :
  path_of p = [k] →
  faults fs = ∅ →
  nodes fs !! [k] ≠ Some Dir →
  fs_write p c fs = (Ok tt, set_nodes fs (<[ [k] := File c ]> (nodes fs))).
Proof.
  intros Hp Hf Hd. unfold fs_write. rewrite Hp, Hf, lookup_empty.
  cbn [lookup_node removelast]. by destruct (nodes fs !! [k]) as [[]|].
Qed.

Lemma fs_read_top p k c fs :
  path_of p = [k] →
  faults fs = ∅ →
  nodes fs !! [k] = Some (File c) →
  fs_read p fs = (Ok c, fs).
Proof.
  intros Hp Hf Hc. unfold fs_read. rewrite Hp, Hf, lookup_empty.
  cbn [lookup_node]. by rewrite Hc.
Qed.

Lemma imap_cells {A} (l : list A) k :
  map (λ r, r.2) (imap (λ i r, (k + i, r)) l) = l.
Proof.
  revert k. induction l as [|x l IH]; intros k; [done|].
  rewrite imap_cons. cbn [map snd]. f_equal.
  rewrite <- (IH (S k)) at 2. f_equal. apply imap_ext. intros i y _. simpl. f_equal. lia.
Qed.

Lemma index_column {A} (l : list A) k :
  map (λ r : nat * A, [str_nat r.1]) (imap (λ i r, (k + i, r)) l) =
  map (λ i, [str_nat i]) (seq k (length l)).
Proof.
  rewrite <- (imap_index_fst l k), map_map. done.
Qed.

(** C2 (amended).  [dataset.csv] is not a copy of [census-income.csv]:
    [df.to_csv] writes the frame with its row index as a first column.
    For a downloaded table of at least two columns whose lines are as
    long as its header, the cell succeeds (no fault, neither name taken
    by a directory) and leaves [census-income.csv] as downloaded and
    [dataset.csv] with as many lines, each one cell longer: an empty cell
    in the header line, then 0, 1, 2, ... in the lines that follow. *)
Theorem download_cell_resave (region : string) (w : World) objs header body :
  faults (w_fs w) = ∅ →
  w_s3 w !! ("sagemaker-sample-data-" +:+ region) = Some objs →
  find_object "processing/census/census-income.csv" objs = Some (header :: body) →
  2 ≤ length header →
  Forall (λ line, length line = length header) body →
  stat w "census-income.csv" ≠ Some Dir →
  stat w "dataset.csv" ≠ Some Dir →
  ∃ shown w' dataset,
    download_cell region w = (Ok shown, w') ∧
    stat w' "census-income.csv" = Some (File (header :: body)) ∧
    stat w' "dataset.csv" = Some (File dataset) ∧
    map (take 1) dataset = [""] :: map (λ i, [str_nat i]) (seq 0 (length body)) ∧
    map length dataset = map (λ line, S (length line)) (header :: body) ∧
    dataset ≠ header :: body.
Proof.
  intros Hf Hs3 Hobj Hw Hbody Hc Hd. unfold stat in *.
  rewrite path_of_census, path_of_dataset in *. cbn [lookup_node] in *.
  unfold download_cell, bind at 1, s3_download_file. rewrite Hs3, Hobj.
  unfold bind at 1, log, syscall. cbn [w_fs w_stdout w_rng w_s3 w_trace].
  rewrite (fs_write_top _ _ _ _ path_of_census Hf Hc).
  unfold bind at 1, read_csv, bind at 1, syscall. cbn [w_fs w_stdout w_rng w_s3 w_trace].
  rewrite (fs_read_top _ "census-income.csv" (header :: body));
    [|apply path_of_census|done|apply lookup_insert_eq].
  rewrite (parse_csv_rectangular header body Hw Hbody).
  cbn [ret]. unfold bind at 1, to_csv, syscall. cbn [w_fs w_stdout w_rng w_s3 w_trace].
  rewrite (fs_write_top _ _ _ _ path_of_dataset);
    [|done|cbn [set_nodes nodes]; by rewrite lookup_insert_ne].
  unfold ret. eexists _, _, _. split; [reflexivity|].
  cbn [w_fs set_nodes nodes lookup_node].
  rewrite lookup_insert_ne by done. rewrite !lookup_insert_eq.
  split; [done|]. split; [reflexivity|].
  unfold format_csv. cbn [columns rows map take length].
  rewrite !map_map. cbn [take length].
  split; [|split].
  - f_equal. apply (index_column body 0).
  - rewrite name_columns_length. f_equal.
    rewrite <- (map_map (λ r : nat * list string, r.2) (λ line, S (length line))).
    f_equal. apply (imap_cells body 0).
  - intros [= Hhead _]. apply (f_equal length) in Hhead.
    cbn [length] in Hhead. rewrite name_columns_length in Hhead. lia.
Qed.

Lemma download_cell_resave_witness :
  stat w_census "dataset.csv" ≠ Some Dir ∧
  stat (download_cell "us-east-1" w_census).2 "dataset.csv" = Some (File sample_dataset) ∧
  map length sample_dataset = map (λ line, S (length line)) sample_census.
Proof.
  split; [intros H; vm_compute in H; discriminate H|].
  destruct (download_cell_resave "us-east-1" w_census
              [("processing/census/census-income.csv", sample_census)]
              ["age"; "income"] (tail sample_census))
    as (shown & w' & dataset & Hrun & _ & Hstat & _ & Hlen & _).
  - reflexivity.
  - vm_compute. reflexivity.
  - vm_compute. reflexivity.
  - vm_compute. lia.
  - repeat constructor.
  - intros H; vm_compute in H; discriminate H.
  - intros H; vm_compute in H; discriminate H.
  - assert (Heq : stat (download_cell "us-east-1" w_census).2 "dataset.csv"
                  = Some (File sample_dataset)) by (vm_compute; reflexivity).
    split; [exact Heq|].
    rewrite Hrun in Heq. cbn [snd] in Heq. rewrite Hstat in Heq.
    injection Heq as <-. exact Hlen.
Defined.

(** *** The output bindings *)

Lemma append_assoc (a b c : string) : (a +:+ b) +:+ c = a +:+ (b +:+ c).
Proof.
  induction a as [|x a IH]; [done|].
  change (String x ((a +:+ b) +:+ c) = String x (a +:+ (b +:+ c))). by f_equal.
Qed.

Lemma prefix_append (a p k : string) :
  String.prefix (a +:+ p) (a +:+ k) = String.prefix p k.
Proof.
  induction a as [|c a IH]; [done|].
  change (String.prefix (String c (a +:+ p)) (String c (a +:+ k)) = String.prefix p k).
  cbn [String.prefix]. by destruct (ascii_dec c c).
Qed.

Lemma prefix_uri (bucket p k : string) :
  String.prefix ("s3://" +:+ bucket +:+ "/" +:+ p) ("s3://" +:+ bucket +:+ "/" +:+ k)
  = String.prefix p k.
Proof. by rewrite (prefix_append "s3://"), (prefix_append bucket), (prefix_append "/"). Qed.

(** Listing the keys under a prefix and listing the URIs under the URI
    of that prefix give the same objects. *)
Lemma matching_uris bucket p (objs : list (string * csv)) :
  filter (λ uri, String.prefix ("s3://" +:+ bucket +:+ "/" +:+ p) uri = true)
         (map (λ kv, "s3://" +:+ bucket +:+ "/" +:+ kv.1) objs)
  = map (λ k, "s3://" +:+ bucket +:+ "/" +:+ k) (matching p objs).
Proof.
  unfold matching. induction objs as [|[k c] objs IH]; [done|].
  cbn [map fst]. destruct (String.prefix p k) eqn:Hk.
  - rewrite !filter_cons_True by (by rewrite ?prefix_uri). cbn [map]. by f_equal.
  - rewrite !filter_cons_False by (by rewrite ?prefix_uri, Hk). exact IH.
Qed.

Lemma destination_prefix bucket job i o :
  normalize_outputs bucket job run_outputs !! i = Some o →
  source o = default "" (source <$> run_outputs !! i) ∧
  (λ d, d +:+ "/") <$> destination o =
    Some ("s3://" +:+ bucket +:+ "/" +:+ output_prefix job (S i)).
Proof.
  unfold output_prefix.
  destruct i as [|[|[|i]]]; [| | |done]; intros [= <-]; (split; [reflexivity|]);
    cbn -[String.append];
    change (str_nat 1) with "1"; change (str_nat 2) with "2"; change (str_nat 3) with "3";
    rewrite !append_assoc; reflexivity.
Qed.

Lemma stored_under_listing s3 bucket job i o :
  normalize_outputs bucket job run_outputs !! i = Some o →
  stored_under s3 bucket o =
    map (λ k, "s3://" +:+ bucket +:+ "/" +:+ k) (listing s3 bucket job (S i)).
Proof.
  intros [_ Hd]%destination_prefix. unfold stored_under, listing.
  destruct (destination o) as [d|]; [|done]. injection Hd as Hd.
  destruct (s3 !! bucket) as [objs|]; [|done].
  rewrite Hd. apply matching_uris.
Qed.

(** The lines of the verification cell when each listing has a first
    key. *)
Lemma verification_cell_prints w bucket job k1 k2 k3 :
  head (listing (w_s3 w) bucket job 1) = Some k1 →
  head (listing (w_s3 w) bucket job 2) = Some k2 →
  head (listing (w_s3 w) bucket job 3) = Some k3 →
  ∃ w',
    verification_cell bucket job w = (Ok tt, w') ∧
    w_stdout w' = w_stdout w ++
      ["s3://" +:+ bucket +:+ "/" +:+ k1;
       "s3://" +:+ bucket +:+ "/" +:+ k2;
       "s3://" +:+ bucket +:+ "/" +:+ k3].
Proof.
  intros H1 H2 H3.
  assert (∃ objs, w_s3 w !! bucket = Some objs) as [objs Hb].
  { unfold listing in H1. destruct (w_s3 w !! bucket) as [objs|]; [by exists objs|done]. }
  unfold verification_cell. change (py_range 1 4) with [1; 2; 3]. cbn [for_each]. unfold bind.
  destruct (verify_one_spec bucket job 1 w) as (w1 & Hs1 & Hstep1).
  unfold uri_line in Hstep1. rewrite Hb, H1 in Hstep1.
  destruct Hstep1 as [Hrun1 Hout1]. rewrite Hrun1.
  destruct (verify_one_spec bucket job 2 w1) as (w2 & Hs2 & Hstep2).
  unfold uri_line in Hstep2. rewrite Hs1, Hb, H2 in Hstep2.
  destruct Hstep2 as [Hrun2 Hout2]. rewrite Hrun2.
  destruct (verify_one_spec bucket job 3 w2) as (w3 & Hs3 & Hstep3).
  unfold uri_line in Hstep3. rewrite Hs2, Hs1, Hb, H3 in Hstep3.
  destruct Hstep3 as [Hrun3 Hout3]. rewrite Hrun3.
  exists w3. unfold ret. split; [done|].
  by rewrite Hout3, Hout2, Hout1, <- !app_assoc.
Qed.

(** C8.  The job is run with exactly three outputs, whose container
    paths are the train, validation and test directories in that order;
    the SDK names them [output-1], [output-2], [output-3] in list order
    and sends each to [s3://<bucket>/<job>/output/<name>].  The
    verification cell reads them back in that order: when objects are
    stored under the destination of each output, the cell prints three
    lines, and the line for the train, the validation and the test output
    is, in this order, the URI of the first object stored under the
    destination of that output. *)
Theorem output_bindings_order (bucket job : string) (w : World) :
  let outputs := normalize_outputs bucket job run_outputs in
  map (λ o, (source o, output_name o)) outputs =
    [(TRAIN_DIR, Some "output-1"); (VALIDATION_DIR, Some "output-2");
     (TEST_DIR, Some "output-3")] ∧
  (Forall (λ o, stored_under (w_s3 w) bucket o ≠ []) outputs →
   ∃ lines w',
     Forall2 (λ o line, head (stored_under (w_s3 w) bucket o) = Some line) outputs lines ∧
     verification_cell bucket job w = (Ok tt, w') ∧
     w_stdout w' = w_stdout w ++ lines).
Proof.
  cbv zeta. split; [reflexivity|].
  remember (normalize_outputs bucket job run_outputs) as outputs eqn:Houts.
  assert (∃ o1 o2 o3, outputs = [o1; o2; o3]) as (o1 & o2 & o3 & Hlist).
  { subst outputs. by eexists _, _, _. }
  assert (outputs !! 0 = Some o1 ∧ outputs !! 1 = Some o2 ∧ outputs !! 2 = Some o3)
    as (Ho1 & Ho2 & Ho3) by (by rewrite Hlist).
  rewrite Houts in Ho1, Ho2, Ho3.
  rewrite Hlist. intros Hall.
  apply Forall_cons in Hall as [Hn1 Hall]. apply Forall_cons in Hall as [Hn2 Hall].
  apply Forall_cons in Hall as [Hn3 _].
  pose proof (stored_under_listing (w_s3 w) _ _ _ _ Ho1) as E1.
  pose proof (stored_under_listing (w_s3 w) _ _ _ _ Ho2) as E2.
  pose proof (stored_under_listing (w_s3 w) _ _ _ _ Ho3) as E3.
  rewrite E1 in Hn1. rewrite E2 in Hn2. rewrite E3 in Hn3.
  destruct (listing (w_s3 w) bucket job 1) as [|k1 l1] eqn:H1; [done|].
  destruct (listing (w_s3 w) bucket job 2) as [|k2 l2] eqn:H2; [done|].
  destruct (listing (w_s3 w) bucket job 3) as [|k3 l3] eqn:H3; [done|].
  destruct (verification_cell_prints w bucket job k1 k2 k3) as (w' & Hrun & Hout);
    [by rewrite H1|by rewrite H2|by rewrite H3|].
  eexists _, w'. split; [|split; [exact Hrun|exact Hout]].
  constructor; [by rewrite E1|]. constructor; [by rewrite E2|].
  constructor; [by rewrite E3|constructor].
Qed.

Lemma output_bindings_order_witness :
  ∃ w',
    verification_cell BUCKET JOB w_uploaded = (Ok tt, w') ∧
    w_stdout w' =
      ["s3://" +:+ BUCKET +:+ "/" +:+ JOB +:+ "/output/output-1/train.csv";
       "s3://" +:+ BUCKET +:+ "/" +:+ JOB +:+ "/output/output-2/validation.csv";
       "s3://" +:+ BUCKET +:+ "/" +:+ JOB +:+ "/output/output-3/test.csv"].
Proof.
  destruct (proj2 (output_bindings_order BUCKET JOB w_uploaded))
    as (lines & w' & Hlines & Hrun & Hout).
  - repeat constructor; intros H; vm_compute in H; discriminate H.
  - exists w'. split; [exact Hrun|]. rewrite Hout.
    apply Forall2_cons_inv_l in Hlines as (u1 & lines1 & Hu1 & Hlines & ->).
    apply Forall2_cons_inv_l in Hlines as (u2 & lines2 & Hu2 & Hlines & ->).
    apply Forall2_cons_inv_l in Hlines as (u3 & lines3 & Hu3 & Hlines & ->).
    apply Forall2_nil_inv_l in Hlines as ->.
    vm_compute in Hu1, Hu2, Hu3.
    injection Hu1 as <-. injection Hu2 as <-. injection Hu3 as <-.
    vm_compute. reflexivity.
Defined.

(** *** The model definition *)




Lemma unique_object_name_eq prefix s :
  unique_object_name prefix s =
    (match default 0 (k_uids s !! prefix) with
     | 0 => prefix
     | S _ => prefix +:+ "_" +:+ str_nat (default 0 (k_uids s !! prefix))
     end,
     mkKeras (<[prefix := S (default 0 (k_uids s !! prefix))]> (k_uids s)) (k_rng s)).
Proof. reflexivity. Qed.






(** *** Further properties of the cells and of the script *)

Ltac sample_run :=
  vm_compute; first [reflexivity | lia | (let H := fresh in intros H; discriminate H)].

(** **** The script in a prepared and in a fresh container *)

Lemma lookup_node_snoc fs k c : lookup_node fs (k ++ [c]) = nodes fs !! (k ++ [c]).
Proof. by destruct k. Qed.

Lemma fs_read_unchanged p fs r fs' : fs_read p fs = (r, fs') → fs' = fs.
Proof.
  unfold fs_read.
  repeat match goal with
         | |- context [match ?x with _ => _ end] => destruct x
         end; intros ?; by simplify_eq.
Qed.

Lemma makedirs_leaf p k0 c fs y :
  path_of p = k0 ++ [c] →
  lookup_node fs k0 = Some y →
  fs_makedirs p fs = mkdir_at (is_abs p) (k0 ++ [c]) fs.
Proof.
  intros Hp Hk. unfold fs_makedirs. rewrite Hp, rev_unit. cbn [makedirs_rev].
  rewrite rev_involutive, Hk. by rewrite <- rev_unit, rev_involutive.
Qed.

Lemma makedirs_two p k0 b c fs y :
  path_of p = k0 ++ [b; c] →
  lookup_node fs k0 = Some y →
  nodes fs !! (k0 ++ [b]) = None →
  fs_makedirs p fs =
    match mkdir_at (is_abs p) (k0 ++ [b]) fs with
    | (Ok _, fs') => mkdir_at (is_abs p) (k0 ++ [b; c]) fs'
    | (Raise e, fs') =>
        match exc_kind e with
        | OSError FileExistsError => mkdir_at (is_abs p) (k0 ++ [b; c]) fs'
        | _ => (Raise e, fs')
        end
    end.
Proof.
  intros Hp Hk Hb. unfold fs_makedirs. rewrite Hp.
  replace (k0 ++ [b; c]) with ((k0 ++ [b]) ++ [c]) by by rewrite <- app_assoc.
  rewrite rev_unit. cbn [makedirs_rev].
  rewrite !rev_unit. cbn [makedirs_rev]. rewrite !rev_involutive.
  change (rev (b :: rev k0)) with (rev (rev k0) ++ [b]). rewrite rev_involutive.
  rewrite lookup_node_snoc, Hb, Hk.
  change (rev (c :: b :: rev k0)) with ((rev (rev k0) ++ [b]) ++ [c]). rewrite rev_involutive.
  destruct (mkdir_at (is_abs p) (k0 ++ [b]) fs) as [[[]|e] fs']; [done|].
  by destruct (exc_kind e) as [[]| | | | | | |].
Qed.

Lemma mkdir_at_fresh abs k c fs :
  faults fs !! (k ++ [c]) = None →
  nodes fs !! (k ++ [c]) = None →
  lookup_node fs k = Some Dir →
  mkdir_at abs (k ++ [c]) fs = (Ok tt, set_nodes fs (<[k ++ [c] := Dir]> (nodes fs))).
Proof.
  intros Hf Hn Hk. unfold mkdir_at. rewrite Hf, lookup_node_snoc, Hn.
  by rewrite removelast_last, Hk.
Qed.

Lemma mkdir_at_exists abs k c fs x :
  faults fs !! (k ++ [c]) = None →
  nodes fs !! (k ++ [c]) = Some x →
  mkdir_at abs (k ++ [c]) fs = (Raise (os_error FileExistsError (render abs (k ++ [c]))), fs).
Proof. intros Hf Hn. unfold mkdir_at. by rewrite Hf, lookup_node_snoc, Hn. Qed.

Lemma fs_write_in_dir p k c content fs :
  path_of p = k ++ [c] →
  faults fs !! (k ++ [c]) = None →
  nodes fs !! (k ++ [c]) ≠ Some Dir →
  lookup_node fs k = Some Dir →
  fs_write p content fs = (Ok tt, set_nodes fs (<[k ++ [c] := File content]> (nodes fs))).
Proof.
  intros Hp Hf Hn Hk. unfold fs_write. rewrite Hp, Hf, lookup_node_snoc.
  rewrite removelast_last, Hk. by destruct (nodes fs !! (k ++ [c])) as [[]|].
Qed.

Lemma fs_write_no_dir p k c content fs :
  path_of p = k ++ [c] →
  faults fs !! (k ++ [c]) = None →
  nodes fs !! (k ++ [c]) = None →
  lookup_node fs k = None →
  fs_write p content fs = (Raise (os_error FileNotFoundError p), fs).
Proof.
  intros Hp Hf Hn Hk. unfold fs_write. rewrite Hp, Hf, lookup_node_snoc, Hn.
  by rewrite removelast_last, Hk.
Qed.

Lemma path_of_TRAIN_DIR : path_of TRAIN_DIR = OUTPUT_K ++ ["train"].
Proof. vm_compute. reflexivity. Qed.
Lemma path_of_VALIDATION_DIR : path_of VALIDATION_DIR = OUTPUT_K ++ ["validation"].
Proof. vm_compute. reflexivity. Qed.
Lemma path_of_TEST_DIR : path_of TEST_DIR = OUTPUT_K ++ ["test"].
Proof. vm_compute. reflexivity. Qed.
Lemma path_of_TRAIN_CSV' : path_of TRAIN_CSV = TRAIN_K ++ ["train.csv"].
Proof. vm_compute. reflexivity. Qed.
Lemma path_of_VALIDATION_CSV : path_of VALIDATION_CSV = VALIDATION_K ++ ["validation.csv"].
Proof. vm_compute. reflexivity. Qed.
Lemma path_of_TEST_CSV : path_of TEST_CSV = TEST_K ++ ["test.csv"].
Proof. vm_compute. reflexivity. Qed.

Lemma read_csv_effect p w : ∃ r, read_csv p w = (r, logged (EvRead p) w).
Proof.
  unfold read_csv, bind, syscall.
  destruct (fs_read p (w_fs w)) as [r fs'] eqn:E.
  apply fs_read_unchanged in E as ->.
  destruct r as [t|e]; [|by eexists].
  destruct (parse_csv t); eexists; unfold ret, raise, logged; by destruct w.
Qed.

Lemma preprocessing_py_split w df :
  (read_csv input_data_path w).1 = Ok df →
  3 ≤ length (rows df) →
  ∃ train validation test w3,
    preprocessing_py w =
      (make_directories ;; write_files train validation test ;; print COMPLETED) w3 ∧
    rows train ++ rows validation ++ rows test ≡ₚ rows df ∧
    w_fs w3 = w_fs w ∧
    w_stdout w3 = w_stdout w ++ [shape_line df] ∧
    w_trace w3 = w_trace w ++ [EvRead input_data_path].
Proof.
  intros Hread HN. unfold preprocessing_py, bind at 1.
  destruct (read_csv_effect input_data_path w) as [r Hr]. rewrite Hr in Hread |- *.
  simpl in Hread. subst r. unfold bind at 1, print at 1. unfold bind at 1.
  destruct (split3_ok df
              (mkWorld (w_fs (logged (EvRead input_data_path) w))
                       (w_stdout (logged (EvRead input_data_path) w) ++ [shape_line df])
                       (w_rng (logged (EvRead input_data_path) w))
                       (w_s3 (logged (EvRead input_data_path) w))
                       (w_trace (logged (EvRead input_data_path) w))) HN)
    as (tr & va & te & w3 & Hsplit & Hperm & _ & _ & Hfs & Hout & _ & Htr).
  unfold shape_line in *. rewrite Hsplit.
  exists tr, va, te, w3. split; [reflexivity|]. split; [done|].
  by rewrite Hfs, Hout, Htr.
Qed.

Ltac path_neq :=
  unfold TRAIN_CSV_K, VALIDATION_CSV_K, TEST_CSV_K, TRAIN_K, VALIDATION_K, TEST_K, OUTPUT_K;
  cbn [app]; discriminate.

Ltac fs_simpl :=
  cbn [w_fs w_stdout w_rng w_s3 w_trace set_nodes nodes faults logged with_nodes fst snd].

Lemma write_files_ok train validation test w :
  faults (w_fs w) = ∅ →
  nodes (w_fs w) !! TRAIN_K = Some Dir →
  nodes (w_fs w) !! VALIDATION_K = Some Dir →
  nodes (w_fs w) !! TEST_K = Some Dir →
  nodes (w_fs w) !! TRAIN_CSV_K ≠ Some Dir →
  nodes (w_fs w) !! VALIDATION_CSV_K ≠ Some Dir →
  nodes (w_fs w) !! TEST_CSV_K ≠ Some Dir →
  write_files train validation test w =
    (Ok tt,
     mkWorld (set_nodes (w_fs w)
                (<[TEST_CSV_K := File (format_csv test)]>
                 (<[VALIDATION_CSV_K := File (format_csv validation)]>
                  (<[TRAIN_CSV_K := File (format_csv train)]> (nodes (w_fs w))))))
             (w_stdout w ++ ["Wrote files successfully"]) (w_rng w) (w_s3 w)
             (w_trace w ++ [EvWrite TRAIN_CSV; EvWrite VALIDATION_CSV; EvWrite TEST_CSV])).
Proof.
  intros Hf Ht Hv Hte Htc Hvc Htec.
  unfold write_files, try_except, bind, to_csv, syscall, print. fs_simpl.
  rewrite (fs_write_in_dir TRAIN_CSV TRAIN_K "train.csv");
    [|apply path_of_TRAIN_CSV'|by rewrite Hf|done|done].
  fs_simpl.
  rewrite (fs_write_in_dir VALIDATION_CSV VALIDATION_K "validation.csv");
    [|apply path_of_VALIDATION_CSV|fs_simpl; by rewrite Hf
     |fs_simpl; rewrite lookup_insert_ne by path_neq; done
     |cbn [lookup_node VALIDATION_K]; fs_simpl; rewrite lookup_insert_ne by path_neq; done].
  fs_simpl.
  rewrite (fs_write_in_dir TEST_CSV TEST_K "test.csv");
    [|apply path_of_TEST_CSV|fs_simpl; by rewrite Hf
     |fs_simpl; rewrite !lookup_insert_ne by path_neq; done
     |cbn [lookup_node TEST_K]; fs_simpl; rewrite !lookup_insert_ne by path_neq; done].
  fs_simpl. by rewrite <- !app_assoc.
Qed.

Lemma print_eq line w :
  print line w = (Ok tt, mkWorld (w_fs w) (w_stdout w ++ [line]) (w_rng w) (w_s3 w) (w_trace w)).
Proof. done. Qed.

Lemma render_TRAIN_DIR : render true (OUTPUT_K ++ ["train"]) = TRAIN_DIR.
Proof. vm_compute. reflexivity. Qed.

Lemma exc_msg_train_exists :
  exc_msg (os_error FileExistsError TRAIN_DIR) =
  "[Errno 17] File exists: '/opt/ml/processing/output/train'".
Proof. vm_compute. reflexivity. Qed.

Lemma exc_msg_validation_missing :
  exc_msg (os_error FileNotFoundError VALIDATION_CSV) =
  "[Errno 2] No such file or directory: '/opt/ml/processing/output/validation/validation.csv'".
Proof. vm_compute. reflexivity. Qed.

Ltac script_lookups :=
  unfold TRAIN_CSV_K, VALIDATION_CSV_K, TEST_CSV_K, TRAIN_K, VALIDATION_K, TEST_K, OUTPUT_K;
  cbn [app];
  repeat first [rewrite lookup_insert_eq | rewrite lookup_insert_ne by discriminate].

Lemma tail_directories_exist w3 tr va te :
  faults (w_fs w3) = ∅ →
  nodes (w_fs w3) !! OUTPUT_K = Some Dir →
  nodes (w_fs w3) !! TRAIN_K = Some Dir →
  nodes (w_fs w3) !! VALIDATION_K = Some Dir →
  nodes (w_fs w3) !! TEST_K = Some Dir →
  nodes (w_fs w3) !! TRAIN_CSV_K ≠ Some Dir →
  nodes (w_fs w3) !! VALIDATION_CSV_K ≠ Some Dir →
  nodes (w_fs w3) !! TEST_CSV_K ≠ Some Dir →
  (make_directories ;; write_files tr va te ;; print COMPLETED) w3 =
    (Ok tt,
     mkWorld (set_nodes (w_fs w3)
                (<[TEST_CSV_K := File (format_csv te)]>
                 (<[VALIDATION_CSV_K := File (format_csv va)]>
                  (<[TRAIN_CSV_K := File (format_csv tr)]> (nodes (w_fs w3))))))
             (w_stdout w3 ++
                ["[Errno 17] File exists: '/opt/ml/processing/output/train'";
                 "Could not make directories"; "Wrote files successfully"; COMPLETED])
             (w_rng w3) (w_s3 w3)
             (w_trace w3 ++
                [EvMakedirs TRAIN_DIR; EvWrite TRAIN_CSV; EvWrite VALIDATION_CSV;
                 EvWrite TEST_CSV])).
Proof.
  intros Hf Ho Ht Hv Hte Htc Hvc Htec.
  assert (Hmk : fs_makedirs TRAIN_DIR (w_fs w3)
                = (Raise (os_error FileExistsError TRAIN_DIR), w_fs w3)).
  { rewrite (makedirs_leaf TRAIN_DIR OUTPUT_K "train" _ Dir);
      [|apply path_of_TRAIN_DIR|done].
    rewrite (mkdir_at_exists _ OUTPUT_K "train" _ Dir) by (by rewrite ?Hf).
    change (is_abs TRAIN_DIR) with true. by rewrite render_TRAIN_DIR. }
  unfold bind at 1. rewrite (make_directories_train_fails _ _ _ Hmk).
  unfold bind at 1. rewrite write_files_ok; fs_simpl; try done.
  rewrite print_eq. fs_simpl.
  rewrite exc_msg_train_exists, <- !app_assoc. reflexivity.
Qed.

Lemma stat_nodes w p k :
  path_of p = k → k ≠ [] → stat w p = nodes (w_fs w) !! k.
Proof. intros <- Hk. unfold stat. by destruct (path_of p). Qed.

Lemma stat_OUTPUT_DIR w : stat w OUTPUT_DIR = nodes (w_fs w) !! OUTPUT_K.
Proof. by apply stat_nodes; [vm_compute|]. Qed.
Lemma stat_TRAIN_DIR w : stat w TRAIN_DIR = nodes (w_fs w) !! TRAIN_K.
Proof. by apply stat_nodes; [vm_compute|]. Qed.
Lemma stat_VALIDATION_DIR w : stat w VALIDATION_DIR = nodes (w_fs w) !! VALIDATION_K.
Proof. by apply stat_nodes; [vm_compute|]. Qed.
Lemma stat_TEST_DIR w : stat w TEST_DIR = nodes (w_fs w) !! TEST_K.
Proof. by apply stat_nodes; [vm_compute|]. Qed.
Lemma stat_TRAIN_CSV w : stat w TRAIN_CSV = nodes (w_fs w) !! TRAIN_CSV_K.
Proof. by apply stat_nodes; [vm_compute|]. Qed.
Lemma stat_VALIDATION_CSV w : stat w VALIDATION_CSV = nodes (w_fs w) !! VALIDATION_CSV_K.
Proof. by apply stat_nodes; [vm_compute|]. Qed.
Lemma stat_TEST_CSV w : stat w TEST_CSV = nodes (w_fs w) !! TEST_CSV_K.
Proof. by apply stat_nodes; [vm_compute|]. Qed.

Ltac script_stat :=
  rewrite ?stat_OUTPUT_DIR, ?stat_TRAIN_DIR, ?stat_VALIDATION_DIR, ?stat_TEST_DIR,
    ?stat_TRAIN_CSV, ?stat_VALIDATION_CSV, ?stat_TEST_CSV in *.

(** X1.  When the output directory and its three sub-directories exist
    before the script starts (a data set of at least three rows, no
    injected fault), the first [os.makedirs] raises [FileExistsError] and
    the other two are not called.  The script prints that error and
    "Could not make directories", writes the three partitions, which
    together hold the rows of the data set, prints "Wrote files
    successfully" and ends with the completion marker. *)
Theorem preprocessing_py_directories_exist (w : World) (df : DataFrame) :
  (read_csv input_data_path w).1 = Ok df →
  3 ≤ length (rows df) →
  faults (w_fs w) = ∅ →
  stat w OUTPUT_DIR = Some Dir →
  stat w TRAIN_DIR = Some Dir →
  stat w VALIDATION_DIR = Some Dir →
  stat w TEST_DIR = Some Dir →
  stat w TRAIN_CSV ≠ Some Dir →
  stat w VALIDATION_CSV ≠ Some Dir →
  stat w TEST_CSV ≠ Some Dir →
  ∃ train validation test w',
    preprocessing_py w = (Ok tt, w') ∧
    rows train ++ rows validation ++ rows test ≡ₚ rows df ∧
    stat w' TRAIN_CSV = Some (File (format_csv train)) ∧
    stat w' VALIDATION_CSV = Some (File (format_csv validation)) ∧
    stat w' TEST_CSV = Some (File (format_csv test)) ∧
    w_stdout w' = w_stdout w ++
      [shape_line df;
       "[Errno 17] File exists: '/opt/ml/processing/output/train'";
       "Could not make directories";
       "Wrote files successfully";
       COMPLETED] ∧
    w_trace w' = w_trace w ++
      [EvRead input_data_path; EvMakedirs TRAIN_DIR;
       EvWrite TRAIN_CSV; EvWrite VALIDATION_CSV; EvWrite TEST_CSV].
Proof.
  intros Hread HN Hf Ho Ht Hv Hte Htc Hvc Htec.
  destruct (preprocessing_py_split w df Hread HN)
    as (tr & va & te & w3 & Hrun & Hperm & Hfs & Hout & Htr).
  script_stat. rewrite <- Hfs in Hf, Ho, Ht, Hv, Hte, Htc, Hvc, Htec.
  rewrite (tail_directories_exist w3 tr va te Hf Ho Ht Hv Hte Htc Hvc Htec) in Hrun.
  exists tr, va, te. eexists. split; [exact Hrun|]. split; [exact Hperm|].
  script_stat. fs_simpl. script_lookups.
  rewrite Hout, Htr, <- !app_assoc.
  split; [reflexivity|]. split; [reflexivity|]. split; [reflexivity|].
  split; reflexivity.
Qed.

Lemma preprocessing_py_directories_exist_witness :
  ∃ w', preprocessing_py w_prepared = (Ok tt, w') ∧
        w_stdout w' =
          ["Shape of data is: (10, 3)";
           "[Errno 17] File exists: '/opt/ml/processing/output/train'";
           "Could not make directories";
           "Wrote files successfully";
           COMPLETED].
Proof.
  destruct (preprocessing_py_directories_exist w_prepared sample_frame)
    as (tr & va & te & w' & Hrun & _ & _ & _ & _ & Hout & _); [sample_run ..|].
  exists w'. split; [exact Hrun|exact Hout].
Defined.

Lemma stat_PROCESSING_DIR w : stat w PROCESSING_DIR = nodes (w_fs w) !! PROCESSING_K.
Proof. by apply stat_nodes; [vm_compute|]. Qed.

Lemma path_of_TRAIN_DIR_deep : path_of TRAIN_DIR = PROCESSING_K ++ ["output"; "train"].
Proof. vm_compute. reflexivity. Qed.

Ltac script_stat' := rewrite ?stat_PROCESSING_DIR in *; script_stat.

Lemma make_directories_fresh w :
  faults (w_fs w) = ∅ →
  nodes (w_fs w) !! PROCESSING_K = Some Dir →
  nodes (w_fs w) !! OUTPUT_K = None →
  nodes (w_fs w) !! TRAIN_K = None →
  nodes (w_fs w) !! VALIDATION_K = None →
  nodes (w_fs w) !! TEST_K = None →
  make_directories w =
    (Ok tt,
     mkWorld (set_nodes (w_fs w)
                (<[TEST_K := Dir]> (<[VALIDATION_K := Dir]> (<[TRAIN_K := Dir]>
                   (<[OUTPUT_K := Dir]> (nodes (w_fs w)))))))
             (w_stdout w ++ ["Successfully created directories"]) (w_rng w) (w_s3 w)
             (w_trace w ++ [EvMakedirs TRAIN_DIR; EvMakedirs VALIDATION_DIR;
                            EvMakedirs TEST_DIR])).
Proof.
  intros Hf Hp Ho Ht Hv Hte.
  unfold make_directories, try_except, bind, os_makedirs, syscall, print. fs_simpl.
  rewrite (makedirs_two TRAIN_DIR PROCESSING_K "output" "train" _ Dir);
    [|apply path_of_TRAIN_DIR_deep|done|done].
  change (is_abs TRAIN_DIR) with true.
  rewrite (mkdir_at_fresh true PROCESSING_K "output"); [|by rewrite Hf|done|done].
  rewrite (mkdir_at_fresh true OUTPUT_K "train");
    [|fs_simpl; by rewrite Hf|fs_simpl; by rewrite lookup_insert_ne by path_neq
     |cbn [lookup_node OUTPUT_K]; fs_simpl; apply lookup_insert_eq].
  fs_simpl.
  rewrite (makedirs_leaf VALIDATION_DIR OUTPUT_K "validation" _ Dir);
    [|apply path_of_VALIDATION_DIR
     |cbn [lookup_node OUTPUT_K]; fs_simpl; rewrite lookup_insert_ne by path_neq;
      apply lookup_insert_eq].
  change (is_abs VALIDATION_DIR) with true.
  rewrite (mkdir_at_fresh true OUTPUT_K "validation");
    [|fs_simpl; by rewrite Hf|fs_simpl; by rewrite !lookup_insert_ne by path_neq
     |cbn [lookup_node OUTPUT_K]; fs_simpl; rewrite lookup_insert_ne by path_neq;
      apply lookup_insert_eq].
  fs_simpl.
  rewrite (makedirs_leaf TEST_DIR OUTPUT_K "test" _ Dir);
    [|apply path_of_TEST_DIR
     |cbn [lookup_node OUTPUT_K]; fs_simpl; rewrite !lookup_insert_ne by path_neq;
      apply lookup_insert_eq].
  change (is_abs TEST_DIR) with true.
  rewrite (mkdir_at_fresh true OUTPUT_K "test");
    [|fs_simpl; by rewrite Hf|fs_simpl; by rewrite !lookup_insert_ne by path_neq
     |cbn [lookup_node OUTPUT_K]; fs_simpl; rewrite !lookup_insert_ne by path_neq;
      apply lookup_insert_eq].
  fs_simpl. by rewrite <- !app_assoc.
Qed.

(** X2.  In a container where [/opt/ml/processing] exists and the output
    directory does not, the script makes the three directories, writes
    the three partitions into them and prints the four lines of a clean
    run: the shape, "Successfully created directories", "Wrote files
    successfully" and the completion marker. *)
Theorem preprocessing_py_fresh_container (w : World) (df : DataFrame) :
  (read_csv input_data_path w).1 = Ok df →
  3 ≤ length (rows df) →
  faults (w_fs w) = ∅ →
  stat w PROCESSING_DIR = Some Dir →
  stat w OUTPUT_DIR = None →
  stat w TRAIN_DIR = None → stat w VALIDATION_DIR = None → stat w TEST_DIR = None →
  stat w TRAIN_CSV = None → stat w VALIDATION_CSV = None → stat w TEST_CSV = None →
  ∃ train validation test w',
    preprocessing_py w = (Ok tt, w') ∧
    rows train ++ rows validation ++ rows test ≡ₚ rows df ∧
    stat w' TRAIN_DIR = Some Dir ∧ stat w' VALIDATION_DIR = Some Dir ∧
    stat w' TEST_DIR = Some Dir ∧
    stat w' TRAIN_CSV = Some (File (format_csv train)) ∧
    stat w' VALIDATION_CSV = Some (File (format_csv validation)) ∧
    stat w' TEST_CSV = Some (File (format_csv test)) ∧
    w_stdout w' = w_stdout w ++
      [shape_line df; "Successfully created directories";
       "Wrote files successfully"; COMPLETED].
Proof.
  intros Hread HN Hf Hp Ho Ht Hv Hte Htc Hvc Htec.
  destruct (preprocessing_py_split w df Hread HN)
    as (tr & va & te & w3 & Hrun & Hperm & Hfs & Hout & Htr).
  script_stat'. rewrite <- Hfs in Hf, Hp, Ho, Ht, Hv, Hte, Htc, Hvc, Htec.
  pose proof Htc as Htc'. pose proof Hvc as Hvc'. pose proof Htec as Htec'.
  unfold TRAIN_CSV_K, VALIDATION_CSV_K, TEST_CSV_K, TRAIN_K, VALIDATION_K, TEST_K in Htc', Hvc', Htec'.
  cbn [app] in Htc', Hvc', Htec'.
  unfold bind at 1 in Hrun.
  rewrite (make_directories_fresh w3 Hf Hp Ho Ht Hv Hte) in Hrun.
  unfold bind at 1 in Hrun.
  rewrite write_files_ok in Hrun;
    [|fs_simpl; try done; script_lookups; try done;
      rewrite ?Htc', ?Hvc', ?Htec'; done ..].
  rewrite print_eq in Hrun. revert Hrun. fs_simpl. intros Hrun.
  exists tr, va, te. eexists. split; [exact Hrun|]. split; [exact Hperm|].
  script_stat'. fs_simpl. script_lookups.
  rewrite Hout, <- !app_assoc.
  repeat (split; [reflexivity|]). reflexivity.
Qed.

Lemma preprocessing_py_fresh_container_witness :
  stat w_container TRAIN_DIR = None ∧
  ∃ w', preprocessing_py w_container = (Ok tt, w') ∧
        stat w' TRAIN_DIR = Some Dir ∧
        w_stdout w' =
          ["Shape of data is: (10, 3)"; "Successfully created directories";
           "Wrote files successfully"; COMPLETED].
Proof.
  split; [sample_run|].
  destruct (preprocessing_py_fresh_container w_container sample_frame)
    as (tr & va & te & w' & Hrun & _ & Hdir & _ & _ & _ & _ & _ & Hout); [sample_run ..|].
  exists w'. split; [exact Hrun|]. split; [exact Hdir|exact Hout].
Defined.

Lemma tail_train_only w3 tr va te :
  faults (w_fs w3) = ∅ →
  nodes (w_fs w3) !! OUTPUT_K = Some Dir →
  nodes (w_fs w3) !! TRAIN_K = Some Dir →
  nodes (w_fs w3) !! TRAIN_CSV_K ≠ Some Dir →
  nodes (w_fs w3) !! VALIDATION_K = None →
  nodes (w_fs w3) !! VALIDATION_CSV_K = None →
  (make_directories ;; write_files tr va te ;; print COMPLETED) w3 =
    (Ok tt,
     mkWorld (set_nodes (w_fs w3) (<[TRAIN_CSV_K := File (format_csv tr)]> (nodes (w_fs w3))))
             (w_stdout w3 ++
                ["[Errno 17] File exists: '/opt/ml/processing/output/train'";
                 "Could not make directories"; "Failed to write the files";
                 "[Errno 2] No such file or directory: '/opt/ml/processing/output/validation/validation.csv'";
                 COMPLETED])
             (w_rng w3) (w_s3 w3)
             (w_trace w3 ++
                [EvMakedirs TRAIN_DIR; EvWrite TRAIN_CSV; EvWrite VALIDATION_CSV])).
Proof.
  intros Hf Ho Ht Htc Hv Hvc.
  assert (Hmk : fs_makedirs TRAIN_DIR (w_fs w3)
                = (Raise (os_error FileExistsError TRAIN_DIR), w_fs w3)).
  { rewrite (makedirs_leaf TRAIN_DIR OUTPUT_K "train" _ Dir);
      [|apply path_of_TRAIN_DIR|done].
    rewrite (mkdir_at_exists _ OUTPUT_K "train" _ Dir) by (by rewrite ?Hf).
    change (is_abs TRAIN_DIR) with true. by rewrite render_TRAIN_DIR. }
  unfold bind at 1. rewrite (make_directories_train_fails _ _ _ Hmk).
  unfold bind at 1.
  erewrite write_files_validation_fails; fs_simpl.
  2:{ apply (fs_write_in_dir TRAIN_CSV TRAIN_K "train.csv");
        [apply path_of_TRAIN_CSV'|by rewrite Hf|done|done]. }
  2:{ apply (fs_write_no_dir VALIDATION_CSV VALIDATION_K "validation.csv");
        [apply path_of_VALIDATION_CSV|fs_simpl; by rewrite Hf
        |fs_simpl; by rewrite lookup_insert_ne by path_neq
        |cbn [lookup_node VALIDATION_K]; fs_simpl; by rewrite lookup_insert_ne by path_neq]. }
  rewrite print_eq. fs_simpl.
  rewrite exc_msg_train_exists, exc_msg_validation_missing, <- !app_assoc. reflexivity.
Qed.

(** X3.  When the train directory exists and the validation directory
    does not, the [FileExistsError] of the first [os.makedirs] leaves the
    validation directory unmade: [train.csv] is written, the write of
    [validation.csv] fails, [test.csv] is not attempted, and the script
    prints "Failed to write the files" with the error and still ends
    normally with the completion marker. *)
Theorem preprocessing_py_train_directory_only (w : World) (df : DataFrame) :
  (read_csv input_data_path w).1 = Ok df →
  3 ≤ length (rows df) →
  faults (w_fs w) = ∅ →
  stat w OUTPUT_DIR = Some Dir →
  stat w TRAIN_DIR = Some Dir →
  stat w TRAIN_CSV ≠ Some Dir →
  stat w VALIDATION_DIR = None →
  stat w VALIDATION_CSV = None →
  ∃ train line w',
    preprocessing_py w = (Ok tt, w') ∧
    stat w' TRAIN_CSV = Some (File (format_csv train)) ∧
    stat w' VALIDATION_DIR = None ∧
    stat w' VALIDATION_CSV = None ∧
    stat w' TEST_DIR = stat w TEST_DIR ∧
    stat w' TEST_CSV = stat w TEST_CSV ∧
    w_stdout w' = w_stdout w ++
      [shape_line df;
       "[Errno 17] File exists: '/opt/ml/processing/output/train'";
       "Could not make directories"; "Failed to write the files"; line;
       COMPLETED] ∧
    w_trace w' = w_trace w ++
      [EvRead input_data_path; EvMakedirs TRAIN_DIR; EvWrite TRAIN_CSV;
       EvWrite VALIDATION_CSV].
Proof.
  intros Hread HN Hf Ho Ht Htc Hv Hvc.
  destruct (preprocessing_py_split w df Hread HN)
    as (tr & va & te & w3 & Hrun & Hperm & Hfs & Hout & Htr).
  script_stat. rewrite <- Hfs in Hf, Ho, Ht, Htc, Hv, Hvc |- *.
  rewrite (tail_train_only w3 tr va te Hf Ho Ht Htc Hv Hvc) in Hrun.
  exists tr. eexists _, _. split; [exact Hrun|].
  script_stat. fs_simpl.
  pose proof Hv as Hv'. pose proof Hvc as Hvc'.
  unfold VALIDATION_CSV_K, VALIDATION_K in Hv', Hvc'. cbn [app] in Hvc'.
  script_lookups. rewrite Hout, Htr, <- !app_assoc.
  repeat (split; [reflexivity || assumption|]). reflexivity.
Qed.

Lemma preprocessing_py_train_directory_only_witness :
  ∃ w', preprocessing_py w_train_only = (Ok tt, w') ∧
        stat w' VALIDATION_CSV = None ∧
        stat w' TEST_CSV = None.
Proof.
  destruct (preprocessing_py_train_directory_only w_train_only sample_frame)
    as (tr & line & w' & Hrun & _ & _ & Hva & _ & Hte & _); [sample_run ..|].
  exists w'. split; [exact Hrun|]. split; [exact Hva|]. rewrite Hte. sample_run.
Defined.

(** **** What the script leaves alone *)

Lemma only_adds_refl ks fs : only_adds ks fs fs.
Proof. by split. Qed.

Lemma only_adds_trans ks fs1 fs2 fs3 :
  only_adds ks fs1 fs2 → only_adds ks fs2 fs3 → only_adds ks fs1 fs3.
Proof. intros [Hf1 H1] [Hf2 H2]. split; [congruence|]. intros k x Hk Hx. eauto. Qed.

Lemma only_adds_weaken ks ks' fs fs' :
  ks ⊆ ks' → only_adds ks fs fs' → only_adds ks' fs fs'.
Proof. intros Hs [Hf H]. split; [done|]. intros k x Hk. apply H. intros ?. apply Hk. by apply Hs. Qed.

Lemma mkdir_at_keeps abs k : fs_keeps [] (mkdir_at abs k).
Proof.
  intros fs r fs'. unfold mkdir_at.
  destruct (faults fs !! k); [intros [= <- <-]; apply only_adds_refl|].
  destruct (lookup_node fs k) eqn:Hk; [intros [= <- <-]; apply only_adds_refl|].
  destruct (lookup_node fs (removelast k)) as [[]|];
    try (intros [= <- <-]; apply only_adds_refl).
  intros [= <- <-]. split; [done|]. intros k' x _ Hx. cbn [set_nodes nodes].
  rewrite lookup_insert_ne; [done|]. intros ->.
  destruct k'; [done|]. cbn [lookup_node] in Hk. congruence.
Qed.

Lemma makedirs_rev_keeps abs rk : fs_keeps [] (makedirs_rev abs rk).
Proof.
  induction rk as [|c rhead IH]; intros fs r fs'; cbn [makedirs_rev].
  - apply mkdir_at_keeps.
  - destruct (lookup_node fs (rev rhead)).
    + apply mkdir_at_keeps.
    + destruct (makedirs_rev abs rhead fs) as [[[]|e] fs1] eqn:E.
      * intros H. eapply only_adds_trans; [by eapply IH|by eapply mkdir_at_keeps].
      * destruct (exc_kind e) as [[]| | | | | | |];
          try (intros [= <- <-]; by eapply IH).
        intros H. eapply only_adds_trans; [by eapply IH|by eapply mkdir_at_keeps].
Qed.

Lemma fs_write_keeps p c : fs_keeps [path_of p] (fs_write p c).
Proof.
  intros fs r fs'. unfold fs_write.
  repeat match goal with
         | |- context [match ?x with _ => _ end] => destruct x
         end; intros [= <- <-]; try apply only_adds_refl.
  all: split; [done|]; intros k x Hk Hx; cbn [set_nodes nodes];
    rewrite lookup_insert_ne; [done|]; intros <-; apply Hk; by apply list_elem_of_singleton.
Qed.

Lemma fs_read_keeps p : fs_keeps [] (fs_read p).
Proof. intros fs r fs' H. apply fs_read_unchanged in H as ->. apply only_adds_refl. Qed.

Lemma keeps_syscall {A} ks ev (op : fsop A) : fs_keeps ks op → keeps ks (syscall ev op).
Proof.
  intros Hop w r w'. unfold syscall. destruct (op (w_fs w)) as [r0 fs'] eqn:E.
  intros [= <- <-]. split; [by eapply Hop|done].
Qed.

Lemma keeps_bind {A B} ks (c : M A) (k : A → M B) :
  keeps ks c → (∀ a, keeps ks (k a)) → keeps ks (bind c k).
Proof.
  intros Hc Hk w r w'. unfold bind. destruct (c w) as [[a|e] w1] eqn:E.
  - intros H. destruct (Hc _ _ _ E) as [H1 Hs1]. destruct (Hk _ _ _ _ H) as [H2 Hs2].
    split; [by eapply only_adds_trans|congruence].
  - intros [= <- <-]. by eapply Hc.
Qed.

Lemma keeps_try_except ks body handler :
  keeps ks body → (∀ e, keeps ks (handler e)) → keeps ks (try_except body handler).
Proof.
  intros Hb Hh w r w'. unfold try_except. destruct (body w) as [[a|e] w1] eqn:E.
  - intros [= <- <-]. by eapply Hb.
  - destruct (isinstance_Exception e).
    + intros H. destruct (Hb _ _ _ E) as [H1 Hs1]. destruct (Hh _ _ _ _ H) as [H2 Hs2].
      split; [by eapply only_adds_trans|congruence].
    + intros [= <- <-]. by eapply Hb.
Qed.

Lemma keeps_print ks line : keeps ks (print line).
Proof. intros w r w' [= <- <-]. split; [apply only_adds_refl|done]. Qed.

Lemma keeps_ret {A} ks (a : A) : keeps ks (ret a).
Proof. intros w r w' [= <- <-]. split; [apply only_adds_refl|done]. Qed.

Lemma keeps_raise {A} ks e : keeps ks (@raise A e).
Proof. intros w r w' [= <- <-]. split; [apply only_adds_refl|done]. Qed.

Lemma keeps_weaken {A} ks ks' (c : M A) : ks ⊆ ks' → keeps ks c → keeps ks' c.
Proof.
  intros Hs Hc w r w' H. destruct (Hc _ _ _ H). split; [by eapply only_adds_weaken|done].
Qed.

Lemma keeps_rng_permutation ks n : keeps ks (rng_permutation n).
Proof. intros w r w' [= <- <-]. split; [apply only_adds_refl|done]. Qed.

Lemma keeps_train_test_split ks df : keeps ks (train_test_split df).
Proof.
  unfold train_test_split. case_decide; [apply keeps_raise|].
  apply keeps_bind; [apply keeps_rng_permutation|]. intros perm.
  cbv zeta.
  repeat match goal with
         | |- context [match ?x with _ => _ end] => destruct x
         end; auto using keeps_ret, keeps_raise.
Qed.

Lemma keeps_split3 ks df : keeps ks (split3 df).
Proof.
  unfold split3. apply keeps_bind; [apply keeps_train_test_split|]. intros [tr te].
  apply keeps_bind; [apply keeps_train_test_split|]. intros [tr' va]. apply keeps_ret.
Qed.

Lemma keeps_read_csv ks p : keeps ks (read_csv p).
Proof.
  unfold read_csv. apply keeps_bind.
  - eapply keeps_weaken; [|apply keeps_syscall, fs_read_keeps]. set_solver.
  - intros t. destruct (parse_csv t); [apply keeps_ret|apply keeps_raise].
Qed.

Lemma keeps_os_makedirs ks p : keeps ks (os_makedirs p).
Proof.
  eapply keeps_weaken; [|apply keeps_syscall, makedirs_rev_keeps]. set_solver.
Qed.

Lemma keeps_to_csv df p k : path_of p = k → keeps [k] (to_csv df p).
Proof. intros <-. apply keeps_syscall, fs_write_keeps. Qed.

Lemma keeps_make_directories ks : keeps ks make_directories.
Proof.
  apply keeps_try_except.
  - repeat (apply keeps_bind; [apply keeps_os_makedirs|intros _]). apply keeps_print.
  - intros e. apply keeps_bind; [apply keeps_print|intros _; apply keeps_print].
Qed.

Lemma keeps_write_files train validation test :
  keeps written_paths (write_files train validation test).
Proof.
  apply keeps_try_except.
  - apply keeps_bind.
    { eapply keeps_weaken; [|apply (keeps_to_csv _ _ _ path_of_TRAIN_CSV')].
      unfold written_paths, TRAIN_CSV_K. set_solver. }
    intros _. apply keeps_bind.
    { eapply keeps_weaken; [|apply (keeps_to_csv _ _ _ path_of_VALIDATION_CSV)].
      unfold written_paths, VALIDATION_CSV_K. set_solver. }
    intros _. apply keeps_bind; [|intros _; apply keeps_print].
    eapply keeps_weaken; [|apply (keeps_to_csv _ _ _ path_of_TEST_CSV)].
    unfold written_paths, TEST_CSV_K. set_solver.
  - intros e. apply keeps_bind; [apply keeps_print|intros _; apply keeps_print].
Qed.

Lemma keeps_preprocessing_py : keeps written_paths preprocessing_py.
Proof.
  unfold preprocessing_py.
  apply keeps_bind; [apply keeps_read_csv|]. intros df.
  apply keeps_bind; [apply keeps_print|]. intros _.
  apply keeps_bind; [apply keeps_split3|]. intros [[tr va] te].
  apply keeps_bind; [apply keeps_make_directories|]. intros _.
  apply keeps_bind; [apply keeps_write_files|intros _; apply keeps_print].
Qed.

(** X4.  The script deletes and overwrites nothing but its three CSV
    files: whatever the outcome of the run, a path other than those three
    holds afterwards what it held before.  The injected faults and the S3
    store are unchanged. *)
Theorem preprocessing_py_only_adds (w : World) (p : string) (x : node) :
  stat w p = Some x →
  path_of p ∉ written_paths →
  stat (preprocessing_py w).2 p = Some x ∧
  faults (w_fs (preprocessing_py w).2) = faults (w_fs w) ∧
  w_s3 (preprocessing_py w).2 = w_s3 w.
Proof.
  intros Hx Hp. destruct (preprocessing_py w) as [r w'] eqn:E.
  destruct (keeps_preprocessing_py _ _ _ E) as [[Hf Hk] Hs3]. cbn [snd].
  split; [|done]. unfold stat in *. destruct (path_of p) as [|c k]; [done|].
  cbn [lookup_node] in *. by apply Hk.
Qed.

Lemma preprocessing_py_only_adds_witness :
  stat w_partial input_data_path = Some (File sample_dataset) ∧
  stat (preprocessing_py w_partial).2 input_data_path = Some (File sample_dataset).
Proof.
  assert (H : stat w_partial input_data_path = Some (File sample_dataset))
    by (vm_compute; reflexivity).
  split; [exact H|].
  apply (preprocessing_py_only_adds w_partial input_data_path _ H).
  apply (bool_decide_unpack _). vm_compute. reflexivity.
Defined.

(** X5.  When the script ends with an uncaught exception, it has
    stopped before the directories and the files: the file system is as
    it was and the read of the input is the only file operation made.
    The exception is the one [pd.read_csv] raised, whatever it is, with
    nothing printed; or it is the [ValueError] of a split on a data set
    of fewer than three rows, with the shape line printed alone. *)
Theorem preprocessing_py_fails_early (w : World) (e : Exc) (w' : World) :
  preprocessing_py w = (Raise e, w') →
  w_fs w' = w_fs w ∧
  w_trace w' = w_trace w ++ [EvRead input_data_path] ∧
  ((read_csv input_data_path w).1 = Raise e ∧ w_stdout w' = w_stdout w ∨
   exc_kind e = ValueError ∧
   ∃ df, (read_csv input_data_path w).1 = Ok df ∧ length (rows df) < 3 ∧
         w_stdout w' = w_stdout w ++ [shape_line df]).
Proof.
  unfold preprocessing_py, bind at 1.
  destruct (read_csv_effect input_data_path w) as [r Hr].
  rewrite Hr. destruct r as [df|e1].
  - unfold bind at 1, print at 1. unfold bind at 1.
    destruct (decide (3 ≤ length (rows df))) as [HN|HN].
    + destruct (split3_ok df
                  (mkWorld (w_fs (logged (EvRead input_data_path) w))
                     (w_stdout (logged (EvRead input_data_path) w) ++
                        ["Shape of data is: " +:+ str_shape (shape df)])
                     (w_rng (logged (EvRead input_data_path) w))
                     (w_s3 (logged (EvRead input_data_path) w))
                     (w_trace (logged (EvRead input_data_path) w))) HN)
        as (tr & va & te & w3 & -> & _).
      unfold bind at 1. destruct (make_directories_completes w3) as [w4 ->].
      unfold bind at 1. destruct (write_files_completes tr va te w4) as [w5 ->].
      discriminate.
    + destruct (split3_too_small df
                  (mkWorld (w_fs (logged (EvRead input_data_path) w))
                     (w_stdout (logged (EvRead input_data_path) w) ++
                        ["Shape of data is: " +:+ str_shape (shape df)])
                     (w_rng (logged (EvRead input_data_path) w))
                     (w_s3 (logged (EvRead input_data_path) w))
                     (w_trace (logged (EvRead input_data_path) w)))
                  ltac:(lia))
        as (e2 & w3 & -> & Hk & Hfs & Hout & _ & Htr).
      intros [= <- <-]. cbn [w_fs w_stdout w_trace logged] in *.
      split; [done|]. split; [done|]. right. split; [done|].
      exists df. split; [done|]. split; [lia|done].
  - intros [= <- <-]. split; [done|]. split; [done|]. by left.
Qed.

Lemma preprocessing_py_fails_early_witness :
  let r := preprocessing_py w_tiny in
  (∃ e, r.1 = Raise e ∧ exc_kind e = ValueError) ∧
  w_fs r.2 = w_fs w_tiny ∧
  w_stdout r.2 = ["Shape of data is: (2, 3)"].
Proof.
  cbv zeta.
  set (e := match (preprocessing_py w_tiny).1 with
            | Raise e => e
            | Ok _ => mkExc KeyError ""
            end).
  assert (Hrun : preprocessing_py w_tiny = (Raise e, (preprocessing_py w_tiny).2))
    by (vm_compute; reflexivity).
  assert (Hkind : exc_kind e = ValueError) by (vm_compute; reflexivity).
  destruct (preprocessing_py_fails_early w_tiny e _ Hrun)
    as (Hfs & _ & [[Hraised _]|(_ & df & Hread & _ & Hout)]).
  - vm_compute in Hraised. discriminate Hraised.
  - split; [|split; [exact Hfs|]].
    + exists e. split; [|exact Hkind]. by rewrite Hrun.
    + rewrite Hout. vm_compute in Hread. injection Hread as <-. vm_compute. reflexivity.
Defined.

(** **** The verification cell when every output is there *)

Lemma s3_list_objects_frame Bucket Prefix w r w1 :
  s3_list_objects Bucket Prefix w = (r, w1) → w_fs w1 = w_fs w.
Proof.
  unfold s3_list_objects, bind, log. cbn [w_s3].
  destruct (w_s3 w !! Bucket) as [objs|]; [destruct (matching Prefix objs)|];
    by intros [= <- <-].
Qed.

Lemma verify_one_frame bucket job i w r w1 :
  verify_one bucket job i w = (r, w1) → w_fs w1 = w_fs w.
Proof.
  unfold verify_one, bind at 1.
  destruct (s3_list_objects _ _ w) as [[response|e] w0] eqn:Hlist;
    apply s3_list_objects_frame in Hlist; [|by intros [= <- <-]].
  unfold bind, lift, print.
  destruct (getitem_Contents response) as [contents|e]; [|by intros [= <- <-]].
  destruct (py_index contents 0) as [first|e]; by intros [= <- <-].
Qed.

Lemma matching_prefix Prefix objs key :
  key ∈ matching Prefix objs → String.prefix Prefix key = true.
Proof. unfold matching. by intros [? _]%list_elem_of_filter. Qed.

Lemma listing_head s3 bucket job i :
  listing s3 bucket job i ≠ [] →
  ∃ key, head (listing s3 bucket job i) = Some key ∧
         String.prefix (output_prefix job i) key = true ∧
         uri_line s3 bucket job i = Some ("s3://" +:+ bucket +:+ "/" +:+ key) ∧
         is_Some (s3 !! bucket).
Proof.
  unfold uri_line, listing. destruct (s3 !! bucket) as [objs|]; [|done].
  destruct (matching (output_prefix job i) objs) as [|key keys] eqn:E; [done|].
  intros _. exists key. split; [done|]. split; [|by split].
  apply (matching_prefix _ objs). rewrite E. by left.
Qed.

(** X6.  When each of the three output prefixes of the job lists at
    least one key, the verification cell ends normally and prints three
    lines, for outputs 1, 2 and 3 in that order: the URI of the first key
    listed under each prefix, which begins with that prefix.  The cell
    changes neither the S3 store nor the local files. *)
Theorem verification_cell_all_present (w : World) (bucket job : string) :
  (∀ i, i ∈ py_range 1 4 → listing (w_s3 w) bucket job i ≠ []) →
  ∃ k1 k2 k3 w',
    verification_cell bucket job w = (Ok tt, w') ∧
    head (listing (w_s3 w) bucket job 1) = Some k1 ∧
    head (listing (w_s3 w) bucket job 2) = Some k2 ∧
    head (listing (w_s3 w) bucket job 3) = Some k3 ∧
    String.prefix (output_prefix job 1) k1 = true ∧
    String.prefix (output_prefix job 2) k2 = true ∧
    String.prefix (output_prefix job 3) k3 = true ∧
    w_stdout w' = w_stdout w ++
      ["s3://" +:+ bucket +:+ "/" +:+ k1;
       "s3://" +:+ bucket +:+ "/" +:+ k2;
       "s3://" +:+ bucket +:+ "/" +:+ k3] ∧
    w_fs w' = w_fs w ∧ w_s3 w' = w_s3 w.
Proof.
  intros Hall.
  destruct (listing_head (w_s3 w) bucket job 1) as (k1 & Hh1 & Hp1 & Hu1 & [objs Hb]);
    [apply Hall; set_solver|].
  destruct (listing_head (w_s3 w) bucket job 2) as (k2 & Hh2 & Hp2 & Hu2 & _);
    [apply Hall; set_solver|].
  destruct (listing_head (w_s3 w) bucket job 3) as (k3 & Hh3 & Hp3 & Hu3 & _);
    [apply Hall; set_solver|].
  unfold verification_cell. change (py_range 1 4) with [1; 2; 3]. cbn [for_each]. unfold bind.
  destruct (verify_one_spec bucket job 1 w) as (w1 & Hs1 & Hstep1).
  rewrite Hb, Hu1 in Hstep1. destruct Hstep1 as [Hrun1 Hout1]. rewrite Hrun1.
  destruct (verify_one_spec bucket job 2 w1) as (w2 & Hs2 & Hstep2).
  rewrite Hs1, Hb, Hu2 in Hstep2. destruct Hstep2 as [Hrun2 Hout2]. rewrite Hrun2.
  destruct (verify_one_spec bucket job 3 w2) as (w3 & Hs3 & Hstep3).
  rewrite Hs2, Hs1, Hb, Hu3 in Hstep3. destruct Hstep3 as [Hrun3 Hout3]. rewrite Hrun3.
  exists k1, k2, k3, w3. unfold ret.
  split; [done|]. do 6 (split; [done|]).
  split; [by rewrite Hout3, Hout2, Hout1, <- !app_assoc|].
  split; [|congruence].
  rewrite (verify_one_frame _ _ _ _ _ _ Hrun3), (verify_one_frame _ _ _ _ _ _ Hrun2).
  apply (verify_one_frame _ _ _ _ _ _ Hrun1).
Qed.

Lemma verification_cell_all_present_witness :
  ∃ w', verification_cell BUCKET JOB w_uploaded = (Ok tt, w') ∧
        w_stdout w' =
          ["s3://" +:+ BUCKET +:+ "/" +:+ JOB +:+ "/output/output-1/train.csv";
           "s3://" +:+ BUCKET +:+ "/" +:+ JOB +:+ "/output/output-2/validation.csv";
           "s3://" +:+ BUCKET +:+ "/" +:+ JOB +:+ "/output/output-3/test.csv"].
Proof.
  destruct (verification_cell_all_present w_uploaded BUCKET JOB)
    as (k1 & k2 & k3 & w' & Hrun & H1 & H2 & H3 & _ & _ & _ & Hout & _).
  - intros i Hi.
    repeat (apply elem_of_cons in Hi as [->|Hi]; [sample_run|]).
    by apply elem_of_nil in Hi.
  - exists w'. split; [exact Hrun|]. rewrite Hout.
    vm_compute in H1, H2, H3. injection H1 as <-. injection H2 as <-. injection H3 as <-.
    vm_compute. reflexivity.
Defined.

(** **** Reading back what [to_csv] wrote *)

Lemma fs_write_then_read p c fs fs' :
  fs_write p c fs = (Ok tt, fs') → fs_read p fs' = (Ok c, fs').
Proof.
  intros Hw. pose proof (fs_write_ok _ _ _ _ Hw) as ->.
  unfold fs_write in Hw. unfold fs_read. cbv zeta in Hw |- *. cbn [faults set_nodes].
  generalize dependent (path_of p). intros k.
  destruct (faults fs !! k) as [err|].
  { destruct (at_write err); [|by intros ?; simplify_eq].
    destruct (lookup_node fs k) as [[]|]; [by intros ?; simplify_eq..|].
    destruct (lookup_node fs (removelast k)) as [[]|]; by intros ?; simplify_eq. }
  destruct k as [|c0 k]; [by cbn [lookup_node]|].
  intros _. cbn [lookup_node nodes set_nodes]. by rewrite lookup_insert_eq.
Qed.

Lemma parse_format_csv df :
  1 ≤ length (columns df) →
  Forall (λ r, length r.2 = length (columns df)) (rows df) →
  parse_csv (format_csv df) =
    Ok (mkDF (name_columns ("" :: columns df))
             (imap (λ i r, (i, r)) (map (λ r, str_nat r.1 :: r.2) (rows df)))).
Proof.
  intros Hcols Hrows. unfold format_csv. apply parse_csv_rectangular.
  - cbn [length]. lia.
  - apply Forall_fmap. eapply Forall_impl; [exact Hrows|].
    intros r Hr. cbn in Hr |- *. by rewrite Hr.
Qed.

(** X8.  Reading back a file written by [df.to_csv(p)] does not give
    [df] again.  For a frame of at least one column whose rows have a
    cell for every column, [pd.read_csv(p)] succeeds with a frame of as
    many rows and one column more, the index [df] had being read as
    data, and the rows are indexed 0, 1, 2, ... in file order whatever
    their index was in [df]. *)
Theorem to_csv_read_csv_reindexes (df : DataFrame) (p : string) (w w1 : World) :
  to_csv df p w = (Ok tt, w1) →
  1 ≤ length (columns df) →
  Forall (λ r, length r.2 = length (columns df)) (rows df) →
  ∃ df',
    read_csv p w1 = (Ok df', logged (EvRead p) w1) ∧
    shape df' = (length (rows df), S (length (columns df))) ∧
    index_of df' = seq 0 (length (rows df)).
Proof.
  intros Hw Hcols Hrows.
  eexists. split; [|split].
  - unfold to_csv, syscall in Hw.
    destruct (fs_write p (format_csv df) (w_fs w)) as [[[]|e] fs'] eqn:Hfs; [|done].
    injection Hw as <-. apply fs_write_then_read in Hfs.
    unfold read_csv, bind, syscall. cbn [w_fs]. rewrite Hfs.
    rewrite (parse_format_csv df Hcols Hrows). reflexivity.
  - unfold shape. cbn [rows columns].
    by rewrite length_imap, length_map, name_columns_length.
  - unfold index_of. cbn [rows].
    rewrite <- (length_map (λ r, str_nat r.1 :: r.2)).
    apply (imap_index_fst _ 0).
Qed.

Lemma to_csv_read_csv_reindexes_witness :
  let w1 := (to_csv sample_partition "train.csv" w_census).2 in
  ∃ df', (read_csv "train.csv" w1).1 = Ok df' ∧
         shape df' = (6, 4) ∧
         index_of df' = [0; 1; 2; 3; 4; 5] ∧
         index_of sample_partition = [3; 7; 1; 5; 9; 6].
Proof.
  cbv zeta.
  destruct (to_csv_read_csv_reindexes sample_partition "train.csv" w_census
              (to_csv sample_partition "train.csv" w_census).2) as (df' & Hread & Hshape & Hindex).
  - sample_run.
  - vm_compute. lia.
  - apply (bool_decide_unpack _). vm_compute. reflexivity.
  - exists df'. rewrite Hread. by repeat split.
Defined.

(** **** What the cleanup cell leaves alone *)

Lemma only_removes_refl P fs : only_removes P fs fs.
Proof. by repeat split. Qed.

Lemma only_removes_trans P fs1 fs2 fs3 :
  only_removes P fs1 fs2 → only_removes P fs2 fs3 → only_removes P fs1 fs3.
Proof.
  intros (Hf1 & Hs1 & Ho1) (Hf2 & Hs2 & Ho2). split; [congruence|]. split.
  - intros k x Hk. by apply Hs1, Hs2.
  - intros k Hk. by rewrite Ho2, Ho1.
Qed.

Lemma only_removes_weaken (P Q : list string → Prop) fs fs' :
  (∀ k, P k → Q k) → only_removes P fs fs' → only_removes Q fs fs'.
Proof.
  intros HPQ (Hf & Hs & Ho). split; [done|]. split; [done|].
  intros k Hk. apply Ho. intros HP. by apply Hk, HPQ.
Qed.

Lemma fs_remove_removes p fs r fs' :
  fs_remove p fs = (r, fs') →
  only_removes (λ k, k = path_of p) fs fs' ∧
  match r with Ok _ => True | Raise e => is_os_error e end.
Proof.
  unfold fs_remove. generalize (path_of p). intros k.
  destruct (faults fs !! k); [intros [= <- <-]; split; [apply only_removes_refl|by eexists _, _]|].
  destruct (lookup_node fs k) as [[c|]|];
    intros [= <- <-]; (split; [|try done; by eexists _, _]);
    try apply only_removes_refl.
  split; [done|]. cbn [set_nodes nodes]. split.
  - intros k' x Hk'. by apply lookup_delete_Some in Hk' as [_ ?].
  - intros k' Hk'. by rewrite lookup_delete_ne.
Qed.

Lemma fs_rmtree_removes p fs r fs' :
  fs_rmtree p fs = (r, fs') →
  only_removes (λ k, path_of p `prefix_of` k) fs fs' ∧
  match r with Ok _ => True | Raise e => is_os_error e end.
Proof.
  unfold fs_rmtree. generalize (path_of p). intros k.
  destruct (faults fs !! k); [intros [= <- <-]; split; [apply only_removes_refl|by eexists _, _]|].
  destruct (lookup_node fs k) as [[c|]|];
    intros [= <- <-]; (split; [|try done; by eexists _, _]);
    try apply only_removes_refl.
  split; [done|]. cbn [set_nodes nodes]. split.
  - intros k' x Hk'. by apply map_lookup_filter_Some in Hk' as [? _].
  - intros k' Hk'. rewrite filter_not_under. by rewrite decide_False.
Qed.

Lemma removes_syscall {A} P ev (op : fsop A) :
  (∀ fs r fs', op fs = (r, fs') →
     only_removes P fs fs' ∧ match r with Ok _ => True | Raise e => is_os_error e end) →
  removes P (syscall ev op).
Proof.
  intros Hop w r w'. unfold syscall.
  destruct (op (w_fs w)) as [r0 fs'] eqn:E. intros [= <- <-]. cbn.
  by destruct (Hop _ _ _ E).
Qed.

Lemma removes_bind {A B} P (c : M A) (k : A → M B) :
  removes P c → (∀ a, removes P (k a)) → removes P (bind c k).
Proof.
  intros Hc Hk w r w'. unfold bind.
  destruct (c w) as [[a|e] w1] eqn:E.
  - intros Hrun. destruct (Hc _ _ _ E) as (Hfs1 & Ho1 & Hs1 & Hr1 & _).
    destruct (Hk a _ _ _ Hrun) as (Hfs2 & Ho2 & Hs2 & Hr2 & Hres).
    split; [by eapply only_removes_trans|]. repeat split; congruence || done.
  - intros [= <- <-]. apply (Hc _ _ _ E).
Qed.

Lemma removes_weaken {A} (P Q : list string → Prop) (c : M A) :
  (∀ k, P k → Q k) → removes P c → removes Q c.
Proof.
  intros HPQ Hc w r w' Hrun. destruct (Hc _ _ _ Hrun) as (? & ? & ? & ? & ?).
  split; [by eapply only_removes_weaken|done].
Qed.

Lemma removes_os_remove p : removes (λ k, k = path_of p) (os_remove p).
Proof. apply removes_syscall, fs_remove_removes. Qed.

Lemma removes_shutil_rmtree p : removes (λ k, path_of p `prefix_of` k) (shutil_rmtree p).
Proof. apply removes_syscall, fs_rmtree_removes. Qed.

Lemma removes_cleanup_file p :
  p ∈ take 4 cleanup_targets → removes cleanup_scope (os_remove p).
Proof.
  intros Hp. eapply removes_weaken; [|apply removes_os_remove].
  intros k ->. left. by apply list_elem_of_fmap_2.
Qed.

Lemma removes_cleanup_tree : removes cleanup_scope (shutil_rmtree "export").
Proof.
  eapply removes_weaken; [|apply removes_shutil_rmtree].
  intros k Hk. right. by rewrite <- path_of_export.
Qed.

Ltac cleanup_files :=
  repeat (apply removes_bind;
          [apply removes_cleanup_file; unfold cleanup_targets; cbn [take]; set_solver
          |intros _]);
  apply removes_cleanup_tree.

Lemma removes_cleanup_cell : removes cleanup_scope cleanup_cell.
Proof. unfold cleanup_cell. cleanup_files. Qed.

(** X9.  In every working directory, injected faults included, and
    whatever its outcome, the cleanup cell only deletes: a path that
    exists afterwards existed before with the same content, and a path
    that is neither one of the four files nor under [export] is as it
    was.  Nothing is printed, the S3 store is unchanged, and an
    exception that ends the cell is an [OSError]. *)
Theorem cleanup_cell_only_removes (w : World) (r : result unit) (w' : World) :
  cleanup_cell w = (r, w') →
  (∀ k x, nodes (w_fs w') !! k = Some x → nodes (w_fs w) !! k = Some x) ∧
  (∀ k, ¬ cleanup_scope k → nodes (w_fs w') !! k = nodes (w_fs w) !! k) ∧
  faults (w_fs w') = faults (w_fs w) ∧
  w_stdout w' = w_stdout w ∧ w_s3 w' = w_s3 w ∧
  match r with Ok _ => True | Raise e => is_os_error e end.
Proof.
  intros Hrun.
  destruct (removes_cleanup_cell w r w' Hrun) as ((Hf & Hsub & Hout) & Hso & Hs3 & _ & Hr).
  done.
Qed.

Lemma cleanup_cell_only_removes_witness :
  nodes (w_fs (cleanup_cell w_workdir).2) !! ["tensorflow_BYOM_iris.ipynb"] =
    Some (File [["cells"]]) ∧
  w_stdout (cleanup_cell w_workdir).2 = [].
Proof.
  destruct (cleanup_cell_only_removes w_workdir (cleanup_cell w_workdir).1
              (cleanup_cell w_workdir).2) as (_ & Hout & _ & Hstdout & _); [sample_run|].
  split; [|exact Hstdout]. rewrite Hout.
  - vm_compute. reflexivity.
  - intros [H|H]; apply (bool_decide_eq_true_2 _) in H; vm_compute in H; discriminate H.
Defined.

(** X10.  The cleanup cell cannot be run twice: after a run that ended
    normally, a second run stops at its first statement with the
    [FileNotFoundError] of [model.tar.gz] and changes nothing. *)
Theorem cleanup_cell_twice (w w1 : World) :
  cleanup_cell w = (Ok tt, w1) →
  cleanup_cell w1 =
    (Raise (os_error FileNotFoundError "model.tar.gz"), logged (EvRemove "model.tar.gz") w1).
Proof.
  unfold cleanup_cell at 1. unfold bind at 1.
  destruct (os_remove "model.tar.gz" w) as [[[]|e] w0] eqn:Hfirst; [|done].
  intros Hrest.
  assert (removes cleanup_scope
            (os_remove "iris_test.csv" ;; os_remove "iris_train.csv" ;;
             os_remove "iris.data" ;; shutil_rmtree "export")) as Hrem by cleanup_files.
  destruct (Hrem w0 _ w1 Hrest) as ((Hf & Hsub & _) & _).
  assert (faults (w_fs w0) !! ["model.tar.gz"] = None ∧
          nodes (w_fs w0) !! ["model.tar.gz"] = None) as [Hf0 Hn0].
  { revert Hfirst. unfold os_remove, syscall, fs_remove. rewrite path_of_model.
    destruct (faults (w_fs w) !! ["model.tar.gz"]) eqn:Hfw; [done|].
    cbn [lookup_node].
    destruct (nodes (w_fs w) !! ["model.tar.gz"]) as [[c|]|]; [|done|done].
    intros [= <-]. cbn [w_fs set_nodes faults nodes]. split; [done|].
    apply lookup_delete_eq. }
  assert (nodes (w_fs w1) !! ["model.tar.gz"] = None) as Hn1.
  { destruct (nodes (w_fs w1) !! ["model.tar.gz"]) as [x|] eqn:E; [|done].
    apply Hsub in E. congruence. }
  unfold cleanup_cell, bind at 1.
  rewrite os_remove_step; rewrite path_of_model; [|by rewrite Hf].
  cbn [lookup_node]. by rewrite Hn1.
Qed.

Lemma cleanup_cell_twice_witness :
  (cleanup_cell w_workdir_full).1 = Ok tt ∧
  (cleanup_cell (cleanup_cell w_workdir_full).2).1 =
    Raise (os_error FileNotFoundError "model.tar.gz").
Proof.
  split; [sample_run|].
  rewrite (cleanup_cell_twice w_workdir_full (cleanup_cell w_workdir_full).2); [done|].
  sample_run.
Defined.

(** **** The two splits *)

Lemma train_test_split_columns df w a b w' :
  train_test_split df w = (Ok (a, b), w') →
  columns a = columns df ∧ columns b = columns df.
Proof.
  unfold train_test_split. case_decide; [done|].
  unfold bind, rng_permutation, iloc. cbv zeta.
  repeat match goal with
         | |- context [mapM ?f ?l] => destruct (mapM f l)
         end; try done.
  by intros [= <- <- _].
Qed.

Lemma split3_columns df w train validation test w' :
  split3 df w = (Ok (train, validation, test), w') →
  columns train = columns df ∧ columns validation = columns df ∧ columns test = columns df.
Proof.
  unfold split3, bind at 1.
  destruct (train_test_split df w) as [[[pool te]|e] w1] eqn:E1; [|done].
  unfold bind at 1.
  destruct (train_test_split pool w1) as [[[tr va]|e] w2] eqn:E2; [|done].
  intros [= <- <- <- _].
  apply train_test_split_columns in E1 as [Hp Hte], E2 as [Htr Hva].
  by rewrite Htr, Hva, Hp.
Qed.

(** X11.  When the two splits succeed, the data set had at least three
    rows, none of the three partitions is empty, each has the columns of
    the data set, and together they hold its rows. *)
Theorem split3_succeeds (df : DataFrame) (w : World) train validation test w' :
  split3 df w = (Ok (train, validation, test), w') →
  3 ≤ length (rows df) ∧
  rows train ≠ [] ∧ rows validation ≠ [] ∧ rows test ≠ [] ∧
  columns train = columns df ∧ columns validation = columns df ∧
  columns test = columns df ∧
  rows train ++ rows validation ++ rows test ≡ₚ rows df.
Proof.
  intros Hrun.
  destruct (decide (3 ≤ length (rows df))) as [HN|HN].
  - split; [done|].
    destruct (split3_ok df w HN) as (tr & va & te & w2 & Hrun' & Hperm & Hte & Hva & _).
    rewrite Hrun in Hrun'. injection Hrun' as <- <- <- _.
    pose proof (split3_columns _ _ _ _ _ _ Hrun) as (? & ? & ?).
    pose proof (Permutation_length Hperm) as Hlen. rewrite !length_app in Hlen.
    pose proof (ceil_fifth_bounds (length (rows df))).
    pose proof (ceil_fifth_bounds (length (rows df) - ceil_fifth (length (rows df)))).
    repeat split; try done; intros Hnil; rewrite Hnil in *; cbn [length] in *; lia.
  - destruct (split3_too_small df w) as (e & w2 & Hrun' & _); [lia|]. congruence.
Qed.

Lemma split3_succeeds_witness :
  let '(train, validation, test) :=
    match (split3 sample_frame w_container).1 with
    | Ok r => r
    | Raise _ => (sample_frame, sample_frame, sample_frame)
    end in
  rows train ≠ [] ∧ rows validation ≠ [] ∧ rows test ≠ [] ∧
  columns train = ["Unnamed: 0"; "age"; "income"].
Proof.
  destruct (match (split3 sample_frame w_container).1 with
            | Ok r => r
            | Raise _ => (sample_frame, sample_frame, sample_frame)
            end) as [[tr va] te] eqn:E.
  destruct (split3_succeeds sample_frame w_container tr va te
              (split3 sample_frame w_container).2) as (_ & ? & ? & ? & Hc & _).
  - vm_compute in E. injection E as <- <- <-. sample_run.
  - rewrite Hc. by repeat split.
Defined.

(** **** The download cell without its object *)

(** X7.  When the census object is not in the regional sample bucket
    (no such bucket, or no such key), the download cell ends with the
    [ClientError] of the download, and the download is the only call
    made: no local file is written and nothing is printed. *)
Theorem download_cell_client_error (region : string) (w : World) :
  let bucket := "sagemaker-sample-data-" +:+ region in
  let key := "processing/census/census-income.csv" in
  find_object key (default [] (w_s3 w !! bucket)) = None →
  ∃ e, download_cell region w = (Raise e, logged (EvDownload bucket key) w) ∧
       exc_kind e = ClientError.
Proof.
  cbv zeta. intros Hmiss. unfold download_cell. unfold bind at 1. unfold s3_download_file.
  destruct (w_s3 w !! ("sagemaker-sample-data-" +:+ region)) as [objs|];
    simpl in Hmiss; [rewrite Hmiss|]; by eexists.
Qed.

Lemma download_cell_client_error_witness :
  ∃ e, (download_cell "eu-west-1" w_census).1 = Raise e ∧ exc_kind e = ClientError ∧
       (download_cell "eu-west-1" w_census).2 =
         logged (EvDownload "sagemaker-sample-data-eu-west-1"
                            "processing/census/census-income.csv") w_census.
Proof.
  destruct (download_cell_client_error "eu-west-1" w_census) as (e & Hrun & Hkind);
    [sample_run|].
  exists e. by rewrite Hrun.
Defined.

(** **** What the messages of the script say *)

Lemma mkdir_at_ok abs k fs fs' :
  mkdir_at abs k fs = (Ok tt, fs') → lookup_node fs' k = Some Dir.
Proof.
  unfold mkdir_at.
  destruct (faults fs !! k); [done|].
  destruct (lookup_node fs k); [done|].
  destruct (lookup_node fs (removelast k)) as [[]|]; try done.
  intros [= <-]. destruct k; [done|]. cbn [lookup_node set_nodes nodes].
  apply lookup_insert_eq.
Qed.

Lemma makedirs_rev_ok abs rk fs fs' :
  makedirs_rev abs rk fs = (Ok tt, fs') → lookup_node fs' (rev rk) = Some Dir.
Proof.
  destruct rk as [|c rhead]; cbn [makedirs_rev].
  - apply mkdir_at_ok.
  - destruct (lookup_node fs (rev rhead)); [apply mkdir_at_ok|].
    destruct (makedirs_rev abs rhead fs) as [[[]|e] fs1]; [apply mkdir_at_ok|].
    destruct (exc_kind e) as [[]| | | | | | |]; try done. apply mkdir_at_ok.
Qed.

Lemma fs_makedirs_ok p fs fs' :
  fs_makedirs p fs = (Ok tt, fs') → lookup_node fs' (path_of p) = Some Dir.
Proof. unfold fs_makedirs. intros H%makedirs_rev_ok. by rewrite rev_involutive in H. Qed.

Lemma fs_write_ok_file p c fs fs' :
  fs_write p c fs = (Ok tt, fs') → lookup_node fs' (path_of p) = Some (File c).
Proof.
  intros Hw. pose proof (fs_write_ok _ _ _ _ Hw) as ->.
  unfold fs_write in Hw. cbv zeta in Hw. generalize dependent (path_of p). intros k.
  destruct (faults fs !! k) as [err|].
  { destruct (at_write err); [|done].
    destruct (lookup_node fs k) as [[]|]; [done..|].
    by destruct (lookup_node fs (removelast k)) as [[]|]. }
  destruct k as [|c0 k]; [done|].
  intros _. cbn [lookup_node nodes set_nodes]. apply lookup_insert_eq.
Qed.

Lemma only_adds_lookup_node ks fs fs' k x :
  only_adds ks fs fs' → k ∉ ks → lookup_node fs k = Some x → lookup_node fs' k = Some x.
Proof. intros [_ H] Hk. destruct k; [done|]. cbn [lookup_node]. by apply H. Qed.

Lemma os_makedirs_eq p w :
  os_makedirs p w =
    ((fs_makedirs p (w_fs w)).1,
     mkWorld (fs_makedirs p (w_fs w)).2 (w_stdout w) (w_rng w) (w_s3 w)
             (w_trace w ++ [EvMakedirs p])).
Proof. unfold os_makedirs, syscall. by destruct (fs_makedirs p (w_fs w)). Qed.

Lemma to_csv_eq df p w :
  to_csv df p w =
    ((fs_write p (format_csv df) (w_fs w)).1,
     mkWorld (fs_write p (format_csv df) (w_fs w)).2 (w_stdout w) (w_rng w) (w_s3 w)
             (w_trace w ++ [EvWrite p])).
Proof. unfold to_csv, syscall. by destruct (fs_write p (format_csv df) (w_fs w)). Qed.

Ltac block_caught E raises :=
  pose proof (raises _ _ _ E) as ?Hos;
  cbn [fst snd];
  first [rewrite os_error_is_Exception by assumption
        |rewrite OSError_is_Exception by assumption];
  unfold print; fs_simpl; eexists _, _; split; [reflexivity|]; fs_simpl;
  split; [rewrite <- app_assoc; reflexivity|]; right; by eexists.

Lemma make_directories_cases w :
  ∃ w4 dirs,
    make_directories w = (Ok tt, w4) ∧
    w_stdout w4 = w_stdout w ++ dirs ∧
    (dirs = ["Successfully created directories"] ∧
     stat w4 TRAIN_DIR = Some Dir ∧ stat w4 VALIDATION_DIR = Some Dir ∧
     stat w4 TEST_DIR = Some Dir
     ∨ ∃ e, is_os_error e ∧ dirs = [exc_msg e; "Could not make directories"]).
Proof.
  unfold make_directories, try_except, bind, stat. rewrite os_makedirs_eq.
  destruct (fs_makedirs TRAIN_DIR (w_fs w)) as [[[]|e] fs1] eqn:E1;
    [|block_caught E1 (fs_makedirs_raises TRAIN_DIR)].
  cbn [fst snd]. rewrite os_makedirs_eq. fs_simpl.
  destruct (fs_makedirs VALIDATION_DIR fs1) as [[[]|e] fs2] eqn:E2;
    [|block_caught E2 (fs_makedirs_raises VALIDATION_DIR)].
  cbn [fst snd]. rewrite os_makedirs_eq. fs_simpl.
  destruct (fs_makedirs TEST_DIR fs2) as [[[]|e] fs3] eqn:E3;
    [|block_caught E3 (fs_makedirs_raises TEST_DIR)].
  cbn [fst snd]. unfold print. fs_simpl.
  eexists _, _. split; [reflexivity|]. fs_simpl. split; [reflexivity|]. left.
  split; [done|].
  pose proof (makedirs_rev_keeps _ _ _ _ _ E2) as K2.
  pose proof (makedirs_rev_keeps _ _ _ _ _ E3) as K3.
  apply fs_makedirs_ok in E1, E2, E3.
  split; [|split; [|done]].
  - eapply only_adds_lookup_node; [exact K3|apply not_elem_of_nil|].
    eapply only_adds_lookup_node; [exact K2|apply not_elem_of_nil|done].
  - eapply only_adds_lookup_node; [exact K3|apply not_elem_of_nil|done].
Qed.

Lemma written_distinct :
  path_of TRAIN_CSV ≠ path_of VALIDATION_CSV ∧
  path_of TRAIN_CSV ≠ path_of TEST_CSV ∧
  path_of VALIDATION_CSV ≠ path_of TEST_CSV.
Proof. rewrite path_of_TRAIN_CSV', path_of_VALIDATION_CSV, path_of_TEST_CSV. by repeat split. Qed.

Lemma write_files_cases train validation test w :
  ∃ w5 files,
    write_files train validation test w = (Ok tt, w5) ∧
    w_stdout w5 = w_stdout w ++ files ∧
    (files = ["Wrote files successfully"] ∧
     stat w5 TRAIN_CSV = Some (File (format_csv train)) ∧
     stat w5 VALIDATION_CSV = Some (File (format_csv validation)) ∧
     stat w5 TEST_CSV = Some (File (format_csv test))
     ∨ ∃ e, isinstance_OSError e ∧ files = ["Failed to write the files"; exc_msg e]).
Proof.
  unfold write_files, try_except, bind, stat. rewrite to_csv_eq.
  destruct (fs_write TRAIN_CSV (format_csv train) (w_fs w)) as [[[]|e] fs1] eqn:E1;
    [|block_caught E1 (fs_write_raises TRAIN_CSV (format_csv train))].
  cbn [fst snd]. rewrite to_csv_eq. fs_simpl.
  destruct (fs_write VALIDATION_CSV (format_csv validation) fs1) as [[[]|e] fs2] eqn:E2;
    [|block_caught E2 (fs_write_raises VALIDATION_CSV (format_csv validation))].
  cbn [fst snd]. rewrite to_csv_eq. fs_simpl.
  destruct (fs_write TEST_CSV (format_csv test) fs2) as [[[]|e] fs3] eqn:E3;
    [|block_caught E3 (fs_write_raises TEST_CSV (format_csv test))].
  cbn [fst snd]. unfold print. fs_simpl.
  eexists _, _. split; [reflexivity|]. fs_simpl. split; [reflexivity|]. left.
  split; [done|].
  pose proof (fs_write_keeps _ _ _ _ _ E2) as K2.
  pose proof (fs_write_keeps _ _ _ _ _ E3) as K3.
  destruct written_distinct as (Htv & Htt & Hvt).
  apply fs_write_ok_file in E1, E2, E3.
  split; [|split; [|done]].
  - eapply only_adds_lookup_node; [exact K3|by intros ?%list_elem_of_singleton|].
    eapply only_adds_lookup_node; [exact K2|by intros ?%list_elem_of_singleton|done].
  - eapply only_adds_lookup_node; [exact K3|by intros ?%list_elem_of_singleton|done].
Qed.

Lemma stat_kept ks w w' p x :
  only_adds ks (w_fs w) (w_fs w') → path_of p ∉ ks → stat w p = Some x → stat w' p = Some x.
Proof. apply only_adds_lookup_node. Qed.

Lemma stat_fs w w' p : w_fs w' = w_fs w → stat w' p = stat w p.
Proof. unfold stat. by intros ->. Qed.

Lemma directories_not_written :
  (path_of TRAIN_DIR ∉ written_paths) ∧ (path_of VALIDATION_DIR ∉ written_paths) ∧
  (path_of TEST_DIR ∉ written_paths).
Proof.
  rewrite path_of_TRAIN_DIR, path_of_VALIDATION_DIR, path_of_TEST_DIR.
  repeat split; apply (bool_decide_unpack _); vm_compute; reflexivity.
Qed.

Lemma preprocessing_py_too_small w df :
  (read_csv input_data_path w).1 = Ok df →
  length (rows df) < 3 →
  ∃ e w', preprocessing_py w = (Raise e, w').
Proof.
  intros Hread HN. unfold preprocessing_py, bind at 1.
  destruct (read_csv input_data_path w) as [r w1]. simpl in Hread. subst r.
  unfold bind at 1, print at 1. unfold bind at 1.
  match goal with
  | |- context [split3 df ?w0] =>
      destruct (split3_too_small df w0 HN) as (e & w2 & -> & _)
  end.
  by eexists _, _.
Qed.

(** X12.  The messages of a run that ends normally are truthful.  The
    output is the shape line; then "Successfully created directories",
    in which case the three directories exist at the end of the run, or
    the message of the [OSError] of [os.makedirs], which names a path,
    and "Could not make directories"; then "Wrote files successfully",
    in which case the three files hold three partitions that together
    are the rows of the data set, or "Failed to write the files" and the
    message of an instance of [OSError], whatever its text; then the
    completion marker. *)
Theorem preprocessing_py_messages (w w' : World) :
  preprocessing_py w = (Ok tt, w') →
  ∃ df dirs files,
    (read_csv input_data_path w).1 = Ok df ∧
    w_stdout w' = w_stdout w ++ [shape_line df] ++ dirs ++ files ++ [COMPLETED] ∧
    (dirs = ["Successfully created directories"] ∧
     stat w' TRAIN_DIR = Some Dir ∧ stat w' VALIDATION_DIR = Some Dir ∧
     stat w' TEST_DIR = Some Dir
     ∨ ∃ e, is_os_error e ∧ dirs = [exc_msg e; "Could not make directories"]) ∧
    (files = ["Wrote files successfully"] ∧
     (∃ train validation test,
        rows train ++ rows validation ++ rows test ≡ₚ rows df ∧
        stat w' TRAIN_CSV = Some (File (format_csv train)) ∧
        stat w' VALIDATION_CSV = Some (File (format_csv validation)) ∧
        stat w' TEST_CSV = Some (File (format_csv test)))
     ∨ ∃ e, isinstance_OSError e ∧ files = ["Failed to write the files"; exc_msg e]).
Proof.
  intros Hrun.
  destruct (read_csv input_data_path w) as [[df|e] w1] eqn:Hread.
  2:{ unfold preprocessing_py, bind at 1 in Hrun. by rewrite Hread in Hrun. }
  assert (Hdf : (read_csv input_data_path w).1 = Ok df) by by rewrite Hread.
  destruct (decide (3 ≤ length (rows df))) as [HN|HN].
  2:{ destruct (preprocessing_py_too_small w df Hdf) as (e & w2 & He); [lia|congruence]. }
  destruct (preprocessing_py_split w df Hdf HN)
    as (tr & va & te & w3 & Hsplit & Hperm & _ & Hout3 & _).
  rewrite Hsplit in Hrun. unfold bind at 1 in Hrun.
  destruct (make_directories_cases w3) as (w4 & dirs & Hmk & Hout4 & Hdirs).
  pose proof (keeps_write_files tr va te w4) as Hkeep.
  rewrite Hmk in Hrun. unfold bind at 1 in Hrun.
  destruct (write_files_cases tr va te w4) as (w5 & files & Hwr & Hout5 & Hfiles).
  specialize (Hkeep _ _ Hwr) as [Hkeep _].
  rewrite Hwr, print_eq in Hrun. injection Hrun as Hw'.
  assert (Hfs : w_fs w' = w_fs w5) by (by rewrite <- Hw').
  assert (Hout : w_stdout w' = w_stdout w5 ++ [COMPLETED]) by (by rewrite <- Hw').
  clear Hw'.
  exists df, dirs, files. split; [done|].
  split; [by rewrite Hout, Hout5, Hout4, Hout3, <- !app_assoc|].
  destruct directories_not_written as (Ht & Hv & Hte).
  rewrite !(stat_fs w5 w' _ Hfs).
  split.
  - destruct Hdirs as [(-> & H1 & H2 & H3)|Hdirs]; [left|by right].
    split; [reflexivity|].
    split; [exact (stat_kept _ w4 w5 _ _ Hkeep Ht H1)|].
    split; [exact (stat_kept _ w4 w5 _ _ Hkeep Hv H2)|].
    exact (stat_kept _ w4 w5 _ _ Hkeep Hte H3).
  - destruct Hfiles as [(-> & H1 & H2 & H3)|Hfiles]; [left|by right].
    split; [reflexivity|]. exists tr, va, te.
    split; [exact Hperm|]. split; [exact H1|]. split; [exact H2|exact H3].
Qed.

Lemma preprocessing_py_messages_witness :
  ∃ df dirs files,
    w_stdout (preprocessing_py w_partial).2 =
      w_stdout w_partial ++ [shape_line df] ++ dirs ++ files ++ [COMPLETED] ∧
    (dirs = ["Successfully created directories"] ∧
     stat (preprocessing_py w_partial).2 TEST_DIR = Some Dir
     ∨ ∃ e, is_os_error e ∧ dirs = [exc_msg e; "Could not make directories"]).
Proof.
  destruct (preprocessing_py_messages w_partial (preprocessing_py w_partial).2)
    as (df & dirs & files & _ & Hout & Hdirs & _); [sample_run|].
  exists df, dirs, files. split; [exact Hout|].
  destruct Hdirs as [(Hd & _ & _ & Hte)|Hdirs]; [left; by split|by right].
Defined.
